(** * RISKmap3: the controller and panel arithmetic of
      [public/components/UIComponents.panels.js]

    A shallow embedding of the parts of the HRDD risk tool that hold its
    session state and compute its budget and stage figures, followed by
    the properties established about them.

    Modelling conventions.
    - A JavaScript number is a [number]: a finite value carried as an
      exact rational, or one of [NaN], [PosInf], [NegInf].  Arithmetic
      on finite values is exact: rounding to binary64, overflow and the
      sign of zero are not represented.
    - A value that an array slot, an object property or a JSON document
      can hold is a [jsval].  Strings occur in the modelled code only as
      ISO country codes, which have their own type; a numeric slot that
      held a string is represented by the number [parseFloat] reads
      from it.
    - An object used as a map from ISO codes is a [gmap string jsval].
    - The risk engine ([RiskEngine.js]) is not part of the modelled
      file; the members the code uses are fields of the record
      [Engine.t] and every result holds for all engines.
    - DOM rendering, timers and console output have no effect on the
      session state and are left out; a handler's deferred
      recalculation is a separate function. *)

From Stdlib Require Import QArith Qround Qabs Lqa Lia ZArith Ascii String.
From stdpp Require Import base option list gmap strings pretty.

(** ** JavaScript numbers *)

Module JS.

Inductive number : Type :=
  | Fin (q : Q)
  | PosInf
  | NegInf
  | NaN.

Definition Qlt_b (p q : Q) : bool := negb (Qle_bool q p).

(** [Number.isFinite] on a number. *)
Definition isFiniteNum (a : number) : bool :=
  match a with Fin _ => true | _ => false end.

(** Sign of a number other than [NaN]: [Lt], [Eq] or [Gt]. *)
Definition sgn (a : number) : comparison :=
  match a with
  | Fin q => Qcompare q 0
  | PosInf => Gt
  | NegInf => Lt
  | NaN => Eq
  end.

Definition nneg (a : number) : number :=
  match a with
  | Fin q => Fin (- q)
  | PosInf => NegInf
  | NegInf => PosInf
  | NaN => NaN
  end.

Definition nadd (a b : number) : number :=
  match a, b with
  | NaN, _ | _, NaN => NaN
  | Fin p, Fin q => Fin (p + q)
  | PosInf, NegInf | NegInf, PosInf => NaN
  | PosInf, _ | _, PosInf => PosInf
  | NegInf, _ | _, NegInf => NegInf
  end.

Definition nsub (a b : number) : number := nadd a (nneg b).

Definition nmul (a b : number) : number :=
  match a, b with
  | NaN, _ | _, NaN => NaN
  | Fin p, Fin q => Fin (p * q)
  | _, _ =>
      match sgn a, sgn b with
      | Eq, _ | _, Eq => NaN
      | Gt, Gt | Lt, Lt => PosInf
      | _, _ => NegInf
      end
  end.

(** Division; a zero divisor is read as [+0]. *)
Definition ndiv (a b : number) : number :=
  match a, b with
  | NaN, _ | _, NaN => NaN
  | Fin p, Fin q =>
      if Qeq_bool q 0
      then match Qcompare p 0 with
           | Eq => NaN
           | Gt => PosInf
           | Lt => NegInf
           end
      else Fin (p / q)
  | Fin _, _ => Fin 0
  | _, Fin q =>
      match sgn a, Qlt_b q 0 with
      | Gt, false | Lt, true => PosInf
      | _, _ => NegInf
      end
  | _, _ => NaN
  end.

Definition nabs (a : number) : number :=
  match a with
  | Fin q => Fin (Qabs q)
  | PosInf | NegInf => PosInf
  | NaN => NaN
  end.

(** [a < b], [a <= b], [a === b] on numbers; every comparison with
    [NaN] is false. *)
Definition nlt (a b : number) : bool :=
  match a, b with
  | NaN, _ | _, NaN => false
  | Fin p, Fin q => Qlt_b p q
  | NegInf, NegInf | PosInf, _ | _, NegInf => false
  | _, _ => true
  end.

Definition neqb (a b : number) : bool :=
  match a, b with
  | Fin p, Fin q => Qeq_bool p q
  | PosInf, PosInf | NegInf, NegInf => true
  | _, _ => false
  end.

Definition nle (a b : number) : bool := nlt a b || neqb a b.
Definition ngt (a b : number) : bool := nlt b a.
Definition nge (a b : number) : bool := nle b a.

(** [Math.max] and [Math.min] of two arguments. *)
Definition nmax (a b : number) : number :=
  match a, b with
  | NaN, _ | _, NaN => NaN
  | _, _ => if nlt a b then b else a
  end.

Definition nmin (a b : number) : number :=
  match a, b with
  | NaN, _ | _, NaN => NaN
  | _, _ => if nlt b a then b else a
  end.

Definition nfloor (a : number) : number :=
  match a with Fin q => Fin (inject_Z (Qfloor q)) | _ => a end.

Definition nceil (a : number) : number :=
  match a with Fin q => Fin (inject_Z (Qceiling q)) | _ => a end.

(** [Math.round]: the nearest integer, halves towards [+Infinity]. *)
Definition nround (a : number) : number :=
  match a with Fin q => Fin (inject_Z (Qfloor (q + (1 # 2)))) | _ => a end.

(** Truthiness of a number: [0] and [NaN] are falsy. *)
Definition ntruthy (a : number) : bool :=
  match a with
  | Fin q => negb (Qeq_bool q 0)
  | NaN => false
  | _ => true
  end.

(** [a || b] on numbers. *)
Definition nor (a b : number) : number := if ntruthy a then a else b.

(** [a] and [b] are the same number: finite values are compared as
    rationals, whatever fraction represents them. *)
Definition same (a b : number) : Prop :=
  match a, b with
  | Fin p, Fin q => (p == q)%Q
  | PosInf, PosInf | NegInf, NegInf | NaN, NaN => True
  | _, _ => False
  end.

(** The number [a] is the finite value [q]. *)
Definition is_q (a : number) (q : Q) : Prop := same a (Fin q).

(** The number [a] is finite and lies in the closed interval [lo, hi]. *)
Definition within (lo hi : Q) (a : number) : Prop :=
  match a with Fin p => (lo <= p /\ p <= hi)%Q | _ => False end.

(** Values of array slots, object properties and JSON documents. *)
Inductive jsval : Type :=
  | JNum (n : number)
  | JBool (b : bool)
  | JNull
  | JUndefined.

(** [parseFloat v]: a number reads as itself; [null], [undefined] and
    booleans have no numeric prefix. *)
Definition parseFloat (v : jsval) : number :=
  match v with JNum n => n | _ => NaN end.

(** [Number.isFinite v]. *)
Definition isFinite (v : jsval) : bool :=
  match v with JNum n => isFiniteNum n | _ => false end.

(** [typeof v === 'number']. *)
Definition isNumber (v : jsval) : bool :=
  match v with JNum _ => true | _ => false end.

(** The number an arithmetic operator reads from a value ([ToNumber]). *)
Definition toNumber (v : jsval) : number :=
  match v with
  | JNum n => n
  | JBool true => Fin 1
  | JBool false | JNull => Fin 0
  | JUndefined => NaN
  end.

(** Truthiness of a value. *)
Definition truthy (v : jsval) : bool :=
  match v with
  | JNum n => ntruthy n
  | JBool b => b
  | JNull | JUndefined => false
  end.

(** [arr[i]]: reading past the end of an array gives [undefined]. *)
Definition index (arr : list jsval) (i : nat) : jsval :=
  default JUndefined (arr !! i).

(** Integer literals. *)
Definition num (z : Z) : number := Fin (inject_Z z).
Definition nums (l : list Z) : list number := num <$> l.
Definition jnums (l : list Z) : list jsval := (λ z, JNum (num z)) <$> l.

(** [arr[i] = v]: a write past the end grows the array and leaves
    holes, which read as [undefined]. *)
Fixpoint arraySet (arr : list jsval) (i : nat) (v : jsval) : list jsval :=
  match i, arr with
  | O, [] => [v]
  | O, _ :: t => v :: t
  | S i', [] => JUndefined :: arraySet [] i' v
  | S i', x :: t => x :: arraySet t i' v
  end.

(** [v || 0] read as a number. *)
Definition orZero (v : jsval) : number :=
  if truthy v then toNumber v else num 0.

End JS.

(** ** ISO codes *)

Module Code.

(** White space that [String.prototype.trim] strips, within ASCII. *)
Definition isWhiteSpace (c : ascii) : bool :=
  let n := nat_of_ascii c in
  (Nat.leb 9 n && Nat.leb n 13) || Nat.eqb n 32.

Definition upperChar (c : ascii) : ascii :=
  let n := nat_of_ascii c in
  if Nat.leb 97 n && Nat.leb n 122 then ascii_of_nat (n - 32) else c.

Fixpoint toUpperCase (s : string) : string :=
  match s with
  | EmptyString => EmptyString
  | String c t => String (upperChar c) (toUpperCase t)
  end.

Fixpoint trimStart (s : string) : string :=
  match s with
  | EmptyString => EmptyString
  | String c t => if isWhiteSpace c then trimStart t else s
  end.

Fixpoint trimEnd (s : string) : string :=
  match s with
  | EmptyString => EmptyString
  | String c t =>
      match trimEnd t with
      | EmptyString => if isWhiteSpace c then EmptyString else String c EmptyString
      | t' => String c t'
      end
  end.

Definition trim (s : string) : string := trimEnd (trimStart s).

(** [code.trim().toUpperCase()]. *)
Definition normalize (s : string) : string := toUpperCase (trim s).

(** Truthiness of a string: only the empty string is falsy. *)
Definition nonEmpty (s : string) : bool :=
  match s with EmptyString => false | _ => true end.

(** [Array.from(new Set(l))]: the distinct elements of [l] in order of
    first occurrence. *)
Fixpoint distinctFrom (seen l : list string) : list string :=
  match l with
  | [] => []
  | x :: t =>
      if bool_decide (x ∈ seen) then distinctFrom seen t
      else x :: distinctFrom (x :: seen) t
  end.

Definition distinct (l : list string) : list string := distinctFrom [] l.

(** [l.includes(x)]. *)
Definition includes (l : list string) (x : string) : bool :=
  bool_decide (x ∈ l).

End Code.

(** ** The risk engine, as the controller sees it *)

Module Engine.
Import JS.

(** One entry of the country reference data. *)
Record Country : Type := mkCountry {
  name : string;
  isoCode : string;
  itucRightsRating : jsval;
  corruptionIndex : jsval;
  freedomRating : jsval;
  wjpIndex : jsval;
  walkfreeSlaveryIndex : jsval
}.

(** What the controller reads from [generateRiskSummary]'s result:
    [summary.managed.score], [summary.focusEffectiveness] and
    [summary.countryManagedRisks]; an absent part is [JUndefined] or
    [None]. *)
Record RiskSummary : Type := mkRiskSummary {
  managedScore : jsval;
  focusEffectiveness : option (gmap string jsval);
  summaryCountryManagedRisks : option (gmap string jsval)
}.

(** The object [optimizeBudgetAllocation] returns. *)
Record OptimizationResult : Type := mkOptimizationResult {
  optimizedToolAllocation : list jsval;
  optBaselineRisk : jsval;
  currentManagedRisk : jsval;
  optimizedManagedRisk : jsval;
  socialAuditConstraintEnforced : jsval;
  socialAuditCostReductionApplied : jsval;
  socialAuditCoverageTarget : jsval
}.

(** What a call of the engine's optimizer hands back: a result object
    or one of the falsy values. *)
Inductive Returned : Type :=
  | RObject (r : OptimizationResult)
  | RNull
  | RUndefined
  | RFalse.

(** The members of [riskEngine] that the modelled code uses.  A default
    that is not an array is [None]; [generateBaselineSummary] stands for
    the [baselineRisk] member of the summary it returns. *)
Record t : Type := mkEngine {
  defaultWeights : option (list jsval);
  defaultFocus : jsval;
  defaultHRDDStrategy : option (list jsval);
  defaultTransparencyEffectiveness : option (list jsval);
  defaultResponsivenessStrategy : option (list jsval);
  defaultResponsivenessEffectiveness : option (list jsval);
  responsivenessLabels : option (list string);
  hrddStrategyLabels : option (list string);
  calculateWeightedRisk : Country -> list jsval -> jsval;
  generateBaselineSummary :
    list string -> list Country -> gmap string jsval ->
    gmap string jsval -> jsval;
  generateRiskSummary :
    number -> list string -> list jsval -> list number -> list jsval ->
    list number -> number -> number -> gmap string jsval ->
    gmap string jsval -> RiskSummary;
  optimizeBudgetAllocation :
    number -> number -> list number -> list number -> list number ->
    list number -> list jsval -> list number -> list jsval ->
    list number -> list string -> gmap string jsval ->
    gmap string jsval -> number -> bool -> bool -> number -> Returned
}.

End Engine.

(** ** Panel arithmetic *)

Module Panels.
Import JS.

(** *** Social-audit coverage target ([createCostAnalysisPanel]) *)

Definition computeAuditCoverageFromAllocation
    (allocation : option (list jsval)) : number :=
  match allocation with
  | None => num 0
  | Some allocation =>
      if Nat.ltb (length allocation) 4 then num 0
      else
        let announced :=
          if isFinite (index allocation 2)
          then nmax (num 0) (nmin (num 100) (toNumber (index allocation 2)))
          else num 0 in
        let unannounced :=
          if isFinite (index allocation 3)
          then nmax (num 0) (nmin (num 100) (toNumber (index allocation 3)))
          else num 0 in
        nadd announced unannounced
  end.

(** The members of the engine's budget analysis that the modelled code
    reads; a [currentAllocation] that is absent or not an array is
    [None], another member that is absent is [JUndefined]. *)
Record BudgetData : Type := mkBudgetData {
  currentAllocation : option (list jsval);
  supplierCount : jsval;
  hourlyRate : jsval;
  socialAuditCostReduction : jsval
}.

(** [auditCoverageTarget]: [None] is [null].  [budgetData] is what
    [riskEngine.calculateBudgetAnalysis] returned, [None] when falsy. *)
Definition auditCoverageTarget (hrddStrategy : option (list jsval))
    (budgetData : option BudgetData) (socialAuditConstraintEnabled : bool)
    : option number :=
  let safeCurrentAllocation :=
    match budgetData with
    | Some b => currentAllocation b
    | None => Some (default [] hrddStrategy)
    end in
  let currentAuditCoverage :=
    computeAuditCoverageFromAllocation hrddStrategy in
  let fallbackAuditCoverage :=
    computeAuditCoverageFromAllocation safeCurrentAllocation in
  if socialAuditConstraintEnabled then
    let baseValue :=
      if ngt currentAuditCoverage (Fin (1 # 10))
      then currentAuditCoverage else fallbackAuditCoverage in
    Some (nmax (num 0) (nmin (num 100) baseValue))
  else None.

(** *** Cost assumptions ([createCostAnalysisPanel]) *)

Definition sanitizeArray (values : option (list jsval)) (length : nat)
    (min max : number) : list number :=
  let baseArray := default [] values in
  (λ i,
     let rawValue := index baseArray i in
     let numeric := nmax min (nor (parseFloat rawValue) (num 0)) in
     if isFiniteNum max then nmin max numeric else numeric)
  <$> seq 0 length.

Definition strategyCount (eng : Engine.t) : nat :=
  match Engine.hrddStrategyLabels eng with
  | Some labels => length labels
  | None => 0
  end.

Definition sanitizedToolAnnualProgrammeCosts (eng : Engine.t)
    (toolAnnualProgrammeCosts : option (list jsval)) : list number :=
  sanitizeArray toolAnnualProgrammeCosts (strategyCount eng)
    (num 0) (num 50000).

Definition sanitizedToolPerSupplierCosts (eng : Engine.t)
    (toolPerSupplierCosts : option (list jsval)) : list number :=
  sanitizeArray toolPerSupplierCosts (strategyCount eng) (num 0) (num 2000).

Definition sanitizedToolInternalHours (eng : Engine.t)
    (toolInternalHours : option (list jsval)) : list number :=
  sanitizeArray toolInternalHours (strategyCount eng) (num 0) (num 500).

Definition sanitizedToolRemedyInternalHours (eng : Engine.t)
    (toolRemedyInternalHours : option (list jsval)) : list number :=
  sanitizeArray toolRemedyInternalHours (strategyCount eng)
    (num 0) (num 200).

(** The value an input listener of [setupCostAnalysisEventListeners]
    hands to the controller for a number typed into a cost field:
    [Math.min(cap, Math.max(0, numeric))]. *)
Definition listenerValue (cap : Z) (numeric : number) : number :=
  nmin (num cap) (nmax (num 0) numeric).

(** *** Budget rows ([renderDetailedBudgetBreakdown]) *)

(** [haystack.includes(needle)]. *)
Fixpoint includesString (needle haystack : string) : bool :=
  String.prefix needle haystack ||
  match haystack with
  | EmptyString => false
  | String _ t => includesString needle t
  end.

Definition lowerChar (c : ascii) : ascii :=
  let n := nat_of_ascii c in
  if Nat.leb 65 n && Nat.leb n 90 then ascii_of_nat (n + 32) else c.

Fixpoint toLowerCase (s : string) : string :=
  match s with
  | EmptyString => EmptyString
  | String c t => String (lowerChar c) (toLowerCase t)
  end.

(** What [buildBreakdown] closes over. *)
Record BreakdownContext : Type := mkContext {
  hrddStrategyLabels : list string;
  safeSupplierCount : number;
  safeHourlyRate : number;
  safeAnnualCosts : list jsval;
  safePerSupplierCosts : list jsval;
  safeInternalHours : list jsval;
  safeRemedyHours : list jsval;
  socialAuditReductionFactor : number
}.

(** [socialAuditToolIndexes.has(index)]: the label at [index] contains
    "audit", in any case. *)
Definition socialAuditTool (ctx : BreakdownContext) (i : nat) : bool :=
  match hrddStrategyLabels ctx !! i with
  | Some label => includesString "audit" (toLowerCase label)
  | None => false
  end.

Record ToolRow : Type := mkRow {
  rowName : string;
  coverage : number;
  suppliersUsingTool : number;
  detectionHours : number;
  remedyHours : number;
  totalExternalCost : number;
  detectionInternalCost : number;
  remedyInternalCost : number;
  totalInternalCost : number;
  totalCost : number
}.

Definition buildRow (ctx : BreakdownContext) (allocation : list jsval)
    (applySocialAuditReduction : bool) (label : string) (i : nat)
    : ToolRow :=
  let coverage :=
    if isFinite (index allocation i) then toNumber (index allocation i)
    else num 0 in
  let coverageRatio :=
    nmax (num 0) (nmin (num 1) (ndiv coverage (num 100))) in
  let suppliersUsingTool :=
    nceil (nmul (safeSupplierCount ctx) coverageRatio) in
  let annualProgrammeBase := orZero (index (safeAnnualCosts ctx) i) in
  let applyReduction := applySocialAuditReduction && socialAuditTool ctx i in
  let reductionFactor :=
    if applyReduction then socialAuditReductionFactor ctx else num 1 in
  let annualProgrammeCost :=
    nmul (nmul annualProgrammeBase coverageRatio) reductionFactor in
  let perSupplierCost :=
    nmul (orZero (index (safePerSupplierCosts ctx) i)) reductionFactor in
  let detectionHoursPerSupplier :=
    nmul (orZero (index (safeInternalHours ctx) i)) reductionFactor in
  let remedyHoursPerSupplier :=
    nmul (orZero (index (safeRemedyHours ctx) i)) reductionFactor in
  let detectionHours := nmul suppliersUsingTool detectionHoursPerSupplier in
  let remedyHours := nmul suppliersUsingTool remedyHoursPerSupplier in
  let detectionInternalCost := nmul detectionHours (safeHourlyRate ctx) in
  let remedyInternalCost := nmul remedyHours (safeHourlyRate ctx) in
  let totalInternalCost := nadd detectionInternalCost remedyInternalCost in
  let totalExternalCost :=
    nadd annualProgrammeCost (nmul suppliersUsingTool perSupplierCost) in
  let totalCost := nadd totalExternalCost totalInternalCost in
  mkRow label coverage suppliersUsingTool detectionHours remedyHours
    totalExternalCost detectionInternalCost remedyInternalCost
    totalInternalCost totalCost.

(** [buildBreakdown]: one row per label, in label order. *)
Definition buildBreakdown (ctx : BreakdownContext) (allocation : list jsval)
    (applySocialAuditReduction : bool) : list ToolRow :=
  imap (λ i label, buildRow ctx allocation applySocialAuditReduction label i)
       (hrddStrategyLabels ctx).

(** [breakdown.reduce((sum, tool) => sum + tool.totalCost, 0)]. *)
Definition toolTotal (breakdown : list ToolRow) : number :=
  foldl (λ sum tool, nadd sum (totalCost tool)) (num 0) breakdown.

(** [a || b] on values. *)
Definition valueOr (a b : jsval) : jsval := if truthy a then a else b.

(** [socialAuditReduction] in [renderDetailedBudgetBreakdown];
    [budgetData] is [None] when falsy, and a member it lacks is
    [JUndefined]. *)
Definition socialAuditReduction (budgetData : option BudgetData)
    (optimization : Engine.OptimizationResult) : number :=
  let budgetReduction :=
    match budgetData with
    | Some b => socialAuditCostReduction b
    | None => JUndefined
    end in
  let normalizedReduction :=
    if isFinite (Engine.socialAuditCostReductionApplied optimization)
    then nmax (num 0)
           (nmin (num 100)
              (toNumber (Engine.socialAuditCostReductionApplied optimization)))
    else if isFinite budgetReduction
    then nmax (num 0) (nmin (num 100) (toNumber budgetReduction))
    else num 0 in
  if truthy (Engine.socialAuditConstraintEnforced optimization)
  then normalizedReduction else num 0.

(** The constants [renderDetailedBudgetBreakdown] derives from its
    arguments before it builds rows.  An array argument that is not an
    array is [None]. *)
Definition breakdownContext (eng : Engine.t) (budgetData : option BudgetData)
    (optimization : Engine.OptimizationResult)
    (supplierCountArg hourlyRateArg : jsval)
    (toolAnnualProgrammeCosts toolPerSupplierCosts toolInternalHours
     toolRemedyInternalHours : option (list jsval)) : BreakdownContext :=
  let budgetMember (f : BudgetData → jsval) : jsval :=
    match budgetData with Some b => f b | None => JUndefined end in
  mkContext
    (default [] (Engine.hrddStrategyLabels eng))
    (nmax (num 1)
       (nfloor (toNumber
                  (valueOr supplierCountArg
                     (valueOr (budgetMember supplierCount) (JNum (num 1)))))))
    (nmax (num 0)
       (parseFloat
          (valueOr hourlyRateArg
             (valueOr (budgetMember hourlyRate) (JNum (num 0))))))
    (default [] toolAnnualProgrammeCosts)
    (default [] toolPerSupplierCosts)
    (default [] toolInternalHours)
    (default [] toolRemedyInternalHours)
    (if truthy (Engine.socialAuditConstraintEnforced optimization)
     then nmax (num 0)
            (nsub (num 1)
               (ndiv (socialAuditReduction budgetData optimization)
                  (num 100)))
     else num 1).

(** [optimizedBreakdown]: the rows for the optimizer's allocation. *)
Definition optimizedBreakdown (ctx : BreakdownContext)
    (budgetData : option BudgetData)
    (optimization : Engine.OptimizationResult) : list ToolRow :=
  buildBreakdown ctx (Engine.optimizedToolAllocation optimization)
    (truthy (Engine.socialAuditConstraintEnforced optimization)
     && ngt (socialAuditReduction budgetData optimization) (num 0)).

(** [currentBreakdown] when the budget analysis carries no
    [toolDeployments]. *)
Definition currentBreakdown (ctx : BreakdownContext)
    (budgetData : option BudgetData) : list ToolRow :=
  buildBreakdown ctx
    (default [] (budgetData ≫= currentAllocation)) false.

(** *** Stage attribution without an engine breakdown
        ([createFinalResultsPanel]) *)

(** [ensureNumber(value, fallback)] on values that are not strings. *)
Definition ensureNumber (value : jsval) (fallback : number) : number :=
  match value with
  | JNum n => if isFiniteNum n then n else fallback
  | _ => fallback
  end.



(** *** Rows from the engine's tool deployments
        ([renderDetailedBudgetBreakdown]) *)









(** *** Figures of the cost-analysis panel ([createCostAnalysisPanel]) *)

(** [typeof value === 'number' && Number.isFinite(value) ? value :
    fallback]. *)
Definition normalizeRiskValue (value : jsval) (fallback : number) : number :=
  match value with
  | JNum n => if isFiniteNum n then n else fallback
  | _ => fallback
  end.

(** [optimization?.member] of an optimisation that may be [null]. *)
Definition optMember (optimization : option Engine.OptimizationResult)
    (f : Engine.OptimizationResult → jsval) : jsval :=
  match optimization with Some o => f o | None => JUndefined end.

Record RiskFigures : Type := mkRiskFigures {
  baselineRiskValue : number;
  managedRiskValue : number;
  optimizedRiskValue : number
}.

(** The three risk levels the panel shows. *)
Definition riskFigures (baselineRisk managedRisk : jsval)
    (optimization : option Engine.OptimizationResult) : RiskFigures :=
  let baselineRiskValue :=
    normalizeRiskValue baselineRisk
      (normalizeRiskValue (optMember optimization Engine.optBaselineRisk)
         (num 1)) in
  let managedRiskValue :=
    normalizeRiskValue managedRisk
      (normalizeRiskValue (optMember optimization Engine.currentManagedRisk)
         baselineRiskValue) in
  let optimizedRiskValue :=
    normalizeRiskValue (optMember optimization Engine.optimizedManagedRisk)
      managedRiskValue in
  mkRiskFigures baselineRiskValue managedRiskValue optimizedRiskValue.

(** *** Figures of the optimisation summary ([renderOptimizationResults]) *)

Definition calculateEffectiveness (baseline managed : number) : number :=
  if negb (neqb baseline (num 0))
  then nmul (ndiv (nsub baseline managed) baseline) (num 100)
  else num 0.

Record EffectivenessFigures : Type := mkEffectiveness {
  currentBaselineRisk : number;
  currentManagedRiskValue : number;
  optimizedBaselineRisk : number;
  optimizedManagedRiskValue : number;
  currentEffectivenessValue : number;
  optimizedEffectivenessValue : number
}.

Definition effectivenessFigures (baselineRisk managedRisk : jsval)
    (optimization : Engine.OptimizationResult) : EffectivenessFigures :=
  let currentBaselineRisk :=
    normalizeRiskValue baselineRisk
      (normalizeRiskValue (Engine.optBaselineRisk optimization) (num 1)) in
  let currentManagedRisk :=
    normalizeRiskValue managedRisk
      (normalizeRiskValue (Engine.currentManagedRisk optimization)
         (num 0)) in
  let optimizedBaselineRisk :=
    normalizeRiskValue (Engine.optBaselineRisk optimization)
      currentBaselineRisk in
  let optimizedManagedRisk :=
    normalizeRiskValue (Engine.optimizedManagedRisk optimization)
      currentManagedRisk in
  mkEffectiveness currentBaselineRisk currentManagedRisk
    optimizedBaselineRisk optimizedManagedRisk
    (calculateEffectiveness currentBaselineRisk currentManagedRisk)
    (calculateEffectiveness optimizedBaselineRisk optimizedManagedRisk).

(** *** Attribution of a stage to the tools ([createFinalResultsPanel]) *)

(** One entry of [summary.strategy.hrddStrategies]. *)
Record StrategyEntry : Type := mkStrategyEntry {
  se_name : option string;
  se_category : option string;
  se_coverage : jsval;
  se_averageEffectiveness : jsval;
  se_contribution : jsval
}.

Definition entryMember {A : Type} (entry : option A) (f : A → jsval)
    : jsval :=
  match entry with Some e => f e | None => JUndefined end.

(** A text member, or [otherwise] when it is absent or empty. *)
Definition textOr {A : Type} (entry : option A) (f : A → option string)
    (otherwise : string) : string :=
  match entry ≫= f with
  | Some n => if Code.nonEmpty n then n else otherwise
  | None => otherwise
  end.

(** One row of [detectionBreakdown]; the member [coverageRange], which
    is copied as found and only displayed, is left out. *)
Record DetectionRow : Type := mkDetectionRow {
  dr_name : string;
  dr_category : string;
  dr_coverage : number;
  dr_assumedEffectiveness : number;
  dr_riskPoints : number;
  dr_percentOfTotal : number;
  dr_stageShare : number
}.

(** [Math.max(0, ensureNumber(value))]. *)
Definition contributionOf (value : jsval) : number :=
  nmax (num 0) (ensureNumber value (num 0)).

(** [list.reduce((sum, x) => sum + weight(x), 0)]. *)
Definition sumOf {A : Type} (weight : A → number) (l : list A) : number :=
  foldl (λ sum x, nadd sum (weight x)) (num 0) l.

(** The share of a stage given to an entry whose contribution is
    [contributionValue], among [count] entries that contribute
    [total] together. *)
Definition stageShareOf (contributionValue total : number) (count : nat)
    : number :=
  if ngt total (num 0) then ndiv contributionValue total
  else if Nat.ltb 0 count then ndiv (num 1) (num (Z.of_nat count))
  else num 0.

Definition detectionBreakdown (detectionStageReduction totalReduction : number)
    (strategies : list (option StrategyEntry)) : list DetectionRow :=
  let safeDetectionTotal :=
    sumOf (λ strategy,
             contributionOf (entryMember strategy se_contribution))
          strategies in
  (λ strategy,
     let coverageValue :=
       ensureNumber (entryMember strategy se_coverage) (num 0) in
     let assumedEffectiveness :=
       ensureNumber (entryMember strategy se_averageEffectiveness) (num 0) in
     let contributionValue :=
       contributionOf (entryMember strategy se_contribution) in
     let stageShare :=
       stageShareOf contributionValue safeDetectionTotal
         (length strategies) in
     let riskPoints := nmul detectionStageReduction stageShare in
     let percentOfTotal :=
       if negb (neqb totalReduction (num 0))
       then nmul (ndiv riskPoints totalReduction) (num 100) else num 0 in
     mkDetectionRow (textOr strategy se_name "Strategy")
       (textOr strategy se_category "Strategy")
       coverageValue assumedEffectiveness riskPoints percentOfTotal
       (if negb (neqb detectionStageReduction (num 0))
        then nmul stageShare (num 100) else num 0))
  <$> strategies.

(** One entry of [sustainedRemedyDetails] or [goodConductDetails]. *)
Record DetailEntry : Type := mkDetailEntry {
  de_name : option string;
  de_coverage : jsval;
  de_effectiveness : jsval;
  de_weightedEffect : jsval
}.

Record DetailRow : Type := mkDetailRow {
  tr_name : string;
  tr_coverage : number;
  tr_effectiveness : number;
  tr_stageShare : number;
  tr_riskPoints : number;
  tr_percentOfTotal : number
}.

(** [totalRemedyContribution] and [totalConductContribution]: the
    contribution the summary reports when it is above 0, otherwise the
    sum over the details. *)
Definition totalContribution (reported : jsval)
    (details : list (option DetailEntry)) : number :=
  let rawContribution := ensureNumber reported (num 0) in
  if ngt rawContribution (num 0) then rawContribution
  else sumOf (λ detail,
                contributionOf (entryMember detail de_weightedEffect))
             details.

(** [remedyBreakdown] and [conductBreakdown], which differ only in the
    stage and the details they are given. *)
Definition detailBreakdown (stageReduction totalReduction : number)
    (reported : jsval) (details : list (option DetailEntry))
    : list DetailRow :=
  let total := totalContribution reported details in
  (λ detail,
     let contributionValue :=
       contributionOf (entryMember detail de_weightedEffect) in
     let stageShare :=
       stageShareOf contributionValue total (length details) in
     let riskPoints := nmul stageReduction stageShare in
     let percentOfTotal :=
       if negb (neqb totalReduction (num 0))
       then nmul (ndiv riskPoints totalReduction) (num 100) else num 0 in
     mkDetailRow (textOr detail de_name "Tool")
       (ensureNumber (entryMember detail de_coverage) (num 0))
       (ensureNumber (entryMember detail de_effectiveness) (num 0))
       (if negb (neqb stageReduction (num 0))
        then nmul stageShare (num 100) else num 0)
       riskPoints percentOfTotal)
  <$> details.

End Panels.

(** ** AppController *)

Module AppController.
Import JS Code.
Import Engine (Country, OptimizationResult, RiskSummary).

Definition ENABLE_PANEL_6 : bool := true.

(** The controller's [this.state], field for field.  The members are
    typed by what the modelled code stores in them: a code in
    [selectedCountries] is a string, the cost assumptions and the
    normalized effectiveness vectors hold numbers, the vectors that
    are stored as passed hold any value. *)
Record State : Type := mkState {
  countries : list Country;
  weights : list jsval;
  supplierCount : number;
  hourlyRate : number;
  toolAnnualProgrammeCosts : list number;
  toolPerSupplierCosts : list number;
  toolInternalHours : list number;
  toolRemedyInternalHours : list number;
  saqConstraintEnabled : bool;
  socialAuditConstraintEnabled : bool;
  socialAuditCostReduction : number;
  shouldAutoRunOptimization : bool;
  lastOptimizationResult : option OptimizationResult;
  selectedCountries : list string;
  countryVolumes : gmap string jsval;
  countryRisks : gmap string jsval;
  countryManagedRisks : gmap string jsval;
  baselineRisk : number;
  managedRisk : number;
  riskConcentration : number;
  focus : number;
  hrddStrategy : list jsval;
  transparencyEffectiveness : list number;
  responsivenessStrategy : list jsval;
  responsivenessEffectiveness : list number;
  focusEffectivenessMetrics : option (gmap string jsval);
  currentPanel : number;
  loading : bool;
  error : option string;
  apiHealthy : bool;
  lastUpdate : option string;
  isDirty : bool;
  isGeneratingReport : bool
}.

(** [this.state.f = v] for each field [f]. *)
Definition set_countries (v : list Country) (s : State) : State :=
  mkState v (weights s) (supplierCount s) (hourlyRate s)
    (toolAnnualProgrammeCosts s) (toolPerSupplierCosts s)
    (toolInternalHours s) (toolRemedyInternalHours s)
    (saqConstraintEnabled s) (socialAuditConstraintEnabled s)
    (socialAuditCostReduction s) (shouldAutoRunOptimization s)
    (lastOptimizationResult s) (selectedCountries s) (countryVolumes s)
    (countryRisks s) (countryManagedRisks s) (baselineRisk s)
    (managedRisk s) (riskConcentration s) (focus s) (hrddStrategy s)
    (transparencyEffectiveness s) (responsivenessStrategy s)
    (responsivenessEffectiveness s) (focusEffectivenessMetrics s)
    (currentPanel s) (loading s) (error s) (apiHealthy s) (lastUpdate s)
    (isDirty s) (isGeneratingReport s).

Definition set_weights (v : list jsval) (s : State) : State :=
  mkState (countries s) v (supplierCount s) (hourlyRate s)
    (toolAnnualProgrammeCosts s) (toolPerSupplierCosts s)
    (toolInternalHours s) (toolRemedyInternalHours s)
    (saqConstraintEnabled s) (socialAuditConstraintEnabled s)
    (socialAuditCostReduction s) (shouldAutoRunOptimization s)
    (lastOptimizationResult s) (selectedCountries s) (countryVolumes s)
    (countryRisks s) (countryManagedRisks s) (baselineRisk s)
    (managedRisk s) (riskConcentration s) (focus s) (hrddStrategy s)
    (transparencyEffectiveness s) (responsivenessStrategy s)
    (responsivenessEffectiveness s) (focusEffectivenessMetrics s)
    (currentPanel s) (loading s) (error s) (apiHealthy s) (lastUpdate s)
    (isDirty s) (isGeneratingReport s).

Definition set_supplierCount (v : number) (s : State) : State :=
  mkState (countries s) (weights s) v (hourlyRate s)
    (toolAnnualProgrammeCosts s) (toolPerSupplierCosts s)
    (toolInternalHours s) (toolRemedyInternalHours s)
    (saqConstraintEnabled s) (socialAuditConstraintEnabled s)
    (socialAuditCostReduction s) (shouldAutoRunOptimization s)
    (lastOptimizationResult s) (selectedCountries s) (countryVolumes s)
    (countryRisks s) (countryManagedRisks s) (baselineRisk s)
    (managedRisk s) (riskConcentration s) (focus s) (hrddStrategy s)
    (transparencyEffectiveness s) (responsivenessStrategy s)
    (responsivenessEffectiveness s) (focusEffectivenessMetrics s)
    (currentPanel s) (loading s) (error s) (apiHealthy s) (lastUpdate s)
    (isDirty s) (isGeneratingReport s).

Definition set_hourlyRate (v : number) (s : State) : State :=
  mkState (countries s) (weights s) (supplierCount s) v
    (toolAnnualProgrammeCosts s) (toolPerSupplierCosts s)
    (toolInternalHours s) (toolRemedyInternalHours s)
    (saqConstraintEnabled s) (socialAuditConstraintEnabled s)
    (socialAuditCostReduction s) (shouldAutoRunOptimization s)
    (lastOptimizationResult s) (selectedCountries s) (countryVolumes s)
    (countryRisks s) (countryManagedRisks s) (baselineRisk s)
    (managedRisk s) (riskConcentration s) (focus s) (hrddStrategy s)
    (transparencyEffectiveness s) (responsivenessStrategy s)
    (responsivenessEffectiveness s) (focusEffectivenessMetrics s)
    (currentPanel s) (loading s) (error s) (apiHealthy s) (lastUpdate s)
    (isDirty s) (isGeneratingReport s).

Definition set_toolAnnualProgrammeCosts (v : list number) (s : State) : State :=
  mkState (countries s) (weights s) (supplierCount s) (hourlyRate s) v
    (toolPerSupplierCosts s) (toolInternalHours s)
    (toolRemedyInternalHours s) (saqConstraintEnabled s)
    (socialAuditConstraintEnabled s) (socialAuditCostReduction s)
    (shouldAutoRunOptimization s) (lastOptimizationResult s)
    (selectedCountries s) (countryVolumes s) (countryRisks s)
    (countryManagedRisks s) (baselineRisk s) (managedRisk s)
    (riskConcentration s) (focus s) (hrddStrategy s)
    (transparencyEffectiveness s) (responsivenessStrategy s)
    (responsivenessEffectiveness s) (focusEffectivenessMetrics s)
    (currentPanel s) (loading s) (error s) (apiHealthy s) (lastUpdate s)
    (isDirty s) (isGeneratingReport s).

Definition set_toolPerSupplierCosts (v : list number) (s : State) : State :=
  mkState (countries s) (weights s) (supplierCount s) (hourlyRate s)
    (toolAnnualProgrammeCosts s) v (toolInternalHours s)
    (toolRemedyInternalHours s) (saqConstraintEnabled s)
    (socialAuditConstraintEnabled s) (socialAuditCostReduction s)
    (shouldAutoRunOptimization s) (lastOptimizationResult s)
    (selectedCountries s) (countryVolumes s) (countryRisks s)
    (countryManagedRisks s) (baselineRisk s) (managedRisk s)
    (riskConcentration s) (focus s) (hrddStrategy s)
    (transparencyEffectiveness s) (responsivenessStrategy s)
    (responsivenessEffectiveness s) (focusEffectivenessMetrics s)
    (currentPanel s) (loading s) (error s) (apiHealthy s) (lastUpdate s)
    (isDirty s) (isGeneratingReport s).

Definition set_toolInternalHours (v : list number) (s : State) : State :=
  mkState (countries s) (weights s) (supplierCount s) (hourlyRate s)
    (toolAnnualProgrammeCosts s) (toolPerSupplierCosts s) v
    (toolRemedyInternalHours s) (saqConstraintEnabled s)
    (socialAuditConstraintEnabled s) (socialAuditCostReduction s)
    (shouldAutoRunOptimization s) (lastOptimizationResult s)
    (selectedCountries s) (countryVolumes s) (countryRisks s)
    (countryManagedRisks s) (baselineRisk s) (managedRisk s)
    (riskConcentration s) (focus s) (hrddStrategy s)
    (transparencyEffectiveness s) (responsivenessStrategy s)
    (responsivenessEffectiveness s) (focusEffectivenessMetrics s)
    (currentPanel s) (loading s) (error s) (apiHealthy s) (lastUpdate s)
    (isDirty s) (isGeneratingReport s).

Definition set_toolRemedyInternalHours (v : list number) (s : State) : State :=
  mkState (countries s) (weights s) (supplierCount s) (hourlyRate s)
    (toolAnnualProgrammeCosts s) (toolPerSupplierCosts s)
    (toolInternalHours s) v (saqConstraintEnabled s)
    (socialAuditConstraintEnabled s) (socialAuditCostReduction s)
    (shouldAutoRunOptimization s) (lastOptimizationResult s)
    (selectedCountries s) (countryVolumes s) (countryRisks s)
    (countryManagedRisks s) (baselineRisk s) (managedRisk s)
    (riskConcentration s) (focus s) (hrddStrategy s)
    (transparencyEffectiveness s) (responsivenessStrategy s)
    (responsivenessEffectiveness s) (focusEffectivenessMetrics s)
    (currentPanel s) (loading s) (error s) (apiHealthy s) (lastUpdate s)
    (isDirty s) (isGeneratingReport s).

Definition set_saqConstraintEnabled (v : bool) (s : State) : State :=
  mkState (countries s) (weights s) (supplierCount s) (hourlyRate s)
    (toolAnnualProgrammeCosts s) (toolPerSupplierCosts s)
    (toolInternalHours s) (toolRemedyInternalHours s) v
    (socialAuditConstraintEnabled s) (socialAuditCostReduction s)
    (shouldAutoRunOptimization s) (lastOptimizationResult s)
    (selectedCountries s) (countryVolumes s) (countryRisks s)
    (countryManagedRisks s) (baselineRisk s) (managedRisk s)
    (riskConcentration s) (focus s) (hrddStrategy s)
    (transparencyEffectiveness s) (responsivenessStrategy s)
    (responsivenessEffectiveness s) (focusEffectivenessMetrics s)
    (currentPanel s) (loading s) (error s) (apiHealthy s) (lastUpdate s)
    (isDirty s) (isGeneratingReport s).

Definition set_socialAuditConstraintEnabled (v : bool) (s : State) : State :=
  mkState (countries s) (weights s) (supplierCount s) (hourlyRate s)
    (toolAnnualProgrammeCosts s) (toolPerSupplierCosts s)
    (toolInternalHours s) (toolRemedyInternalHours s)
    (saqConstraintEnabled s) v (socialAuditCostReduction s)
    (shouldAutoRunOptimization s) (lastOptimizationResult s)
    (selectedCountries s) (countryVolumes s) (countryRisks s)
    (countryManagedRisks s) (baselineRisk s) (managedRisk s)
    (riskConcentration s) (focus s) (hrddStrategy s)
    (transparencyEffectiveness s) (responsivenessStrategy s)
    (responsivenessEffectiveness s) (focusEffectivenessMetrics s)
    (currentPanel s) (loading s) (error s) (apiHealthy s) (lastUpdate s)
    (isDirty s) (isGeneratingReport s).

Definition set_socialAuditCostReduction (v : number) (s : State) : State :=
  mkState (countries s) (weights s) (supplierCount s) (hourlyRate s)
    (toolAnnualProgrammeCosts s) (toolPerSupplierCosts s)
    (toolInternalHours s) (toolRemedyInternalHours s)
    (saqConstraintEnabled s) (socialAuditConstraintEnabled s) v
    (shouldAutoRunOptimization s) (lastOptimizationResult s)
    (selectedCountries s) (countryVolumes s) (countryRisks s)
    (countryManagedRisks s) (baselineRisk s) (managedRisk s)
    (riskConcentration s) (focus s) (hrddStrategy s)
    (transparencyEffectiveness s) (responsivenessStrategy s)
    (responsivenessEffectiveness s) (focusEffectivenessMetrics s)
    (currentPanel s) (loading s) (error s) (apiHealthy s) (lastUpdate s)
    (isDirty s) (isGeneratingReport s).

Definition set_shouldAutoRunOptimization (v : bool) (s : State) : State :=
  mkState (countries s) (weights s) (supplierCount s) (hourlyRate s)
    (toolAnnualProgrammeCosts s) (toolPerSupplierCosts s)
    (toolInternalHours s) (toolRemedyInternalHours s)
    (saqConstraintEnabled s) (socialAuditConstraintEnabled s)
    (socialAuditCostReduction s) v (lastOptimizationResult s)
    (selectedCountries s) (countryVolumes s) (countryRisks s)
    (countryManagedRisks s) (baselineRisk s) (managedRisk s)
    (riskConcentration s) (focus s) (hrddStrategy s)
    (transparencyEffectiveness s) (responsivenessStrategy s)
    (responsivenessEffectiveness s) (focusEffectivenessMetrics s)
    (currentPanel s) (loading s) (error s) (apiHealthy s) (lastUpdate s)
    (isDirty s) (isGeneratingReport s).

Definition set_lastOptimizationResult (v : option OptimizationResult) (s : State) : State :=
  mkState (countries s) (weights s) (supplierCount s) (hourlyRate s)
    (toolAnnualProgrammeCosts s) (toolPerSupplierCosts s)
    (toolInternalHours s) (toolRemedyInternalHours s)
    (saqConstraintEnabled s) (socialAuditConstraintEnabled s)
    (socialAuditCostReduction s) (shouldAutoRunOptimization s) v
    (selectedCountries s) (countryVolumes s) (countryRisks s)
    (countryManagedRisks s) (baselineRisk s) (managedRisk s)
    (riskConcentration s) (focus s) (hrddStrategy s)
    (transparencyEffectiveness s) (responsivenessStrategy s)
    (responsivenessEffectiveness s) (focusEffectivenessMetrics s)
    (currentPanel s) (loading s) (error s) (apiHealthy s) (lastUpdate s)
    (isDirty s) (isGeneratingReport s).

Definition set_selectedCountries (v : list string) (s : State) : State :=
  mkState (countries s) (weights s) (supplierCount s) (hourlyRate s)
    (toolAnnualProgrammeCosts s) (toolPerSupplierCosts s)
    (toolInternalHours s) (toolRemedyInternalHours s)
    (saqConstraintEnabled s) (socialAuditConstraintEnabled s)
    (socialAuditCostReduction s) (shouldAutoRunOptimization s)
    (lastOptimizationResult s) v (countryVolumes s) (countryRisks s)
    (countryManagedRisks s) (baselineRisk s) (managedRisk s)
    (riskConcentration s) (focus s) (hrddStrategy s)
    (transparencyEffectiveness s) (responsivenessStrategy s)
    (responsivenessEffectiveness s) (focusEffectivenessMetrics s)
    (currentPanel s) (loading s) (error s) (apiHealthy s) (lastUpdate s)
    (isDirty s) (isGeneratingReport s).

Definition set_countryVolumes (v : gmap string jsval) (s : State) : State :=
  mkState (countries s) (weights s) (supplierCount s) (hourlyRate s)
    (toolAnnualProgrammeCosts s) (toolPerSupplierCosts s)
    (toolInternalHours s) (toolRemedyInternalHours s)
    (saqConstraintEnabled s) (socialAuditConstraintEnabled s)
    (socialAuditCostReduction s) (shouldAutoRunOptimization s)
    (lastOptimizationResult s) (selectedCountries s) v (countryRisks s)
    (countryManagedRisks s) (baselineRisk s) (managedRisk s)
    (riskConcentration s) (focus s) (hrddStrategy s)
    (transparencyEffectiveness s) (responsivenessStrategy s)
    (responsivenessEffectiveness s) (focusEffectivenessMetrics s)
    (currentPanel s) (loading s) (error s) (apiHealthy s) (lastUpdate s)
    (isDirty s) (isGeneratingReport s).

Definition set_countryRisks (v : gmap string jsval) (s : State) : State :=
  mkState (countries s) (weights s) (supplierCount s) (hourlyRate s)
    (toolAnnualProgrammeCosts s) (toolPerSupplierCosts s)
    (toolInternalHours s) (toolRemedyInternalHours s)
    (saqConstraintEnabled s) (socialAuditConstraintEnabled s)
    (socialAuditCostReduction s) (shouldAutoRunOptimization s)
    (lastOptimizationResult s) (selectedCountries s) (countryVolumes s) v
    (countryManagedRisks s) (baselineRisk s) (managedRisk s)
    (riskConcentration s) (focus s) (hrddStrategy s)
    (transparencyEffectiveness s) (responsivenessStrategy s)
    (responsivenessEffectiveness s) (focusEffectivenessMetrics s)
    (currentPanel s) (loading s) (error s) (apiHealthy s) (lastUpdate s)
    (isDirty s) (isGeneratingReport s).

Definition set_countryManagedRisks (v : gmap string jsval) (s : State) : State :=
  mkState (countries s) (weights s) (supplierCount s) (hourlyRate s)
    (toolAnnualProgrammeCosts s) (toolPerSupplierCosts s)
    (toolInternalHours s) (toolRemedyInternalHours s)
    (saqConstraintEnabled s) (socialAuditConstraintEnabled s)
    (socialAuditCostReduction s) (shouldAutoRunOptimization s)
    (lastOptimizationResult s) (selectedCountries s) (countryVolumes s)
    (countryRisks s) v (baselineRisk s) (managedRisk s)
    (riskConcentration s) (focus s) (hrddStrategy s)
    (transparencyEffectiveness s) (responsivenessStrategy s)
    (responsivenessEffectiveness s) (focusEffectivenessMetrics s)
    (currentPanel s) (loading s) (error s) (apiHealthy s) (lastUpdate s)
    (isDirty s) (isGeneratingReport s).

Definition set_baselineRisk (v : number) (s : State) : State :=
  mkState (countries s) (weights s) (supplierCount s) (hourlyRate s)
    (toolAnnualProgrammeCosts s) (toolPerSupplierCosts s)
    (toolInternalHours s) (toolRemedyInternalHours s)
    (saqConstraintEnabled s) (socialAuditConstraintEnabled s)
    (socialAuditCostReduction s) (shouldAutoRunOptimization s)
    (lastOptimizationResult s) (selectedCountries s) (countryVolumes s)
    (countryRisks s) (countryManagedRisks s) v (managedRisk s)
    (riskConcentration s) (focus s) (hrddStrategy s)
    (transparencyEffectiveness s) (responsivenessStrategy s)
    (responsivenessEffectiveness s) (focusEffectivenessMetrics s)
    (currentPanel s) (loading s) (error s) (apiHealthy s) (lastUpdate s)
    (isDirty s) (isGeneratingReport s).

Definition set_managedRisk (v : number) (s : State) : State :=
  mkState (countries s) (weights s) (supplierCount s) (hourlyRate s)
    (toolAnnualProgrammeCosts s) (toolPerSupplierCosts s)
    (toolInternalHours s) (toolRemedyInternalHours s)
    (saqConstraintEnabled s) (socialAuditConstraintEnabled s)
    (socialAuditCostReduction s) (shouldAutoRunOptimization s)
    (lastOptimizationResult s) (selectedCountries s) (countryVolumes s)
    (countryRisks s) (countryManagedRisks s) (baselineRisk s) v
    (riskConcentration s) (focus s) (hrddStrategy s)
    (transparencyEffectiveness s) (responsivenessStrategy s)
    (responsivenessEffectiveness s) (focusEffectivenessMetrics s)
    (currentPanel s) (loading s) (error s) (apiHealthy s) (lastUpdate s)
    (isDirty s) (isGeneratingReport s).

Definition set_riskConcentration (v : number) (s : State) : State :=
  mkState (countries s) (weights s) (supplierCount s) (hourlyRate s)
    (toolAnnualProgrammeCosts s) (toolPerSupplierCosts s)
    (toolInternalHours s) (toolRemedyInternalHours s)
    (saqConstraintEnabled s) (socialAuditConstraintEnabled s)
    (socialAuditCostReduction s) (shouldAutoRunOptimization s)
    (lastOptimizationResult s) (selectedCountries s) (countryVolumes s)
    (countryRisks s) (countryManagedRisks s) (baselineRisk s)
    (managedRisk s) v (focus s) (hrddStrategy s)
    (transparencyEffectiveness s) (responsivenessStrategy s)
    (responsivenessEffectiveness s) (focusEffectivenessMetrics s)
    (currentPanel s) (loading s) (error s) (apiHealthy s) (lastUpdate s)
    (isDirty s) (isGeneratingReport s).

Definition set_focus (v : number) (s : State) : State :=
  mkState (countries s) (weights s) (supplierCount s) (hourlyRate s)
    (toolAnnualProgrammeCosts s) (toolPerSupplierCosts s)
    (toolInternalHours s) (toolRemedyInternalHours s)
    (saqConstraintEnabled s) (socialAuditConstraintEnabled s)
    (socialAuditCostReduction s) (shouldAutoRunOptimization s)
    (lastOptimizationResult s) (selectedCountries s) (countryVolumes s)
    (countryRisks s) (countryManagedRisks s) (baselineRisk s)
    (managedRisk s) (riskConcentration s) v (hrddStrategy s)
    (transparencyEffectiveness s) (responsivenessStrategy s)
    (responsivenessEffectiveness s) (focusEffectivenessMetrics s)
    (currentPanel s) (loading s) (error s) (apiHealthy s) (lastUpdate s)
    (isDirty s) (isGeneratingReport s).

Definition set_hrddStrategy (v : list jsval) (s : State) : State :=
  mkState (countries s) (weights s) (supplierCount s) (hourlyRate s)
    (toolAnnualProgrammeCosts s) (toolPerSupplierCosts s)
    (toolInternalHours s) (toolRemedyInternalHours s)
    (saqConstraintEnabled s) (socialAuditConstraintEnabled s)
    (socialAuditCostReduction s) (shouldAutoRunOptimization s)
    (lastOptimizationResult s) (selectedCountries s) (countryVolumes s)
    (countryRisks s) (countryManagedRisks s) (baselineRisk s)
    (managedRisk s) (riskConcentration s) (focus s) v
    (transparencyEffectiveness s) (responsivenessStrategy s)
    (responsivenessEffectiveness s) (focusEffectivenessMetrics s)
    (currentPanel s) (loading s) (error s) (apiHealthy s) (lastUpdate s)
    (isDirty s) (isGeneratingReport s).

Definition set_transparencyEffectiveness (v : list number) (s : State) : State :=
  mkState (countries s) (weights s) (supplierCount s) (hourlyRate s)
    (toolAnnualProgrammeCosts s) (toolPerSupplierCosts s)
    (toolInternalHours s) (toolRemedyInternalHours s)
    (saqConstraintEnabled s) (socialAuditConstraintEnabled s)
    (socialAuditCostReduction s) (shouldAutoRunOptimization s)
    (lastOptimizationResult s) (selectedCountries s) (countryVolumes s)
    (countryRisks s) (countryManagedRisks s) (baselineRisk s)
    (managedRisk s) (riskConcentration s) (focus s) (hrddStrategy s) v
    (responsivenessStrategy s) (responsivenessEffectiveness s)
    (focusEffectivenessMetrics s) (currentPanel s) (loading s) (error s)
    (apiHealthy s) (lastUpdate s) (isDirty s) (isGeneratingReport s).

Definition set_responsivenessStrategy (v : list jsval) (s : State) : State :=
  mkState (countries s) (weights s) (supplierCount s) (hourlyRate s)
    (toolAnnualProgrammeCosts s) (toolPerSupplierCosts s)
    (toolInternalHours s) (toolRemedyInternalHours s)
    (saqConstraintEnabled s) (socialAuditConstraintEnabled s)
    (socialAuditCostReduction s) (shouldAutoRunOptimization s)
    (lastOptimizationResult s) (selectedCountries s) (countryVolumes s)
    (countryRisks s) (countryManagedRisks s) (baselineRisk s)
    (managedRisk s) (riskConcentration s) (focus s) (hrddStrategy s)
    (transparencyEffectiveness s) v (responsivenessEffectiveness s)
    (focusEffectivenessMetrics s) (currentPanel s) (loading s) (error s)
    (apiHealthy s) (lastUpdate s) (isDirty s) (isGeneratingReport s).

Definition set_responsivenessEffectiveness (v : list number) (s : State) : State :=
  mkState (countries s) (weights s) (supplierCount s) (hourlyRate s)
    (toolAnnualProgrammeCosts s) (toolPerSupplierCosts s)
    (toolInternalHours s) (toolRemedyInternalHours s)
    (saqConstraintEnabled s) (socialAuditConstraintEnabled s)
    (socialAuditCostReduction s) (shouldAutoRunOptimization s)
    (lastOptimizationResult s) (selectedCountries s) (countryVolumes s)
    (countryRisks s) (countryManagedRisks s) (baselineRisk s)
    (managedRisk s) (riskConcentration s) (focus s) (hrddStrategy s)
    (transparencyEffectiveness s) (responsivenessStrategy s) v
    (focusEffectivenessMetrics s) (currentPanel s) (loading s) (error s)
    (apiHealthy s) (lastUpdate s) (isDirty s) (isGeneratingReport s).

Definition set_focusEffectivenessMetrics (v : option (gmap string jsval)) (s : State) : State :=
  mkState (countries s) (weights s) (supplierCount s) (hourlyRate s)
    (toolAnnualProgrammeCosts s) (toolPerSupplierCosts s)
    (toolInternalHours s) (toolRemedyInternalHours s)
    (saqConstraintEnabled s) (socialAuditConstraintEnabled s)
    (socialAuditCostReduction s) (shouldAutoRunOptimization s)
    (lastOptimizationResult s) (selectedCountries s) (countryVolumes s)
    (countryRisks s) (countryManagedRisks s) (baselineRisk s)
    (managedRisk s) (riskConcentration s) (focus s) (hrddStrategy s)
    (transparencyEffectiveness s) (responsivenessStrategy s)
    (responsivenessEffectiveness s) v (currentPanel s) (loading s)
    (error s) (apiHealthy s) (lastUpdate s) (isDirty s)
    (isGeneratingReport s).

Definition set_currentPanel (v : number) (s : State) : State :=
  mkState (countries s) (weights s) (supplierCount s) (hourlyRate s)
    (toolAnnualProgrammeCosts s) (toolPerSupplierCosts s)
    (toolInternalHours s) (toolRemedyInternalHours s)
    (saqConstraintEnabled s) (socialAuditConstraintEnabled s)
    (socialAuditCostReduction s) (shouldAutoRunOptimization s)
    (lastOptimizationResult s) (selectedCountries s) (countryVolumes s)
    (countryRisks s) (countryManagedRisks s) (baselineRisk s)
    (managedRisk s) (riskConcentration s) (focus s) (hrddStrategy s)
    (transparencyEffectiveness s) (responsivenessStrategy s)
    (responsivenessEffectiveness s) (focusEffectivenessMetrics s) v
    (loading s) (error s) (apiHealthy s) (lastUpdate s) (isDirty s)
    (isGeneratingReport s).

Definition set_loading (v : bool) (s : State) : State :=
  mkState (countries s) (weights s) (supplierCount s) (hourlyRate s)
    (toolAnnualProgrammeCosts s) (toolPerSupplierCosts s)
    (toolInternalHours s) (toolRemedyInternalHours s)
    (saqConstraintEnabled s) (socialAuditConstraintEnabled s)
    (socialAuditCostReduction s) (shouldAutoRunOptimization s)
    (lastOptimizationResult s) (selectedCountries s) (countryVolumes s)
    (countryRisks s) (countryManagedRisks s) (baselineRisk s)
    (managedRisk s) (riskConcentration s) (focus s) (hrddStrategy s)
    (transparencyEffectiveness s) (responsivenessStrategy s)
    (responsivenessEffectiveness s) (focusEffectivenessMetrics s)
    (currentPanel s) v (error s) (apiHealthy s) (lastUpdate s) (isDirty s)
    (isGeneratingReport s).

Definition set_error (v : option string) (s : State) : State :=
  mkState (countries s) (weights s) (supplierCount s) (hourlyRate s)
    (toolAnnualProgrammeCosts s) (toolPerSupplierCosts s)
    (toolInternalHours s) (toolRemedyInternalHours s)
    (saqConstraintEnabled s) (socialAuditConstraintEnabled s)
    (socialAuditCostReduction s) (shouldAutoRunOptimization s)
    (lastOptimizationResult s) (selectedCountries s) (countryVolumes s)
    (countryRisks s) (countryManagedRisks s) (baselineRisk s)
    (managedRisk s) (riskConcentration s) (focus s) (hrddStrategy s)
    (transparencyEffectiveness s) (responsivenessStrategy s)
    (responsivenessEffectiveness s) (focusEffectivenessMetrics s)
    (currentPanel s) (loading s) v (apiHealthy s) (lastUpdate s)
    (isDirty s) (isGeneratingReport s).

Definition set_apiHealthy (v : bool) (s : State) : State :=
  mkState (countries s) (weights s) (supplierCount s) (hourlyRate s)
    (toolAnnualProgrammeCosts s) (toolPerSupplierCosts s)
    (toolInternalHours s) (toolRemedyInternalHours s)
    (saqConstraintEnabled s) (socialAuditConstraintEnabled s)
    (socialAuditCostReduction s) (shouldAutoRunOptimization s)
    (lastOptimizationResult s) (selectedCountries s) (countryVolumes s)
    (countryRisks s) (countryManagedRisks s) (baselineRisk s)
    (managedRisk s) (riskConcentration s) (focus s) (hrddStrategy s)
    (transparencyEffectiveness s) (responsivenessStrategy s)
    (responsivenessEffectiveness s) (focusEffectivenessMetrics s)
    (currentPanel s) (loading s) (error s) v (lastUpdate s) (isDirty s)
    (isGeneratingReport s).

Definition set_lastUpdate (v : option string) (s : State) : State :=
  mkState (countries s) (weights s) (supplierCount s) (hourlyRate s)
    (toolAnnualProgrammeCosts s) (toolPerSupplierCosts s)
    (toolInternalHours s) (toolRemedyInternalHours s)
    (saqConstraintEnabled s) (socialAuditConstraintEnabled s)
    (socialAuditCostReduction s) (shouldAutoRunOptimization s)
    (lastOptimizationResult s) (selectedCountries s) (countryVolumes s)
    (countryRisks s) (countryManagedRisks s) (baselineRisk s)
    (managedRisk s) (riskConcentration s) (focus s) (hrddStrategy s)
    (transparencyEffectiveness s) (responsivenessStrategy s)
    (responsivenessEffectiveness s) (focusEffectivenessMetrics s)
    (currentPanel s) (loading s) (error s) (apiHealthy s) v (isDirty s)
    (isGeneratingReport s).

Definition set_isDirty (v : bool) (s : State) : State :=
  mkState (countries s) (weights s) (supplierCount s) (hourlyRate s)
    (toolAnnualProgrammeCosts s) (toolPerSupplierCosts s)
    (toolInternalHours s) (toolRemedyInternalHours s)
    (saqConstraintEnabled s) (socialAuditConstraintEnabled s)
    (socialAuditCostReduction s) (shouldAutoRunOptimization s)
    (lastOptimizationResult s) (selectedCountries s) (countryVolumes s)
    (countryRisks s) (countryManagedRisks s) (baselineRisk s)
    (managedRisk s) (riskConcentration s) (focus s) (hrddStrategy s)
    (transparencyEffectiveness s) (responsivenessStrategy s)
    (responsivenessEffectiveness s) (focusEffectivenessMetrics s)
    (currentPanel s) (loading s) (error s) (apiHealthy s) (lastUpdate s) v
    (isGeneratingReport s).

Definition set_isGeneratingReport (v : bool) (s : State) : State :=
  mkState (countries s) (weights s) (supplierCount s) (hourlyRate s)
    (toolAnnualProgrammeCosts s) (toolPerSupplierCosts s)
    (toolInternalHours s) (toolRemedyInternalHours s)
    (saqConstraintEnabled s) (socialAuditConstraintEnabled s)
    (socialAuditCostReduction s) (shouldAutoRunOptimization s)
    (lastOptimizationResult s) (selectedCountries s) (countryVolumes s)
    (countryRisks s) (countryManagedRisks s) (baselineRisk s)
    (managedRisk s) (riskConcentration s) (focus s) (hrddStrategy s)
    (transparencyEffectiveness s) (responsivenessStrategy s)
    (responsivenessEffectiveness s) (focusEffectivenessMetrics s)
    (currentPanel s) (loading s) (error s) (apiHealthy s) (lastUpdate s)
    (isDirty s) v.

(** *** Normalizers *)

Definition normalizeTransparencyEffectiveness
    (arr : option (list jsval)) : list number :=
  match arr with
  | None => nums [90; 45; 25; 15; 12; 5]%Z
  | Some arr =>
      (λ value,
         let parsed := parseFloat value in
         if negb (isFiniteNum parsed) then num 0
         else
           let scaled :=
             if nle (nabs parsed) (num 1) then nmul parsed (num 100)
             else parsed in
           nmax (num 0) (nmin (num 100) scaled)) <$> arr
  end.

(** The constants [normalizeResponsivenessEffectiveness] starts from. *)
Definition defaultValues (eng : Engine.t) : list jsval :=
  match Engine.defaultResponsivenessEffectiveness eng with
  | Some d => d
  | None => jnums [70; 85; 35; 25; 15; 5]%Z
  end.

Definition expectedLength (eng : Engine.t) : nat :=
  match Engine.responsivenessLabels eng with
  | Some labels => length labels
  | None => length (defaultValues eng)
  end.

Definition fallback (eng : Engine.t) (i : nat) : number :=
  if isFinite (index (defaultValues eng) i)
  then toNumber (index (defaultValues eng) i) else num 0.

Definition normalizeResponsivenessEffectiveness (eng : Engine.t)
    (arr : option (list jsval)) : list number :=
  (λ i,
     match arr with
     | None => nmax (num 0) (nmin (num 100) (fallback eng i))
     | Some arr =>
         let parsed := parseFloat (index arr i) in
         if negb (isFiniteNum parsed)
         then nmax (num 0) (nmin (num 100) (fallback eng i))
         else
           let scaled :=
             if nle (nabs parsed) (num 1) then nmul parsed (num 100)
             else parsed in
           nmax (num 0) (nmin (num 100) scaled)
     end) <$> seq 0 (expectedLength eng).

Definition clamp01 (v : jsval) : number :=
  let n := parseFloat v in
  if negb (isFiniteNum n) then num 0
  else nmax (num 0) (nmin (num 1) n).

(** *** Calculations *)

Definition validateCountryData (country : Country) : bool :=
  nonEmpty (Engine.isoCode country).

Definition calculateAllRisks (eng : Engine.t) (s : State) : State :=
  let newCountryRisks :=
    foldl (λ (acc : gmap string jsval) country,
             if validateCountryData country
             then <[Engine.isoCode country :=
                      Engine.calculateWeightedRisk eng country (weights s)]> acc
             else acc)
          ∅ (countries s) in
  set_countryRisks newCountryRisks s.

Definition calculateBaselineRisk (eng : Engine.t) (s : State) : State :=
  let summary :=
    Engine.generateBaselineSummary eng (selectedCountries s) (countries s)
      (countryRisks s) (countryVolumes s) in
  set_baselineRisk (if isFinite summary then toNumber summary else num 0) s.

Definition calculateManagedRisk (eng : Engine.t) (s : State) : State :=
  let summary :=
    Engine.generateRiskSummary eng (baselineRisk s) (selectedCountries s)
      (hrddStrategy s) (transparencyEffectiveness s)
      (responsivenessStrategy s) (responsivenessEffectiveness s)
      (clamp01 (JNum (focus s))) (riskConcentration s)
      (countryVolumes s) (countryRisks s) in
  let managed :=
    if isFinite (Engine.managedScore summary)
    then toNumber (Engine.managedScore summary) else num 0 in
  set_countryManagedRisks
    (default ∅ (Engine.summaryCountryManagedRisks summary))
    (set_focusEffectivenessMetrics (Engine.focusEffectiveness summary)
       (set_managedRisk managed s)).

(** The recalculation a handler defers by a timer; [now] is the time
    stamp [new Date().toISOString()] gives when the timer fires. *)
Definition recalculateManaged (eng : Engine.t) (now : string) (s : State)
    : State :=
  set_lastUpdate (Some now) (calculateManagedRisk eng s).

Definition recalculateBaselineAndManaged (eng : Engine.t) (now : string)
    (s : State) : State :=
  set_lastUpdate (Some now)
    (calculateManagedRisk eng (calculateBaselineRisk eng s)).

Definition recalculateAll (eng : Engine.t) (now : string) (s : State)
    : State :=
  set_lastUpdate (Some now)
    (calculateManagedRisk eng
       (calculateBaselineRisk eng (calculateAllRisks eng s))).

(** *** Handlers.  An argument that is not an array is [None]. *)

Definition onWeightsChange (newWeights : option (list jsval)) (s : State)
    : State :=
  match newWeights with
  | None => s
  | Some newWeights => set_isDirty true (set_weights newWeights s)
  end.

(** What [onCountrySelect] can be called with: an array (whose entries
    are strings or not), a single code to toggle, or anything else. *)
Inductive Selection : Type :=
  | SelArray (codes : list (option string))
  | SelString (code : string)
  | SelOther.

(** Drop [deselected] from an object of per-country values. *)
Definition deleteAll (codes : list string) (m : gmap string jsval)
    : gmap string jsval :=
  foldl (λ acc code, delete code acc) m codes.

Definition onCountrySelect (eng : Engine.t) (now : string)
    (nextSelected : Selection) (s : State) : State :=
  let updatedSelection : option (list string) :=
    match nextSelected with
    | SelArray codes =>
        Some (filter (λ c, nonEmpty c = true)
                ((λ code, match code with
                          | Some c => normalize c
                          | None => EmptyString
                          end) <$> codes))
    | SelString code =>
        let trimmed := normalize code in
        if negb (nonEmpty trimmed) then None
        else
          let selectionSet := distinct (normalize <$> selectedCountries s) in
          Some (if includes selectionSet trimmed
                then filter (λ c, c ≠ trimmed) selectionSet
                else selectionSet ++ [trimmed])
    | SelOther => Some []
    end in
  match updatedSelection with
  | None => s
  | Some updatedSelection =>
      let previousSet := distinct (selectedCountries s) in
      let deselected :=
        filter (λ code, includes updatedSelection code = false) previousSet in
      let s1 :=
        match deselected with
        | [] => s
        | _ =>
            set_countryManagedRisks
              (deleteAll deselected (countryManagedRisks s))
              (set_countryVolumes
                 (deleteAll deselected (countryVolumes s)) s)
        end in
      let s2 := set_isDirty true (set_selectedCountries updatedSelection s1) in
      set_lastUpdate (Some now)
        (calculateManagedRisk eng
           (calculateBaselineRisk eng (calculateAllRisks eng s2)))
  end.

Definition onVolumeChange (isoCode : string) (volume : jsval) (s : State)
    : State :=
  let normalized := normalize isoCode in
  let v := nmax (num 0) (nor (parseFloat volume) (num 0)) in
  if negb (includes (selectedCountries s) normalized) then s
  else
    set_isDirty true
      (set_countryVolumes (<[normalized := JNum v]> (countryVolumes s)) s).

Definition onHRDDStrategyChange (next : option (list jsval)) (s : State)
    : State :=
  match next with
  | None => s
  | Some next =>
      let updatedStrategy :=
        if ENABLE_PANEL_6 && saqConstraintEnabled s then
          let saqSum :=
            nadd (toNumber (index next 4)) (toNumber (index next 5)) in
          if ngt (nabs (nsub saqSum (num 100))) (Fin (1 # 10)) then
            if ngt saqSum (num 0) then
              let ratio := ndiv (num 100) saqSum in
              let u := arraySet next 4
                         (JNum (nmul (toNumber (index next 4)) ratio)) in
              arraySet u 5 (JNum (nmul (toNumber (index u 5)) ratio))
            else
              arraySet (arraySet next 4 (JNum (num 50))) 5 (JNum (num 50))
          else next
        else next in
      set_isDirty true (set_hrddStrategy updatedStrategy s)
  end.

Definition onTransparencyChange (next : option (list jsval)) (s : State)
    : State :=
  match next with
  | None => s
  | Some next =>
      set_isDirty true
        (set_transparencyEffectiveness
           (normalizeTransparencyEffectiveness (Some next)) s)
  end.

Definition onResponsivenessChange (next : option (list jsval)) (s : State)
    : State :=
  match next with
  | None => s
  | Some next => set_isDirty true (set_responsivenessStrategy next s)
  end.

Definition onResponsivenessEffectivenessChange (eng : Engine.t)
    (next : option (list jsval)) (s : State) : State :=
  match next with
  | None => s
  | Some next =>
      set_isDirty true
        (set_responsivenessEffectiveness
           (normalizeResponsivenessEffectiveness eng (Some next)) s)
  end.

Definition onFocusChange (next : jsval) (s : State) : State :=
  set_isDirty true (set_focus (clamp01 next) s).

Definition onSAQConstraintChange (enabled : jsval) (s : State) : State :=
  if negb ENABLE_PANEL_6 then s
  else
    set_lastOptimizationResult None
      (set_isDirty true (set_saqConstraintEnabled (truthy enabled) s)).

(** *** Budget optimisation *)

Definition optimizeBudgetAllocation (eng : Engine.t) (s : State)
    : State * Engine.Returned :=
  if negb ENABLE_PANEL_6 then (s, Engine.RNull)
  else
    let result :=
      Engine.optimizeBudgetAllocation eng
        (supplierCount s) (hourlyRate s)
        (toolAnnualProgrammeCosts s) (toolPerSupplierCosts s)
        (toolInternalHours s) (toolRemedyInternalHours s)
        (hrddStrategy s) (transparencyEffectiveness s)
        (responsivenessStrategy s) (responsivenessEffectiveness s)
        (selectedCountries s) (countryVolumes s) (countryRisks s)
        (focus s) (saqConstraintEnabled s)
        (socialAuditConstraintEnabled s) (socialAuditCostReduction s) in
    let stored :=
      match result with
      | Engine.RObject r => Some r
      | _ => None
      end in
    (set_shouldAutoRunOptimization false
       (set_lastOptimizationResult stored s),
     result).

(** *** Panel navigation *)

Definition setCurrentPanel (panel : number) (s : State) : State :=
  let maxPanel := if ENABLE_PANEL_6 then num 6 else num 5 in
  if nge panel (num 1) && nle panel maxPanel then
    let s1 := set_currentPanel panel s in
    if ENABLE_PANEL_6
    then set_shouldAutoRunOptimization (neqb panel (num 6)) s1
    else s1
  else s.

(** *** setState *)

(** The argument of [setState]: a member that is absent, or that fails
    the type test [setState] applies to it, is [None] (for the members
    tested with [typeof ... === 'number'], any [jsval] that is not a
    number).  An object of per-country values is given by its entries
    in property order. *)
Record PartialState : Type := mkPartial {
  p_countries : option (list Country);
  p_selectedCountries : option (list string);
  p_weights : option (list jsval);
  p_hrddStrategy : option (list jsval);
  p_transparencyEffectiveness : option (list jsval);
  p_responsivenessStrategy : option (list jsval);
  p_responsivenessEffectiveness : option (list jsval);
  p_focus : jsval;
  p_riskConcentration : jsval;
  p_countryVolumes : option (list (string * jsval));
  p_countryRisks : option (list (string * jsval));
  p_countryManagedRisks : option (list (string * jsval));
  p_baselineRisk : option number;
  p_managedRisk : option number;
  p_loading : option bool;
  p_error : option (option string);
  p_apiHealthy : option bool;
  p_lastUpdate : option (option string);
  p_isGeneratingReport : option bool;
  p_currentPanel : jsval
}.

(** [{}]: no member present. *)
Definition emptyPartial : PartialState :=
  mkPartial None None None None None None None JUndefined JUndefined
    None None None None None None None None None None JUndefined.

(** Copy the entries of an object under normalized keys, in property
    order; a later entry overwrites an earlier one with the same key. *)
Definition normalizeKeys (entries : list (string * jsval))
    : gmap string jsval :=
  foldl (λ (acc : gmap string jsval) kv, <[normalize kv.1 := kv.2]> acc)
        ∅ entries.

(** [if (present) this.state.f = g(value)]. *)
Definition assign {A B : Type} (v : option A) (g : A → B)
    (set : B → State → State) (s : State) : State :=
  match v with
  | Some a => set (g a) s
  | None => s
  end.

Definition setState (eng : Engine.t) (now : string)
    (partialState : option PartialState) (s : State) : State :=
  match partialState with
  | None => s
  | Some p =>
      let s := assign (p_countries p) id set_countries s in
      let s := assign (p_selectedCountries p) distinct
                 set_selectedCountries s in
      let s := assign (p_weights p) id set_weights s in
      let s := assign (p_hrddStrategy p) id set_hrddStrategy s in
      let s := assign (p_transparencyEffectiveness p)
                 (λ arr, normalizeTransparencyEffectiveness (Some arr))
                 set_transparencyEffectiveness s in
      let s := assign (p_responsivenessStrategy p) id
                 set_responsivenessStrategy s in
      let s := assign (p_responsivenessEffectiveness p)
                 (λ arr, normalizeResponsivenessEffectiveness eng (Some arr))
                 set_responsivenessEffectiveness s in
      let s := if isNumber (p_focus p)
               then set_focus (clamp01 (p_focus p)) s else s in
      let s := if isNumber (p_riskConcentration p)
               then set_riskConcentration (toNumber (p_riskConcentration p)) s
               else s in
      let s := assign (p_countryVolumes p) normalizeKeys
                 set_countryVolumes s in
      let s := assign (p_countryRisks p) normalizeKeys set_countryRisks s in
      let s := assign (p_countryManagedRisks p) normalizeKeys
                 set_countryManagedRisks s in
      let s := assign (p_baselineRisk p) id set_baselineRisk s in
      let s := assign (p_managedRisk p) id set_managedRisk s in
      let s := assign (p_loading p) id set_loading s in
      let s := assign (p_error p) id set_error s in
      let s := assign (p_apiHealthy p) id set_apiHealthy s in
      let s := assign (p_lastUpdate p) id set_lastUpdate s in
      let s := assign (p_isGeneratingReport p) id set_isGeneratingReport s in
      let s := if isNumber (p_currentPanel p)
               then set_currentPanel
                      (nmax (num 1)
                         (nmin (num 5) (nround (toNumber (p_currentPanel p)))))
                      s
               else s in
      let s := set_isDirty true s in
      set_lastUpdate (Some now)
        (calculateManagedRisk eng
           (calculateBaselineRisk eng (calculateAllRisks eng s)))
  end.

(** *** Adding and removing one country *)

Definition addCountry (eng : Engine.t) (now : string) (isoCode : string)
    (volume : option jsval) (s : State) : State :=
  let normalized := normalize isoCode in
  if negb (nonEmpty normalized) then s
  else
    let nextSelection := distinct (selectedCountries s ++ [normalized]) in
    let s1 := onCountrySelect eng now (SelArray (Some <$> nextSelection)) s in
    match volume with
    | Some v => onVolumeChange normalized v s1
    | None => s1
    end.

Definition removeCountry (eng : Engine.t) (now : string) (isoCode : string)
    (s : State) : State :=
  let normalized := normalize isoCode in
  if negb (nonEmpty normalized) then s
  else
    let s1 :=
      set_countryManagedRisks (delete normalized (countryManagedRisks s))
        (set_countryVolumes (delete normalized (countryVolumes s)) s) in
    let nextSelection :=
      filter (λ code, code ≠ normalized) (selectedCountries s1) in
    onCountrySelect eng now (SelArray (Some <$> nextSelection)) s1.

(** *** Persistence *)

(** The JSON document under the key [hrdd_app_state_v5], member by
    member, as [restoreState] tells the members apart: an array member
    is [Some] of its elements, a member that is absent or not an array
    is [None]; a scalar member is the value found, [JUndefined] when
    absent. *)
Record Snapshot : Type := mkSnapshot {
  snap_selectedCountries : option (list (option string));
  snap_weights : option (list jsval);
  snap_hrddStrategy : option (list jsval);
  snap_transparencyEffectiveness : option (list jsval);
  snap_responsivenessStrategy : option (list jsval);
  snap_responsivenessEffectiveness : option (list jsval);
  snap_focus : jsval;
  snap_riskConcentration : jsval;
  snap_countryVolumes : option (list (string * jsval));
  snap_supplierCount : jsval;
  snap_hourlyRate : jsval;
  snap_toolAnnualProgrammeCosts : option (list jsval);
  snap_toolPerSupplierCosts : option (list jsval);
  snap_toolInternalHours : option (list jsval);
  snap_toolRemedyInternalHours : option (list jsval);
  snap_saqConstraintEnabled : jsval;
  snap_socialAuditConstraintEnabled : jsval;
  snap_socialAuditCostReduction : jsval
}.

(** What [localStorage.getItem] finds: nothing, text from which
    [restoreState] cannot read a document object, or a document. *)
Inductive Storage : Type :=
  | NoItem
  | Unreadable
  | Document (snap : Snapshot).

(** A value after [JSON.stringify] and [JSON.parse]: a number that is
    not finite, and an empty array slot, become [null]. *)
Definition jsonValue (v : jsval) : jsval :=
  match v with
  | JNum (Fin q) => JNum (Fin q)
  | JNum _ => JNull
  | JBool b => JBool b
  | JNull => JNull
  | JUndefined => JNull
  end.

Definition jsonNumber (n : number) : jsval := jsonValue (JNum n).

(** An object after the same round trip: a property whose value is
    [undefined] is left out. *)
Definition jsonObject (m : gmap string jsval) : list (string * jsval) :=
  omap (λ kv : string * jsval,
          match kv.2 with
          | JUndefined => None
          | v => Some (kv.1, jsonValue v)
          end)
       (map_to_list m).

(** The [snapshot] object of [saveState], as [JSON.parse] reads it back
    from the text [JSON.stringify] made of it. *)
Definition snapshot (s : State) : Snapshot :=
  mkSnapshot
    (Some (Some <$> selectedCountries s))
    (Some (jsonValue <$> weights s))
    (Some (jsonValue <$> hrddStrategy s))
    (Some (jsonNumber <$> transparencyEffectiveness s))
    (Some (jsonValue <$> responsivenessStrategy s))
    (Some (jsonNumber <$> responsivenessEffectiveness s))
    (jsonNumber (focus s))
    (jsonNumber (riskConcentration s))
    (Some (jsonObject (countryVolumes s)))
    (if ENABLE_PANEL_6 then jsonNumber (supplierCount s) else JUndefined)
    (if ENABLE_PANEL_6 then jsonNumber (hourlyRate s) else JUndefined)
    (if ENABLE_PANEL_6
     then Some (jsonNumber <$> toolAnnualProgrammeCosts s) else None)
    (if ENABLE_PANEL_6
     then Some (jsonNumber <$> toolPerSupplierCosts s) else None)
    (if ENABLE_PANEL_6
     then Some (jsonNumber <$> toolInternalHours s) else None)
    (if ENABLE_PANEL_6
     then Some (jsonNumber <$> toolRemedyInternalHours s) else None)
    (if ENABLE_PANEL_6 then JBool (saqConstraintEnabled s) else JUndefined)
    (if ENABLE_PANEL_6
     then JBool (socialAuditConstraintEnabled s) else JUndefined)
    (if ENABLE_PANEL_6
     then jsonNumber
            (if isFiniteNum (socialAuditCostReduction s)
             then socialAuditCostReduction s else num 50)
     else JUndefined).

Definition saveState (s : State) : State * Storage :=
  (set_isDirty false s, Document (snapshot s)).

(** [Math.max(0, Number.isFinite(value) ? value : 0)]. *)
Definition restoreCost (value : jsval) : number :=
  nmax (num 0) (if isFinite value then toNumber value else num 0).

(** [typeof v === 'number'] and [typeof v === 'boolean'], with the
    value when the test succeeds. *)
Definition asNumber (v : jsval) : option number :=
  match v with JNum n => Some n | _ => None end.

Definition asBoolean (v : jsval) : option bool :=
  match v with JBool b => Some b | _ => None end.

(** A member read only [if (ENABLE_PANEL_6)]. *)
Definition panel6 {A : Type} (v : option A) : option A :=
  if ENABLE_PANEL_6 then v else None.

(** [if (member passes its test) { this.state.f = ...; restored = true; }]
    on the pair of the state and [restored]. *)
Definition restoreMember {A : Type} (v : option A) (f : A → State → State)
    (acc : State * bool) : State * bool :=
  match v with
  | Some a => (f a acc.1, true)
  | None => acc
  end.

(** The member-by-member part of [restoreState]: the state and the
    value of [restored] after the last member. *)
Definition restoreParsed (eng : Engine.t) (parsed : Snapshot) (s : State)
    : State * bool :=
  let acc := (s, false) in
  let acc := restoreMember (snap_weights parsed) set_weights acc in
  let acc :=
    restoreMember (snap_selectedCountries parsed)
      (λ codes,
         set_selectedCountries
           (filter (λ c, nonEmpty c = true)
              ((λ code, match code with
                        | Some c => normalize c
                        | None => EmptyString
                        end) <$> codes)))
      acc in
  let acc :=
    restoreMember (snap_hrddStrategy parsed) set_hrddStrategy acc in
  let acc :=
    restoreMember (snap_transparencyEffectiveness parsed)
      (λ arr, set_transparencyEffectiveness
                (normalizeTransparencyEffectiveness (Some arr)))
      acc in
  let acc :=
    restoreMember (snap_responsivenessStrategy parsed)
      set_responsivenessStrategy acc in
  let acc :=
    restoreMember (snap_responsivenessEffectiveness parsed)
      (λ arr, set_responsivenessEffectiveness
                (normalizeResponsivenessEffectiveness eng (Some arr)))
      acc in
  let acc :=
    restoreMember (asNumber (snap_focus parsed))
      (λ n, set_focus (clamp01 (JNum n))) acc in
  let acc :=
    restoreMember (panel6 (asNumber (snap_supplierCount parsed)))
      (λ n, set_supplierCount (nmax (num 1) (nfloor n))) acc in
  let acc :=
    restoreMember (panel6 (asNumber (snap_hourlyRate parsed)))
      (λ n, set_hourlyRate (nmax (num 0) n)) acc in
  let acc :=
    restoreMember (panel6 (snap_toolAnnualProgrammeCosts parsed))
      (λ arr, set_toolAnnualProgrammeCosts (restoreCost <$> arr)) acc in
  let acc :=
    restoreMember (panel6 (snap_toolPerSupplierCosts parsed))
      (λ arr, set_toolPerSupplierCosts (restoreCost <$> arr)) acc in
  let acc :=
    restoreMember (panel6 (snap_toolInternalHours parsed))
      (λ arr, set_toolInternalHours (restoreCost <$> arr)) acc in
  let acc :=
    restoreMember (panel6 (snap_toolRemedyInternalHours parsed))
      (λ arr, set_toolRemedyInternalHours (restoreCost <$> arr)) acc in
  let acc :=
    restoreMember (panel6 (asBoolean (snap_saqConstraintEnabled parsed)))
      set_saqConstraintEnabled acc in
  let acc :=
    restoreMember
      (panel6 (asBoolean (snap_socialAuditConstraintEnabled parsed)))
      set_socialAuditConstraintEnabled acc in
  let acc :=
    restoreMember
      (panel6 (asNumber (snap_socialAuditCostReduction parsed)))
      (λ n, set_socialAuditCostReduction
              (nmax (num 0) (nmin (num 100) n))) acc in
  let acc :=
    restoreMember (asNumber (snap_riskConcentration parsed))
      set_riskConcentration acc in
  let acc :=
    restoreMember (snap_countryVolumes parsed)
      (λ entries, set_countryVolumes (normalizeKeys entries)) acc in
  acc.

(** [restoreState]: the state afterwards and the value returned. *)
Definition restoreState (eng : Engine.t) (storage : Storage) (s : State)
    : State * bool :=
  match storage with
  | NoItem | Unreadable => (s, false)
  | Document parsed =>
      let acc := restoreParsed eng parsed s in
      (set_isDirty false acc.1, acc.2)
  end.

(** *** The state a new controller starts from *)

Definition initialState (eng : Engine.t) : State :=
  {| countries := [];
     weights := default (jnums [20; 20; 20; 20; 20]%Z)
                  (Engine.defaultWeights eng);
     supplierCount := num 500;
     hourlyRate := num 40;
     toolAnnualProgrammeCosts := nums [12000; 0; 0; 40000; 0; 0]%Z;
     toolPerSupplierCosts := nums [120; 0; 1000; 0; 0; 0]%Z;
     toolInternalHours := nums [6; 20; 20; 6; 2; 1]%Z;
     toolRemedyInternalHours := nums [0; 10; 10; 6; 2; 2]%Z;
     saqConstraintEnabled := true;
     socialAuditConstraintEnabled := true;
     socialAuditCostReduction := num 50;
     shouldAutoRunOptimization := false;
     lastOptimizationResult := None;
     selectedCountries := [];
     countryVolumes := ∅;
     countryRisks := ∅;
     countryManagedRisks := ∅;
     baselineRisk := num 0;
     managedRisk := num 0;
     riskConcentration := num 1;
     focus := match Engine.defaultFocus eng with
              | JNum n => n
              | _ => Fin (6 # 10)
              end;
     hrddStrategy := default (jnums [0; 10; 5; 65; 100; 0]%Z)
                       (Engine.defaultHRDDStrategy eng);
     transparencyEffectiveness :=
       normalizeTransparencyEffectiveness
         (Some (default (jnums [80; 40; 30; 20; 10; 5]%Z)
                  (Engine.defaultTransparencyEffectiveness eng)));
     responsivenessStrategy :=
       default (jnums [80; 50; 30; 15; 5; 5]%Z)
         (Engine.defaultResponsivenessStrategy eng);
     responsivenessEffectiveness :=
       normalizeResponsivenessEffectiveness eng
         (Some (default (jnums [80; 35; 10; 10; 2; 2]%Z)
                  (Engine.defaultResponsivenessEffectiveness eng)));
     focusEffectivenessMetrics := None;
     currentPanel := num 1;
     loading := true;
     error := None;
     apiHealthy := false;
     lastUpdate := None;
     isDirty := false;
     isGeneratingReport := false |}.

(** *** Cost-analysis handlers *)

(** [Math.max(0, parseFloat(value) || 0)]. *)
Definition costValue (value : jsval) : number :=
  nmax (num 0) (nor (parseFloat value) (num 0)).

Definition onSupplierCountChange (count : jsval) (s : State) : State :=
  if negb ENABLE_PANEL_6 then s
  else
    set_lastOptimizationResult None
      (set_isDirty true
         (set_supplierCount
            (nmax (num 1) (nfloor (nor (parseFloat count) (num 1)))) s)).

Definition onHourlyRateChange (rate : jsval) (s : State) : State :=
  if negb ENABLE_PANEL_6 then s
  else
    set_lastOptimizationResult None
      (set_isDirty true (set_hourlyRate (costValue rate) s)).

(** [if (toolIndex >= 0 && toolIndex < arr.length) arr[toolIndex] = v]
    for a [toolIndex] that is a number: [None] when the test fails.  A
    whole index in range replaces that element; an index in range that
    is not whole names a property of the array object that is no
    element, and the elements stay as they are. *)
Definition setToolEntry (toolIndex : number) (v : number)
    (arr : list number) : option (list number) :=
  if nge toolIndex (num 0) && nlt toolIndex (num (Z.of_nat (length arr)))
  then
    Some match toolIndex with
         | Fin q =>
             if Qeq_bool q (inject_Z (Qfloor q))
             then <[Z.to_nat (Qfloor q) := v]> arr
             else arr
         | _ => arr
         end
  else None.

(** The body the four tool handlers share: the array read by [get] and
    written by [set]. *)
Definition onToolValueChange (get : State → list number)
    (set : list number → State → State) (toolIndex : number)
    (value : jsval) (s : State) : State :=
  if negb ENABLE_PANEL_6 then s
  else
    match setToolEntry toolIndex (costValue value) (get s) with
    | Some arr =>
        set_lastOptimizationResult None (set_isDirty true (set arr s))
    | None => s
    end.

Definition onToolAnnualProgrammeCostChange (toolIndex : number)
    (cost : jsval) (s : State) : State :=
  onToolValueChange toolAnnualProgrammeCosts set_toolAnnualProgrammeCosts
    toolIndex cost s.

Definition onToolPerSupplierCostChange (toolIndex : number) (cost : jsval)
    (s : State) : State :=
  onToolValueChange toolPerSupplierCosts set_toolPerSupplierCosts
    toolIndex cost s.

Definition onToolInternalHoursChange (toolIndex : number) (hours : jsval)
    (s : State) : State :=
  onToolValueChange toolInternalHours set_toolInternalHours
    toolIndex hours s.

Definition onToolRemedyInternalHoursChange (toolIndex : number)
    (hours : jsval) (s : State) : State :=
  onToolValueChange toolRemedyInternalHours set_toolRemedyInternalHours
    toolIndex hours s.

Definition onSocialAuditConstraintChange (enabled : jsval) (s : State)
    : State :=
  if negb ENABLE_PANEL_6 then s
  else
    set_lastOptimizationResult None
      (set_isDirty true
         (set_socialAuditConstraintEnabled (truthy enabled) s)).

Definition onSocialAuditCostReductionChange (percentage : jsval)
    (s : State) : State :=
  if negb ENABLE_PANEL_6 then s
  else
    let parsed := parseFloat percentage in
    let clamped :=
      if isFiniteNum parsed then nmax (num 0) (nmin (num 100) parsed)
      else num 0 in
    set_shouldAutoRunOptimization false
      (set_lastOptimizationResult None
         (set_isDirty true (set_socialAuditCostReduction clamped s))).

Definition setCurrentStep (step : number) (s : State) : State :=
  setCurrentPanel step s.

(** *** Loading, demo data and reset *)

(** [loadSavedState]: the state afterwards and the value returned. *)
Definition loadSavedState (eng : Engine.t) (now : string)
    (storage : Storage) (s : State) : State * bool :=
  let '(s1, restored) := restoreState eng storage s in
  if restored then
    (set_isDirty false
       (set_lastUpdate (Some now)
          (calculateManagedRisk eng
             (calculateBaselineRisk eng (calculateAllRisks eng s1)))),
     true)
  else (s1, false).

Definition demoCountries : list Country :=
  [ Engine.mkCountry "Bangladesh" "BGD" (JNum (num 68)) (JNum (num 25))
      (JNum (num 32)) (JNum (num 30)) (JNum (num 48));
    Engine.mkCountry "Vietnam" "VNM" (JNum (num 64)) (JNum (num 36))
      (JNum (num 49)) (JNum (num 45)) (JNum (num 38));
    Engine.mkCountry "Brazil" "BRA" (JNum (num 52)) (JNum (num 38))
      (JNum (num 75)) (JNum (num 54)) (JNum (num 32));
    Engine.mkCountry "Germany" "DEU" (JNum (num 18)) (JNum (num 80))
      (JNum (num 90)) (JNum (num 79)) (JNum (num 15)) ].

Definition loadDemoData (eng : Engine.t) (now : string) (s : State)
    : State :=
  let s := set_countries demoCountries s in
  let s := set_selectedCountries (Engine.isoCode <$> take 3 demoCountries) s in
  let s :=
    set_countryVolumes
      (<["BRA" := JNum (num 15)]>
         (<["VNM" := JNum (num 20)]> (<["BGD" := JNum (num 30)]> ∅))) s in
  let s := set_apiHealthy false s in
  let s := set_error None s in
  let s := set_loading false s in
  let s :=
    calculateManagedRisk eng
      (calculateBaselineRisk eng (calculateAllRisks eng s)) in
  set_isDirty false (set_lastUpdate (Some now) s).

(** The session members [resetApplicationState] assigns before it
    recalculates.  An engine default that is not an array is taken to
    be absent, as in [initialState]. *)
Definition resetMembers (eng : Engine.t) (s : State) : State :=
  let defaultWeights :=
    default (jnums [20; 20; 20; 20; 20]%Z) (Engine.defaultWeights eng) in
  let defaultFocus :=
    match Engine.defaultFocus eng with
    | JNum n => n
    | _ => Fin (6 # 10)
    end in
  let defaultHRDDStrategy :=
    default (jnums [0; 10; 5; 65; 100; 0]%Z)
      (Engine.defaultHRDDStrategy eng) in
  let defaultTransparency :=
    normalizeTransparencyEffectiveness
      (Some (default (jnums [90; 50; 25; 10; 8; 2]%Z)
               (Engine.defaultTransparencyEffectiveness eng))) in
  let defaultResponsiveness :=
    default (jnums [75; 85; 50; 25; 5; 5]%Z)
      (Engine.defaultResponsivenessStrategy eng) in
  let defaultResponsivenessEffectiveness :=
    normalizeResponsivenessEffectiveness eng
      (Some (default (jnums [90; 50; 10; 10; 2; 2]%Z)
               (Engine.defaultResponsivenessEffectiveness eng))) in
  let s := set_weights defaultWeights s in
  let s := set_selectedCountries [] s in
  let s := set_countryVolumes ∅ s in
  let s := set_countryRisks ∅ s in
  let s := set_countryManagedRisks ∅ s in
  let s := set_baselineRisk (num 0) s in
  let s := set_managedRisk (num 0) s in
  let s := set_riskConcentration (num 1) s in
  let s := set_focus defaultFocus s in
  let s := set_hrddStrategy defaultHRDDStrategy s in
  let s := set_transparencyEffectiveness defaultTransparency s in
  let s := set_responsivenessStrategy defaultResponsiveness s in
  let s :=
    set_responsivenessEffectiveness defaultResponsivenessEffectiveness s in
  let s := set_focusEffectivenessMetrics None s in
  let s := set_currentPanel (num 1) s in
  let s := set_isDirty false s in
  let s := set_loading false s in
  let s := set_error None s in
  let s := set_isGeneratingReport false s in
  if ENABLE_PANEL_6 then
    let s := set_supplierCount (num 500) s in
    let s := set_hourlyRate (num 40) s in
    let s :=
      set_toolAnnualProgrammeCosts (nums [12000; 0; 0; 40000; 0; 0]%Z) s in
    let s := set_toolPerSupplierCosts (nums [120; 0; 1000; 0; 0; 0]%Z) s in
    let s := set_toolInternalHours (nums [6; 20; 20; 6; 2; 1]%Z) s in
    let s := set_toolRemedyInternalHours (nums [0; 10; 10; 6; 2; 2]%Z) s in
    let s := set_saqConstraintEnabled true s in
    let s := set_socialAuditConstraintEnabled true s in
    let s := set_socialAuditCostReduction (num 50) s in
    let s := set_shouldAutoRunOptimization false s in
    set_lastOptimizationResult None s
  else s.

(** [resetApplicationState]: the state afterwards and what is left
    under the storage key, which the reset removes. *)
Definition resetApplicationState (eng : Engine.t) (now : string)
    (s : State) : State * Storage :=
  (set_lastUpdate (Some now)
     (calculateManagedRisk eng
        (calculateBaselineRisk eng
           (calculateAllRisks eng (resetMembers eng s)))),
   NoItem).

(** *** Showing panel 6 *)

(** The microtask [renderCurrentPanel] queues for panel 6:
    [createCostAnalysisPanel] runs the optimizer when
    [shouldAutoRunOptimization] is set and otherwise takes the last
    result, then the flag is cleared.  The second component is the
    optimisation the panel shows, [None] when it shows none. *)
Definition renderCostAnalysisPanel (eng : Engine.t) (s : State)
    : State * option OptimizationResult :=
  let shown :=
    if shouldAutoRunOptimization s then
      let run := optimizeBudgetAllocation eng s in
      (run.1,
       match run.2 with
       | Engine.RObject r => Some r
       | _ => None
       end)
    else (s, lastOptimizationResult s) in
  (set_shouldAutoRunOptimization false shown.1, shown.2).

(** *** The cost fields of panel 6 ([setupCostAnalysisEventListeners]) *)

(** What the [input] and [blur] listeners of a field do once
    [parseEditableNumber] has read its text: [numeric] is [None] for
    [null], otherwise the finite number read.  Nothing is passed on for
    [null]. *)
Definition supplierCountListener (numeric : option Q) (s : State) : State :=
  match numeric with
  | None => s
  | Some q => onSupplierCountChange (JNum (nmax (num 1) (nfloor (Fin q)))) s
  end.

Definition hourlyRateListener (numeric : option Q) (s : State) : State :=
  match numeric with
  | None => s
  | Some q => onHourlyRateChange (JNum (nmax (num 0) (Fin q))) s
  end.

(** The listeners of the four kinds of tool field differ in their cap
    and in the handler they call. *)
Definition toolFieldListener (cap : Z)
    (handler : number → jsval → State → State) (index : nat)
    (numeric : option Q) (s : State) : State :=
  match numeric with
  | None => s
  | Some q =>
      handler (num (Z.of_nat index))
        (JNum (Panels.listenerValue cap (Fin q))) s
  end.

Definition toolAnnualCostListener :=
  toolFieldListener 50000 onToolAnnualProgrammeCostChange.
Definition toolPerSupplierCostListener :=
  toolFieldListener 2000 onToolPerSupplierCostChange.
Definition toolInternalHoursListener :=
  toolFieldListener 500 onToolInternalHoursChange.
Definition toolRemedyInternalHoursListener :=
  toolFieldListener 200 onToolRemedyInternalHoursChange.

Definition socialAuditReductionListener (numeric : option Q) (s : State)
    : State :=
  match numeric with
  | None => s
  | Some q =>
      onSocialAuditCostReductionChange
        (JNum (nmax (num 0) (nmin (num 100) (Fin q)))) s
  end.

End AppController.

(** ** The report generator ([public/components/PDFGenerator.js]) *)

Module PDFGenerator.
Import JS.

(** *** Placing a captured panel on its page ([addPageContent]) *)

(** Page geometry, in millimetres. *)
Definition pageWidth : number := num 210.
Definition pageHeight : number := num 297.
Definition margin : number := num 20.
Definition contentWidth : number := nsub pageWidth (nmul (num 2) margin).
Definition baseHeaderHeight : number := num 22.
Definition headerSpacing : number := num 6.

(** [Boolean(sectionTitle)] for a title that is a string or absent. *)
Definition hasSectionTitle (sectionTitle : option string) : bool :=
  match sectionTitle with
  | Some t => Code.nonEmpty t
  | None => false
  end.

Definition headerHeight (sectionTitle : option string) : number :=
  if hasSectionTitle sectionTitle then nadd baseHeaderHeight (num 6)
  else baseHeaderHeight.

Definition imageTop (sectionTitle : option string) : number :=
  nadd (nadd margin (headerHeight sectionTitle)) headerSpacing.

Definition maxContentHeight (sectionTitle : option string) : number :=
  nsub (nsub pageHeight (imageTop sectionTitle)) margin.

(** The arguments [imgX, imgY, imgWidth, imgHeight] of [pdf.addImage]. *)
Record Placement : Type := mkPlacement {
  imgX : number;
  imgY : number;
  imgWidth : number;
  imgHeight : number
}.

Definition imagePlacement (canvasWidth canvasHeight : number)
    (sectionTitle : option string) : Placement :=
  let canvasAspectRatio := ndiv canvasWidth canvasHeight in
  let imgWidth := contentWidth in
  let imgHeight := ndiv imgWidth canvasAspectRatio in
  let fitted :=
    if ngt imgHeight (maxContentHeight sectionTitle)
    then (nmul (maxContentHeight sectionTitle) canvasAspectRatio,
          maxContentHeight sectionTitle)
    else (imgWidth, imgHeight) in
  mkPlacement
    (nadd margin (ndiv (nsub contentWidth fitted.1) (num 2)))
    (imageTop sectionTitle) fitted.1 fitted.2.

(** *** The pages of a report ([generateReport]) *)

(** One section [generatePanelContent] returns: the size of its canvas,
    [None] when the capture gave no canvas, and its title if any. *)
Record Capture : Type := mkCapture {
  canvas : option (number * number);
  sectionTitle : option string
}.

(** One call of [addPageContent]. *)
Record Page : Type := mkPage {
  panelNumber : nat;
  panelTitle : option string;
  pageNumber : nat;
  pageSectionTitle : option string;
  placement : Placement
}.

(** [panelTitles[panelNumber]]; the sixth title is there only when
    panel 6 is included. *)
Definition panelTitles (shouldIncludePanel6 : bool) (panelNumber : nat)
    : option string :=
  match panelNumber with
  | 1 => Some "Global Risks"
  | 2 => Some "Baseline Risk"
  | 3 => Some "Tools Strategy"
  | 4 => Some "Response Approach"
  | 5 => Some "Managed Risk"
  | 6 => if shouldIncludePanel6 then Some "Budget Optimization" else None
  | _ => None
  end%string.

(** [panelSections.filter(section => section && section.canvas)], each
    section with the size of its canvas. *)
Definition validSections (panelSections : list (option Capture))
    : list (number * number * option string) :=
  omap (λ section : option Capture,
          c ← section;
          size ← canvas c;
          Some (size, sectionTitle c))
       panelSections.

(** The pages added for the panels in [panels], the next free page
    number being [currentPageNumber].  [panelContent n] is what
    [generatePanelContent] returns for panel [n], [None] when it is not
    an array. *)
Fixpoint pagesFrom (shouldIncludePanel6 : bool)
    (panelContent : nat → option (list (option Capture)))
    (panels : list nat) (currentPageNumber : nat) : list Page :=
  match panels with
  | [] => []
  | n :: rest =>
      let valid :=
        match panelContent n with
        | Some panelSections => validSections panelSections
        | None => []
        end in
      imap (λ i section,
              mkPage n (panelTitles shouldIncludePanel6 n)
                (currentPageNumber + i) section.2
                (imagePlacement section.1.1 section.1.2 section.2))
           valid
      ++ pagesFrom shouldIncludePanel6 panelContent rest
           (currentPageNumber + length valid)
  end.

(** The pages after the cover page, in the order they are added. *)
Definition reportPages (includePanel6 panel6Enabled : bool)
    (panelContent : nat → option (list (option Capture))) : list Page :=
  let shouldIncludePanel6 := includePanel6 && panel6Enabled in
  let maxPanel := if shouldIncludePanel6 then 6 else 5 in
  pagesFrom shouldIncludePanel6 panelContent (seq 1 maxPanel) 2.

End PDFGenerator.

(** ** Vocabulary of the properties *)

Module Spec.
Import JS Code.

Local Open Scope Q_scope.

(** An engine to run examples with: no defaults of its own, every
    risk figure zero, no optimisation result. *)
Definition demoEngine : Engine.t :=
  Engine.mkEngine None JUndefined None None None None None
    (Some ["Continuous worker voice"; "Periodic worker survey";
           "Unannounced social audit"; "Announced social audit";
           "SAQ with evidence"; "SAQ without evidence"]%string)
    (λ _ _, JNum (num 0))
    (λ _ _ _ _, JNum (num 0))
    (λ _ _ _ _ _ _ _ _ _ _, Engine.mkRiskSummary (JNum (num 0)) None None)
    (λ _ _ _ _ _ _ _ _ _ _ _ _ _ _ _ _ _, Engine.RNull).

(** The breakdown context of a new controller: 500 suppliers at 40 an
    hour, the default cost assumptions, audit costs halved. *)
Definition demoContext : Panels.BreakdownContext :=
  Panels.mkContext
    (default [] (Engine.hrddStrategyLabels demoEngine))
    (num 500) (num 40)
    (jnums [12000; 0; 0; 40000; 0; 0]%Z)
    (jnums [120; 0; 1000; 0; 0; 0]%Z)
    (jnums [6; 20; 20; 6; 2; 1]%Z)
    (jnums [0; 10; 10; 6; 2; 2]%Z)
    (Fin (1 # 2)).

(** An array of finite numbers. *)
Definition finiteArray (l : list jsval) : Prop :=
  Forall (λ v, isFinite v = true) l.

(** *** SAQ constraint *)


(** *** Effectiveness entries *)

(** How a normalizer's result [r] relates to an entry that parses to
    the finite number [q]. *)
Definition normalizedEntry (q : Q) (r : number) : Prop :=
  within 0 100 r ∧
  (Qabs q <= 1 → same r (nmax (Fin 0) (nmin (Fin 100) (Fin (q * 100))))) ∧
  (1 < Qabs q → same r (nmax (Fin 0) (nmin (Fin 100) (Fin q)))) ∧
  (0 < q ∧ q < 1 → is_q r (100 * q) ∧ ¬ is_q r q) ∧
  (q == 0 ∨ (1 < q ∧ q <= 100) → is_q r q) ∧
  (0 < q ∧ q <= 1 → is_q r (100 * q)) ∧
  (∀ y, r = Fin y → 0 < y ∧ y < 1 → 0 < q ∧ q < 1 # 100 ∧ y == 100 * q).

(** How an effectiveness entry [r] read back by [restoreState] relates
    to the entry [e] that [saveState] wrote. *)
Definition restoredEntry (e r : number) : Prop :=
  match e with
  | Fin q =>
      (q == 0 ∨ 1 < q → is_q r q) ∧ (0 < q ∧ q <= 1 → is_q r (100 * q))
  | _ => False
  end.

(** *** Selection and volumes *)

(** Every key of [countryVolumes] is a selected country. *)
Definition volumesSelected (s : AppController.State) : Prop :=
  ∀ code, is_Some (AppController.countryVolumes s !! code) →
          code ∈ AppController.selectedCountries s.

(** One call of a modelled handler other than [setState] and
    [restoreState], or one deferred recalculation. *)
Inductive handlerStep (eng : Engine.t)
    : AppController.State → AppController.State → Prop :=
  | StepWeights s w :
      handlerStep eng s (AppController.onWeightsChange w s)
  | StepCountrySelect s now sel :
      handlerStep eng s (AppController.onCountrySelect eng now sel s)
  | StepVolume s code v :
      handlerStep eng s (AppController.onVolumeChange code v s)
  | StepStrategy s next :
      handlerStep eng s (AppController.onHRDDStrategyChange next s)
  | StepTransparency s next :
      handlerStep eng s (AppController.onTransparencyChange next s)
  | StepResponsiveness s next :
      handlerStep eng s (AppController.onResponsivenessChange next s)
  | StepResponsivenessEffectiveness s next :
      handlerStep eng s
        (AppController.onResponsivenessEffectivenessChange eng next s)
  | StepFocus s next :
      handlerStep eng s (AppController.onFocusChange next s)
  | StepSAQConstraint s enabled :
      handlerStep eng s (AppController.onSAQConstraintChange enabled s)
  | StepOptimize s :
      handlerStep eng s (AppController.optimizeBudgetAllocation eng s).1
  | StepPanel s panel :
      handlerStep eng s (AppController.setCurrentPanel panel s)
  | StepAddCountry s now code volume :
      handlerStep eng s (AppController.addCountry eng now code volume s)
  | StepRemoveCountry s now code :
      handlerStep eng s (AppController.removeCountry eng now code s)
  | StepRecalculateManaged s now :
      handlerStep eng s (AppController.recalculateManaged eng now s)
  | StepRecalculateBaseline s now :
      handlerStep eng s
        (AppController.recalculateBaselineAndManaged eng now s)
  | StepRecalculateAll s now :
      handlerStep eng s (AppController.recalculateAll eng now s)
  | StepSave s :
      handlerStep eng s (AppController.saveState s).1.

(** *** Persistence *)

(** Session data that JSON carries unchanged and that the handlers
    produce from finite numbers and ISO codes: finite entries,
    effectiveness percentages in [0, 100], a focus in [0, 1], codes
    and volume keys that are non-empty, trimmed and upper-case. *)
Record persistable (eng : Engine.t) (s : AppController.State) : Prop :=
  mkPersistable {
    pers_weights : finiteArray (AppController.weights s);
    pers_strategy : finiteArray (AppController.hrddStrategy s);
    pers_responsiveness :
      finiteArray (AppController.responsivenessStrategy s);
    pers_transparency :
      Forall (within 0 100) (AppController.transparencyEffectiveness s);
    pers_effectiveness :
      Forall (within 0 100) (AppController.responsivenessEffectiveness s);
    pers_effectiveness_length :
      length (AppController.responsivenessEffectiveness s)
      = AppController.expectedLength eng;
    pers_focus : within 0 1 (AppController.focus s);
    pers_codes :
      Forall (λ c, normalize c = c ∧ c ≠ EmptyString)
        (AppController.selectedCountries s);
    pers_volumes :
      ∀ k v, AppController.countryVolumes s !! k = Some v →
             normalize k = k ∧ isFinite v = true
  }.

(** *** Sanitized cost assumptions *)

(** [out] is [values] made into [n] entries within [0, cap]: an entry
    that is missing or does not parse to a number becomes 0, a number
    below 0 becomes 0, a number above [cap] becomes [cap], and a number
    in between is kept. *)
Definition sanitizedTo (cap : Q) (n : nat) (values : option (list jsval))
    (out : list number) : Prop :=
  length out = n ∧
  ∀ i, (i < n)%nat →
    ∃ r, out !! i = Some r ∧ within 0 cap r ∧
      (parseFloat (index (default [] values) i) = NaN → is_q r 0) ∧
      (∀ q, parseFloat (index (default [] values) i) = Fin q →
         (0 <= q → q <= cap → is_q r q) ∧
         (q < 0 → is_q r 0) ∧
         (cap < q → is_q r cap)).

(** *** Budget formulas, in the words of the specification *)

(** [coverage / 100] clamped to [0, 1]. *)
Definition coverageRatio (coverage : Q) : Q :=
  if Qlt_b coverage 0 then 0
  else if Qlt_b 100 coverage then 1
  else coverage / 100.

(** [ceil(supplierCount * coverage/100)]. *)
Definition suppliersUsingTool (supplierCount coverage : Q) : Z :=
  Qceiling (supplierCount * coverageRatio coverage).

(** [annualProgrammeCost * (coverage/100)
     + suppliersUsingTool * perSupplierCost]. *)
Definition externalCost (annualProgrammeCost perSupplierCost
    supplierCount coverage : Q) : Q :=
  annualProgrammeCost * coverageRatio coverage
  + inject_Z (suppliersUsingTool supplierCount coverage) * perSupplierCost.

(** [suppliersUsingTool * hoursPerSupplier * hourlyRate], for the
    detection and for the remedy hours. *)
Definition internalCost (hoursPerSupplier hourlyRate supplierCount
    coverage : Q) : Q :=
  inject_Z (suppliersUsingTool supplierCount coverage)
  * hoursPerSupplier * hourlyRate.

(** A breakdown context of finite numbers, as the cost-analysis panel
    passes it. *)
Definition finiteContext (ctx : Panels.BreakdownContext) : Prop :=
  isFiniteNum (Panels.safeSupplierCount ctx) = true ∧
  isFiniteNum (Panels.safeHourlyRate ctx) = true ∧
  isFiniteNum (Panels.socialAuditReductionFactor ctx) = true ∧
  finiteArray (Panels.safeAnnualCosts ctx) ∧
  finiteArray (Panels.safePerSupplierCosts ctx) ∧
  finiteArray (Panels.safeInternalHours ctx) ∧
  finiteArray (Panels.safeRemedyHours ctx).

(** The coverage [buildBreakdown] reads at position [i]: the entry when
    it is a finite number, otherwise 0. *)
Definition coverageAt (allocation : list jsval) (i : nat) : number :=
  if isFinite (index allocation i) then toNumber (index allocation i)
  else num 0.

(** The factor applied to the cost assumptions of tool [i]. *)
Definition reductionFactorAt (ctx : Panels.BreakdownContext)
    (applySocialAuditReduction : bool) (i : nat) : number :=
  if applySocialAuditReduction && Panels.socialAuditTool ctx i
  then Panels.socialAuditReductionFactor ctx else num 1.

(** *** ISO codes *)

(** A string that is empty or starts with a character that is not
    white space. *)
Definition startsClean (s : string) : Prop :=
  match s with
  | EmptyString => True
  | String c _ => isWhiteSpace c = false
  end.

(** A code as the handlers store it: trimmed, upper-case, not empty. *)
Definition normalized (c : string) : Prop :=
  normalize c = c ∧ nonEmpty c = true.

(** *** Cost assumptions *)

(** What a tool handler does with the array read by [get]: a whole
    index inside the array replaces that entry by the cost made
    non-negative and discards the last optimisation; any other index
    changes nothing. *)
Definition toolHandlerStores (get : AppController.State → list number)
    (handler : number → jsval → AppController.State → AppController.State)
    : Prop :=
  ∀ (toolIndex : number) (v : jsval) (s : AppController.State),
    (∀ i : nat, toolIndex = num (Z.of_nat i) → (i < length (get s))%nat →
       get (handler toolIndex v s) = <[i := AppController.costValue v]> (get s) ∧
       AppController.lastOptimizationResult (handler toolIndex v s) = None ∧
       AppController.isDirty (handler toolIndex v s) = true) ∧
    (nge toolIndex (num 0)
     && nlt toolIndex (num (Z.of_nat (length (get s)))) = false →
     handler toolIndex v s = s) ∧
    length (get (handler toolIndex v s)) = length (get s).

(** One call of a handler of the cost-analysis panel. *)
Inductive costHandlerStep
    : AppController.State → AppController.State → Prop :=
  | CostSupplierCount s v :
      costHandlerStep s (AppController.onSupplierCountChange v s)
  | CostHourlyRate s v :
      costHandlerStep s (AppController.onHourlyRateChange v s)
  | CostAnnual s i v :
      costHandlerStep s (AppController.onToolAnnualProgrammeCostChange i v s)
  | CostPerSupplier s i v :
      costHandlerStep s (AppController.onToolPerSupplierCostChange i v s)
  | CostInternalHours s i v :
      costHandlerStep s (AppController.onToolInternalHoursChange i v s)
  | CostRemedyHours s i v :
      costHandlerStep s (AppController.onToolRemedyInternalHoursChange i v s)
  | CostSAQConstraint s v :
      costHandlerStep s (AppController.onSAQConstraintChange v s)
  | CostAuditConstraint s v :
      costHandlerStep s (AppController.onSocialAuditConstraintChange v s)
  | CostAuditReduction s v :
      costHandlerStep s (AppController.onSocialAuditCostReductionChange v s).

(** The cost assumptions are within the limits of the panel's fields. *)
Record costsCapped (s : AppController.State) : Prop := mkCostsCapped {
  capped_supplierCount :
    ∃ z : Z, AppController.supplierCount s = num z ∧ (1 <= z)%Z;
  capped_hourlyRate :
    ∃ q : Q, AppController.hourlyRate s = Fin q ∧ 0 <= q;
  capped_annual :
    Forall (within 0 50000) (AppController.toolAnnualProgrammeCosts s);
  capped_perSupplier :
    Forall (within 0 2000) (AppController.toolPerSupplierCosts s);
  capped_internalHours :
    Forall (within 0 500) (AppController.toolInternalHours s);
  capped_remedyHours :
    Forall (within 0 200) (AppController.toolRemedyInternalHours s);
  capped_reduction :
    within 0 100 (AppController.socialAuditCostReduction s)
}.

(** One event of a cost field of panel 6. *)
Inductive costFieldStep
    : AppController.State → AppController.State → Prop :=
  | FieldSupplierCount s numeric :
      costFieldStep s (AppController.supplierCountListener numeric s)
  | FieldHourlyRate s numeric :
      costFieldStep s (AppController.hourlyRateListener numeric s)
  | FieldAnnual s i numeric :
      costFieldStep s (AppController.toolAnnualCostListener i numeric s)
  | FieldPerSupplier s i numeric :
      costFieldStep s (AppController.toolPerSupplierCostListener i numeric s)
  | FieldInternalHours s i numeric :
      costFieldStep s (AppController.toolInternalHoursListener i numeric s)
  | FieldRemedyHours s i numeric :
      costFieldStep s
        (AppController.toolRemedyInternalHoursListener i numeric s)
  | FieldAuditReduction s numeric :
      costFieldStep s (AppController.socialAuditReductionListener numeric s).

(** *** Restored sessions *)

(** A finite number that is not negative. *)
Definition nonNegative (x : number) : Prop := ∃ q : Q, x = Fin q ∧ 0 <= q.

(** The members [restoreState] checks as it reads them are in range:
    the focus in [0, 1], the effectiveness percentages in [0, 100],
    the tool costs and hours finite and not negative, the selected
    codes normalized and the volume keys trimmed and upper-case. *)
Record sessionChecked (s : AppController.State) : Prop := mkSessionChecked {
  checked_focus : within 0 1 (AppController.focus s);
  checked_transparency :
    Forall (within 0 100) (AppController.transparencyEffectiveness s);
  checked_effectiveness :
    Forall (within 0 100) (AppController.responsivenessEffectiveness s);
  checked_annual :
    Forall nonNegative (AppController.toolAnnualProgrammeCosts s);
  checked_perSupplier :
    Forall nonNegative (AppController.toolPerSupplierCosts s);
  checked_internalHours :
    Forall nonNegative (AppController.toolInternalHours s);
  checked_remedyHours :
    Forall nonNegative (AppController.toolRemedyInternalHours s);
  checked_codes : Forall normalized (AppController.selectedCountries s);
  checked_keys :
    ∀ k, is_Some (AppController.countryVolumes s !! k) → normalize k = k
}.

(** The members that [saveState] does not write. *)
Definition sameUnsaved (a b : AppController.State) : Prop :=
  AppController.countries a = AppController.countries b ∧
  AppController.countryRisks a = AppController.countryRisks b ∧
  AppController.countryManagedRisks a = AppController.countryManagedRisks b ∧
  AppController.baselineRisk a = AppController.baselineRisk b ∧
  AppController.managedRisk a = AppController.managedRisk b ∧
  AppController.focusEffectivenessMetrics a
  = AppController.focusEffectivenessMetrics b ∧
  AppController.currentPanel a = AppController.currentPanel b ∧
  AppController.loading a = AppController.loading b ∧
  AppController.error a = AppController.error b ∧
  AppController.apiHealthy a = AppController.apiHealthy b ∧
  AppController.lastUpdate a = AppController.lastUpdate b ∧
  AppController.isGeneratingReport a = AppController.isGeneratingReport b ∧
  AppController.shouldAutoRunOptimization a
  = AppController.shouldAutoRunOptimization b ∧
  AppController.lastOptimizationResult a
  = AppController.lastOptimizationResult b.

(** Cost assumptions that JSON carries unchanged and that pass the
    checks of [restoreState]: a whole supplier count of at least 1, a
    finite hourly rate that is not negative, finite tool costs and
    hours that are not negative, a cost reduction within [0, 100]. *)
Record costsStorable (s : AppController.State) : Prop := mkCostsStorable {
  storable_supplierCount :
    ∃ z : Z, AppController.supplierCount s = num z ∧ (1 <= z)%Z;
  storable_hourlyRate : nonNegative (AppController.hourlyRate s);
  storable_annual :
    Forall nonNegative (AppController.toolAnnualProgrammeCosts s);
  storable_perSupplier :
    Forall nonNegative (AppController.toolPerSupplierCosts s);
  storable_internalHours :
    Forall nonNegative (AppController.toolInternalHours s);
  storable_remedyHours :
    Forall nonNegative (AppController.toolRemedyInternalHours s);
  storable_reduction :
    within 0 100 (AppController.socialAuditCostReduction s)
}.

(** The same cost assumptions, number for number. *)
Definition sameCosts (a b : AppController.State) : Prop :=
  AppController.supplierCount a = AppController.supplierCount b ∧
  same (AppController.hourlyRate a) (AppController.hourlyRate b) ∧
  Forall2 same (AppController.toolAnnualProgrammeCosts a)
    (AppController.toolAnnualProgrammeCosts b) ∧
  Forall2 same (AppController.toolPerSupplierCosts a)
    (AppController.toolPerSupplierCosts b) ∧
  Forall2 same (AppController.toolInternalHours a)
    (AppController.toolInternalHours b) ∧
  Forall2 same (AppController.toolRemedyInternalHours a)
    (AppController.toolRemedyInternalHours b) ∧
  AppController.saqConstraintEnabled a = AppController.saqConstraintEnabled b ∧
  AppController.socialAuditConstraintEnabled a
  = AppController.socialAuditConstraintEnabled b ∧
  same (AppController.socialAuditCostReduction a)
    (AppController.socialAuditCostReduction b).

(** *** Reset *)



(** *** Rows of the budget breakdown *)


(** An array of finite numbers none of which is negative. *)
Definition nonNegativeArray (l : list jsval) : Prop :=
  Forall (λ v, ∃ q : Q, v = JNum (Fin q) ∧ 0 <= q) l.

(** A breakdown context as the cost-analysis panel builds it from
    sanitized assumptions: a finite supplier count and hourly rate that
    are not negative, a reduction factor within [0, 1], and cost and
    hour assumptions that are finite and not negative. *)
Record costContext (ctx : Panels.BreakdownContext) : Prop := mkCostContext {
  cost_supplierCount : nonNegative (Panels.safeSupplierCount ctx);
  cost_hourlyRate : nonNegative (Panels.safeHourlyRate ctx);
  cost_factor : within 0 1 (Panels.socialAuditReductionFactor ctx);
  cost_annual : nonNegativeArray (Panels.safeAnnualCosts ctx);
  cost_perSupplier : nonNegativeArray (Panels.safePerSupplierCosts ctx);
  cost_internalHours : nonNegativeArray (Panels.safeInternalHours ctx);
  cost_remedyHours : nonNegativeArray (Panels.safeRemedyHours ctx)
}.

(** *** The operations of the controller *)

(** One call of an operation of the controller other than [setState],
    [restoreState] and [loadSavedState]. *)
Inductive sessionStep (eng : Engine.t)
    : AppController.State → AppController.State → Prop :=
  | SessionHandler s s' : handlerStep eng s s' → sessionStep eng s s'
  | SessionCost s s' : costHandlerStep s s' → sessionStep eng s s'
  | SessionField s s' : costFieldStep s s' → sessionStep eng s s'
  | SessionStep s step :
      sessionStep eng s (AppController.setCurrentStep step s)
  | SessionReset s now :
      sessionStep eng s (AppController.resetApplicationState eng now s).1
  | SessionDemo s now :
      sessionStep eng s (AppController.loadDemoData eng now s)
  | SessionRender s :
      sessionStep eng s (AppController.renderCostAnalysisPanel eng s).1.

(** One call of any modelled operation of the controller. *)
Inductive apiStep (eng : Engine.t)
    : AppController.State → AppController.State → Prop :=
  | ApiSession s s' : sessionStep eng s s' → apiStep eng s s'
  | ApiSetState s now partialState :
      apiStep eng s (AppController.setState eng now partialState s)
  | ApiRestore s storage :
      apiStep eng s (AppController.restoreState eng storage s).1
  | ApiLoadSaved s now storage :
      apiStep eng s (AppController.loadSavedState eng now storage s).1.

(** A number that is neither [NaN] nor negative. *)
Definition notNegative (x : number) : Prop := nge x (num 0) = true.

(** What holds of the session whatever has been done to it: the
    effectiveness percentages are within [0, 100], there is one
    responsiveness effectiveness per expected entry, the two risk
    figures are finite, and no tool cost or hour count is [NaN] or
    negative. *)
Record sessionSound (eng : Engine.t) (s : AppController.State) : Prop :=
  mkSessionSound {
    sound_transparency :
      Forall (within 0 100) (AppController.transparencyEffectiveness s);
    sound_effectiveness :
      Forall (within 0 100) (AppController.responsivenessEffectiveness s);
    sound_effectiveness_length :
      length (AppController.responsivenessEffectiveness s)
      = AppController.expectedLength eng;
    sound_baselineRisk : isFiniteNum (AppController.baselineRisk s) = true;
    sound_managedRisk : isFiniteNum (AppController.managedRisk s) = true;
    sound_annual :
      Forall notNegative (AppController.toolAnnualProgrammeCosts s);
    sound_perSupplier :
      Forall notNegative (AppController.toolPerSupplierCosts s);
    sound_internalHours :
      Forall notNegative (AppController.toolInternalHours s);
    sound_remedyHours :
      Forall notNegative (AppController.toolRemedyInternalHours s)
  }.

End Spec.

(** * Properties *)

Import JS Code.

(** ** Comparisons and arithmetic on finite numbers *)

Section NumberFacts.

Local Open Scope Q_scope.

Lemma Qlt_b_true (p q : Q) : Qlt_b p q = true ↔ p < q.
Proof.
  unfold Qlt_b. rewrite negb_true_iff.
  destruct (Qle_bool q p) eqn:E.
  - apply Qle_bool_iff in E. split; [discriminate | intros H; lra].
  - split; [intros _ | reflexivity].
    apply Qnot_le_lt. intros H. apply Qle_bool_iff in H. congruence.
Qed.

Lemma Qlt_b_false (p q : Q) : Qlt_b p q = false ↔ q <= p.
Proof.
  unfold Qlt_b. rewrite negb_false_iff. apply Qle_bool_iff.
Qed.

Lemma Qeq_bool_false (p q : Q) : Qeq_bool p q = false ↔ ¬ p == q.
Proof.
  split.
  - apply Qeq_bool_neq.
  - intros H. destruct (Qeq_bool p q) eqn:E; [|reflexivity].
    apply Qeq_bool_iff in E. contradiction.
Qed.

Lemma nle_fin (p q : Q) : nle (Fin p) (Fin q) = true ↔ p <= q.
Proof.
  unfold nle, nlt, neqb. rewrite orb_true_iff, Qlt_b_true, Qeq_bool_iff.
  split; [intros [H|H]; lra|]. intros H.
  destruct (Qlt_le_dec p q) as [Hlt|Hge]; [left; exact Hlt|].
  right. lra.
Qed.

Lemma nmax_fin (p q : Q) : nmax (Fin p) (Fin q) = Fin (if Qlt_b p q then q else p).
Proof. simpl. destruct (Qlt_b p q); reflexivity. Qed.

Lemma nmin_fin (p q : Q) : nmin (Fin p) (Fin q) = Fin (if Qlt_b q p then q else p).
Proof. simpl. destruct (Qlt_b q p); reflexivity. Qed.

Lemma ndiv_fin (p q : Q) : ¬ q == 0 → ndiv (Fin p) (Fin q) = Fin (p / q).
Proof.
  intros H. simpl. apply Qeq_bool_false in H. rewrite H. reflexivity.
Qed.

(** [Math.max(lo, Math.min(hi, x))] of a finite [x] lies in [lo, hi]. *)
Lemma clamp_within (lo hi x : Q) :
  lo <= hi → within lo hi (nmax (Fin lo) (nmin (Fin hi) (Fin x))).
Proof.
  intros Hle. rewrite nmin_fin, nmax_fin. simpl.
  destruct (Qlt_b x hi) eqn:E1.
  - apply Qlt_b_true in E1. destruct (Qlt_b lo x) eqn:E2.
    + apply Qlt_b_true in E2. lra.
    + apply Qlt_b_false in E2. lra.
  - apply Qlt_b_false in E1. destruct (Qlt_b lo hi) eqn:E2.
    + lra.
    + apply Qlt_b_false in E2. lra.
Qed.

(** A value inside [lo, hi] is left as it is. *)
Lemma clamp_id (lo hi x : Q) :
  lo <= x → x <= hi → same (nmax (Fin lo) (nmin (Fin hi) (Fin x))) (Fin x).
Proof.
  intros H1 H2. rewrite nmin_fin, nmax_fin. simpl.
  destruct (Qlt_b x hi) eqn:E1.
  - destruct (Qlt_b lo x) eqn:E2; [reflexivity|].
    apply Qlt_b_false in E2. lra.
  - apply Qlt_b_false in E1. destruct (Qlt_b lo hi) eqn:E2.
    + lra.
    + apply Qlt_b_false in E2. lra.
Qed.

Global Instance same_equiv : Equivalence same.
Proof.
  split.
  - intros [q| | |]; simpl; auto. reflexivity.
  - intros [p| | |] [q| | |]; simpl; auto. intros H; symmetry; exact H.
  - intros [p| | |] [q| | |] [r| | |]; simpl; auto; try contradiction.
    intros H1 H2. rewrite H1. exact H2.
Qed.

End NumberFacts.

(** ** Array reads after a write *)





(** ** The SAQ constraint in [onHRDDStrategyChange] *)

Section SAQ.

Import AppController Spec.
Local Open Scope Q_scope.




(** Outside the finite numbers the handler has no guard: for an entry
    [Infinity] the ratio is 0 and the entry is stored as [NaN]. *)
Example onHRDDStrategyChange_infinite_entry :
  hrddStrategy
    (onHRDDStrategyChange
       (Some [JNum (num 0); JNum (num 10); JNum (num 5); JNum (num 65);
              JNum PosInf; JNum (num 0)])
       (initialState demoEngine)) !! 4%nat
  = Some (JNum NaN).
Proof. reflexivity. Qed.

End SAQ.

(** ** The effectiveness normalizers *)

Section Normalizers.

Import AppController Spec.
Local Open Scope Q_scope.

(** What either normalizer stores for an entry that parses to the
    finite number [q]. *)
Lemma normalized_finite (q : Q) :
  let scaled :=
    if nle (nabs (Fin q)) (num 1) then nmul (Fin q) (num 100) else Fin q in
  let r := nmax (num 0) (nmin (num 100) scaled) in
  normalizedEntry q r.
Proof.
  intros scaled r. subst scaled r. unfold normalizedEntry.
  unfold num, nle, nabs, nlt, neqb.
  change (inject_Z 0) with 0. change (inject_Z 1) with 1.
  change (inject_Z 100) with 100.
  assert (Habs : - Qabs q <= q ∧ q <= Qabs q).
  { split; [|apply Qle_Qabs].
    rewrite <- (Qopp_involutive q) at 2. apply Qopp_le_compat.
    rewrite <- Qabs_opp. apply Qle_Qabs. }
  assert (Habs' : Qabs q == q ∨ Qabs q == - q).
  { destruct (Qlt_le_dec q 0) as [H|H].
    - right. apply Qabs_neg. lra.
    - left. apply Qabs_pos. exact H. }
  destruct (Qlt_b (Qabs q) 1) eqn:E1; simpl orb; cbv iota.
  - apply Qlt_b_true in E1. cbn [nmul]. rewrite nmin_fin, nmax_fin.
    unfold is_q, same, within.
    destruct (Qlt_b (q * 100) 100) eqn:E2;
      [apply Qlt_b_true in E2 | apply Qlt_b_false in E2];
    (destruct (Qlt_b 0 _) eqn:E3;
      [apply Qlt_b_true in E3 | apply Qlt_b_false in E3]);
    repeat split; intros; try (injection H as <-); try lra.
    all: try (intros Hc; lra).
    all: try (destruct H as [H|H]; lra).
  - apply Qlt_b_false in E1.
    destruct (Qeq_bool (Qabs q) 1) eqn:E0;
      [apply Qeq_bool_iff in E0 | apply Qeq_bool_false in E0].
    + cbn [nmul]. rewrite nmin_fin, nmax_fin. unfold is_q, same, within.
      destruct (Qlt_b (q * 100) 100) eqn:E2;
        [apply Qlt_b_true in E2 | apply Qlt_b_false in E2];
      (destruct (Qlt_b 0 _) eqn:E3;
        [apply Qlt_b_true in E3 | apply Qlt_b_false in E3]);
      repeat split; intros; try (injection H as <-); try lra.
      all: try (intros Hc; lra).
      all: try (destruct H as [H|H]; lra).
    + rewrite nmin_fin, nmax_fin. unfold is_q, same, within.
      destruct (Qlt_b q 100) eqn:E2;
        [apply Qlt_b_true in E2 | apply Qlt_b_false in E2];
      (destruct (Qlt_b 0 _) eqn:E3;
        [apply Qlt_b_true in E3 | apply Qlt_b_false in E3]);
      repeat split; intros; try (injection H as <-); try lra.
      all: try (intros Hc; lra).
      all: try (destruct H as [H|H]; lra).
Qed.


Lemma within_zero : within 0 100 (num 0).
Proof. split; cbv; discriminate. Qed.

Lemma lookup_fmap_seq {A : Type} (f : nat → A) (n i : nat) :
  (i < n)%nat → (f <$> seq 0 n) !! i = Some (f i).
Proof.
  intros Hi. rewrite list_lookup_fmap, lookup_seq_lt by exact Hi.
  reflexivity.
Qed.

(** C8, in the form that holds.  Both normalizers return percentages
    in [0, 100], one per entry ([normalizeResponsivenessEffectiveness]:
    one per expected tool).  An entry that does not parse to a finite
    number is stored as 0, respectively as the clamped default of its
    position.  A finite entry of absolute value at most 1 is multiplied
    by 100 before it is clamped, so an entry strictly between 0 and 1
    is never stored as it stands (0.5 is stored as 50); a stored value
    strictly between 0 and 1 comes from an entry strictly between 0
    and 0.01. *)
Theorem normalizers_store_percentages (eng : Engine.t) (arr : list jsval) :
  let transparency := normalizeTransparencyEffectiveness (Some arr) in
  let responsiveness :=
    normalizeResponsivenessEffectiveness eng (Some arr) in
  (length transparency = length arr ∧
   ∀ i v, arr !! i = Some v →
     ∃ r, transparency !! i = Some r ∧ within 0 100 r ∧
          (isFiniteNum (parseFloat v) = false → r = num 0) ∧
          (∀ q, parseFloat v = Fin q → normalizedEntry q r)) ∧
  (length responsiveness = expectedLength eng ∧
   ∀ i, (i < expectedLength eng)%nat →
     ∃ r, responsiveness !! i = Some r ∧ within 0 100 r ∧
          (isFiniteNum (parseFloat (index arr i)) = false →
           r = nmax (num 0) (nmin (num 100) (fallback eng i))) ∧
          (∀ q, parseFloat (index arr i) = Fin q → normalizedEntry q r)) ∧
  (∃ y, normalizeTransparencyEffectiveness (Some [JNum (Fin (1 # 2))])
        = [Fin y] ∧ y == 50).
Proof.
  intros transparency responsiveness. split; [|split].
  - split.
    + unfold transparency. simpl. apply length_fmap.
    + intros i v Hv. unfold transparency. simpl.
      rewrite list_lookup_fmap, Hv. simpl.
      eexists. split; [reflexivity|].
      destruct (parseFloat v) as [q| | |] eqn:Ep; simpl isFiniteNum;
        cbv iota; simpl negb.
      * pose proof (normalized_finite q) as Hn. simpl in Hn.
        split; [apply Hn|]. split; [discriminate|].
        intros q' [= <-]. exact Hn.
      * split; [apply within_zero|]. split; [reflexivity|]. discriminate.
      * split; [apply within_zero|]. split; [reflexivity|]. discriminate.
      * split; [apply within_zero|]. split; [reflexivity|]. discriminate.
  - split.
    + unfold responsiveness, normalizeResponsivenessEffectiveness.
      rewrite length_fmap, length_seq. reflexivity.
    + intros i Hi. unfold responsiveness, normalizeResponsivenessEffectiveness.
      rewrite (lookup_fmap_seq _ _ _ Hi).
      eexists. split; [reflexivity|].
      assert (Hfb : within 0 100 (nmax (num 0) (nmin (num 100) (fallback eng i)))).
      { unfold fallback.
        destruct (index (defaultValues eng) i) as [[d| | |]| | |];
          simpl isFinite; cbv iota; cbn [toNumber];
          apply clamp_within; lra. }
      destruct (parseFloat (index arr i)) as [q| | |] eqn:Ep;
        simpl isFiniteNum; cbv iota; simpl negb.
      * pose proof (normalized_finite q) as Hn. simpl in Hn.
        split; [apply Hn|]. split; [discriminate|].
        intros q' [= <-]. exact Hn.
      * split; [exact Hfb|]. split; [reflexivity|]. discriminate.
      * split; [exact Hfb|]. split; [reflexivity|]. discriminate.
      * split; [exact Hfb|]. split; [reflexivity|]. discriminate.
  - eexists. split; reflexivity.
Qed.

(** C8 as stated, that a stored percentage is never strictly between 0
    and 1, fails: the entry 0.005 is stored as 0.5. *)
Lemma normalizer_stores_half_a_percent :
  ∃ y, normalizeTransparencyEffectiveness (Some [JNum (Fin (5 # 1000))])
       = [Fin y] ∧ y == 1 # 2 ∧ 0 < y ∧ y < 1.
Proof. eexists. repeat split; reflexivity. Qed.

End Normalizers.

(** ** Cost-analysis panel: audit target and cost assumptions *)

Section CostPanel.

Import Panels Spec.
Local Open Scope Q_scope.

(** One audit coverage, clamped: finite and within [0, 100]. *)
Lemma audit_term_within (v : jsval) :
  within 0 100
    (if isFinite v then nmax (num 0) (nmin (num 100) (toNumber v))
     else num 0).
Proof.
  destruct v as [[q| | |]| | |]; simpl isFinite; cbv iota;
    try apply within_zero.
  cbn [toNumber]. apply clamp_within. lra.
Qed.

Lemma nadd_within (lo1 hi1 lo2 hi2 : Q) (a b : number) :
  within lo1 hi1 a → within lo2 hi2 b →
  within (lo1 + lo2) (hi1 + hi2) (nadd a b).
Proof.
  destruct a as [p| | |], b as [q| | |]; simpl; try tauto. lra.
Qed.

Lemma computeAuditCoverage_within (allocation : option (list jsval)) :
  within 0 200 (computeAuditCoverageFromAllocation allocation).
Proof.
  unfold computeAuditCoverageFromAllocation.
  destruct allocation as [allocation|]; [|split; cbv; discriminate].
  destruct (Nat.ltb (length allocation) 4); [split; cbv; discriminate|].
  apply (nadd_within 0 100 0 100); apply audit_term_within.
Qed.

(** C5.  With the social-audit constraint enabled the target is a
    finite number in [0, 100]: the sum of the strategy's coverages of
    tools 2 and 3, each clamped to [0, 100] (a sum in [0, 200]), or the
    same sum for the fallback allocation when the strategy's sum is at
    most 0.1, capped at 100.  With the constraint disabled the target
    is [null]. *)
Theorem auditCoverageTarget_range (hrddStrategy : option (list jsval))
    (budgetData : option BudgetData) :
  let current := computeAuditCoverageFromAllocation hrddStrategy in
  let fallback :=
    computeAuditCoverageFromAllocation
      (match budgetData with
       | Some b => currentAllocation b
       | None => Some (default [] hrddStrategy)
       end) in
  (∃ c f t : Q,
     current = Fin c ∧ fallback = Fin f ∧
     auditCoverageTarget hrddStrategy budgetData true = Some (Fin t) ∧
     0 <= c ∧ c <= 200 ∧ 0 <= f ∧ f <= 200 ∧
     0 <= t ∧ t <= 100 ∧
     (1 # 10 < c → c <= 100 → t == c) ∧
     (1 # 10 < c → 100 < c → t == 100) ∧
     (c <= 1 # 10 → f <= 100 → t == f) ∧
     (c <= 1 # 10 → 100 < f → t == 100)) ∧
  (∀ allocation : list jsval,
     (4 <= length allocation)%nat →
     computeAuditCoverageFromAllocation (Some allocation)
     = nadd (if isFinite (index allocation 2)
             then nmax (num 0) (nmin (num 100) (toNumber (index allocation 2)))
             else num 0)
            (if isFinite (index allocation 3)
             then nmax (num 0) (nmin (num 100) (toNumber (index allocation 3)))
             else num 0)) ∧
  auditCoverageTarget hrddStrategy budgetData false = None.
Proof.
  intros current fallback. split; [|split; [|reflexivity]].
  - pose proof (computeAuditCoverage_within hrddStrategy) as Hc.
    pose proof (computeAuditCoverage_within
                  (match budgetData with
                   | Some b => currentAllocation b
                   | None => Some (default [] hrddStrategy)
                   end)) as Hf.
    fold current in Hc. fold fallback in Hf.
    unfold auditCoverageTarget. fold current. fold fallback.
    destruct current as [c| | |]; try contradiction.
    destruct fallback as [f| | |]; try contradiction.
    simpl in Hc, Hf. unfold ngt, nlt, num.
    change (inject_Z 0) with 0. change (inject_Z 100) with 100.
    destruct (Qlt_b (1 # 10) c) eqn:E;
      [apply Qlt_b_true in E | apply Qlt_b_false in E];
      rewrite nmin_fin, nmax_fin.
    + exists c, f.
      destruct (Qlt_b c 100) eqn:E1;
        [apply Qlt_b_true in E1 | apply Qlt_b_false in E1];
      (destruct (Qlt_b 0 _) eqn:E2;
        [apply Qlt_b_true in E2 | apply Qlt_b_false in E2]);
      eexists; (split; [reflexivity|]); (split; [reflexivity|]);
      (split; [reflexivity|]); repeat split; intros; lra.
    + exists c, f.
      destruct (Qlt_b f 100) eqn:E1;
        [apply Qlt_b_true in E1 | apply Qlt_b_false in E1];
      (destruct (Qlt_b 0 _) eqn:E2;
        [apply Qlt_b_true in E2 | apply Qlt_b_false in E2]);
      eexists; (split; [reflexivity|]); (split; [reflexivity|]);
      (split; [reflexivity|]); repeat split; intros; lra.
  - intros allocation Hlen. unfold computeAuditCoverageFromAllocation.
    destruct (Nat.ltb (length allocation) 4) eqn:E; [|reflexivity].
    apply Nat.ltb_lt in E. lia.
Qed.

(** What [sanitizeArray] stores at one position. *)
Lemma sanitized_entry (cap : Q) (v : jsval) :
  0 <= cap →
  let numeric := nmax (num 0) (nor (parseFloat v) (num 0)) in
  let r := if isFiniteNum (Fin cap) then nmin (Fin cap) numeric else numeric in
  within 0 cap r ∧
  (parseFloat v = NaN → is_q r 0) ∧
  (∀ q, parseFloat v = Fin q → 0 <= q → q <= cap → is_q r q) ∧
  (∀ q, parseFloat v = Fin q → q < 0 → is_q r 0) ∧
  (∀ q, parseFloat v = Fin q → cap < q → is_q r cap).
Proof.
  intros Hcap numeric r. subst numeric r. simpl isFiniteNum. cbv iota.
  unfold nor, num. change (inject_Z 0) with 0.
  destruct (parseFloat v) as [q| | |] eqn:Ep; simpl ntruthy; cbv iota.
  - destruct (Qeq_bool q 0) eqn:E0; simpl negb; cbv iota;
      [apply Qeq_bool_iff in E0 | apply Qeq_bool_false in E0];
      rewrite nmax_fin, nmin_fin; unfold is_q, same, within;
      (destruct (Qlt_b 0 _) eqn:E1;
        [apply Qlt_b_true in E1 | apply Qlt_b_false in E1]);
      (destruct (Qlt_b _ cap) eqn:E2;
        [apply Qlt_b_true in E2 | apply Qlt_b_false in E2]);
      repeat split; try discriminate; intros;
      try (match goal with H : Fin _ = Fin _ |- _ => injection H as <- end);
      lra.
  - cbn [nmax nmin nlt]. unfold is_q, same, within.
    destruct (Qlt_b cap 0) eqn:E;
      [apply Qlt_b_true in E; lra | apply Qlt_b_false in E].
    repeat split; intros; try discriminate; try lra.
  - cbn [nmax nlt]. cbv iota. rewrite nmin_fin. unfold is_q, same, within.
    destruct (Qlt_b 0 cap) eqn:E;
      [apply Qlt_b_true in E | apply Qlt_b_false in E];
      repeat split; intros; try discriminate; try lra.
  - rewrite nmax_fin, nmin_fin. unfold is_q, same, within.
    change (Qlt_b 0 0) with false. cbv iota.
    destruct (Qlt_b 0 cap) eqn:E;
      [apply Qlt_b_true in E | apply Qlt_b_false in E];
      repeat split; intros; try discriminate; try reflexivity; try lra.
Qed.

Lemma sanitizeArray_sanitizedTo (cap : Z) (n : nat)
    (values : option (list jsval)) :
  (0 <= cap)%Z →
  sanitizedTo (inject_Z cap) n values
    (sanitizeArray values n (num 0) (num cap)).
Proof.
  intros Hcap. assert (Hq : 0 <= inject_Z cap).
  { change 0 with (inject_Z 0). rewrite <- Zle_Qle. exact Hcap. }
  unfold sanitizedTo, sanitizeArray. split.
  - rewrite length_fmap, length_seq. reflexivity.
  - intros i Hi. rewrite (lookup_fmap_seq _ _ _ Hi).
    eexists. split; [reflexivity|].
    pose proof (sanitized_entry (inject_Z cap)
                  (index (default [] values) i) Hq) as H.
    simpl in H. destruct H as (H1 & H2 & H3 & H4 & H5).
    split; [exact H1|]. split; [exact H2|].
    intros q Hp. repeat split; intros.
    + apply (H3 q); assumption.
    + apply (H4 q); assumption.
    + apply (H5 q); assumption.
Qed.

(** C10.  The cost-analysis panel keeps one entry per tool for each
    cost assumption and clamps it to a fixed range: annual programme
    cost to [0, 50000], per-supplier cost to [0, 2000], detection hours
    to [0, 500], remedy hours to [0, 200]; an entry that is missing or
    not numeric becomes 0.  The input listeners apply the same caps to
    a number typed into a field. *)
Theorem cost_assumptions_capped (eng : Engine.t)
    (annual perSupplier hours remedy : option (list jsval)) :
  sanitizedTo 50000 (strategyCount eng) annual
    (sanitizedToolAnnualProgrammeCosts eng annual) ∧
  sanitizedTo 2000 (strategyCount eng) perSupplier
    (sanitizedToolPerSupplierCosts eng perSupplier) ∧
  sanitizedTo 500 (strategyCount eng) hours
    (sanitizedToolInternalHours eng hours) ∧
  sanitizedTo 200 (strategyCount eng) remedy
    (sanitizedToolRemedyInternalHours eng remedy) ∧
  (∀ numeric : Q,
     within 0 50000 (listenerValue 50000 (Fin numeric)) ∧
     within 0 2000 (listenerValue 2000 (Fin numeric)) ∧
     within 0 500 (listenerValue 500 (Fin numeric)) ∧
     within 0 200 (listenerValue 200 (Fin numeric))).
Proof.
  split; [|split; [|split; [|split]]].
  - apply (sanitizeArray_sanitizedTo 50000). lia.
  - apply (sanitizeArray_sanitizedTo 2000). lia.
  - apply (sanitizeArray_sanitizedTo 500). lia.
  - apply (sanitizeArray_sanitizedTo 200). lia.
  - intros numeric. unfold listenerValue, num.
    rewrite !nmax_fin, !nmin_fin. unfold within.
    change (inject_Z 0) with 0. change (inject_Z 50000) with 50000.
    change (inject_Z 2000) with 2000. change (inject_Z 500) with 500.
    change (inject_Z 200) with 200.
    destruct (Qlt_b 0 numeric) eqn:E;
      [apply Qlt_b_true in E | apply Qlt_b_false in E];
    repeat match goal with
    | |- context [Qlt_b ?a ?b] =>
        let E := fresh "E" in
        destruct (Qlt_b a b) eqn:E;
        [apply Qlt_b_true in E | apply Qlt_b_false in E]
    end; repeat split; lra.
Qed.

End CostPanel.

(** ** Budget optimisation leaves the session data alone *)

Section Optimisation.

Import AppController.

(** C7.  [optimizeBudgetAllocation] hands the engine the current state
    members, returns what the engine returned, stores the result (or
    [null] when the engine returned a falsy value) in
    [lastOptimizationResult], clears [shouldAutoRunOptimization], and
    leaves every other member of the state as it was.  The engine is a
    function of its arguments: it cannot write to them. *)
Theorem optimizeBudgetAllocation_frame (eng : Engine.t) (s : State) :
  let s' := (optimizeBudgetAllocation eng s).1 in
  let result := (optimizeBudgetAllocation eng s).2 in
  result
  = Engine.optimizeBudgetAllocation eng
      (supplierCount s) (hourlyRate s)
      (toolAnnualProgrammeCosts s) (toolPerSupplierCosts s)
      (toolInternalHours s) (toolRemedyInternalHours s)
      (hrddStrategy s) (transparencyEffectiveness s)
      (responsivenessStrategy s) (responsivenessEffectiveness s)
      (selectedCountries s) (countryVolumes s) (countryRisks s)
      (focus s) (saqConstraintEnabled s)
      (socialAuditConstraintEnabled s) (socialAuditCostReduction s) ∧
  lastOptimizationResult s'
  = match result with
    | Engine.RObject r => Some r
    | Engine.RNull | Engine.RUndefined | Engine.RFalse => None
    end ∧
  shouldAutoRunOptimization s' = false ∧
  countries s' = countries s ∧
  weights s' = weights s ∧
  supplierCount s' = supplierCount s ∧
  hourlyRate s' = hourlyRate s ∧
  toolAnnualProgrammeCosts s' = toolAnnualProgrammeCosts s ∧
  toolPerSupplierCosts s' = toolPerSupplierCosts s ∧
  toolInternalHours s' = toolInternalHours s ∧
  toolRemedyInternalHours s' = toolRemedyInternalHours s ∧
  saqConstraintEnabled s' = saqConstraintEnabled s ∧
  socialAuditConstraintEnabled s' = socialAuditConstraintEnabled s ∧
  socialAuditCostReduction s' = socialAuditCostReduction s ∧
  selectedCountries s' = selectedCountries s ∧
  countryVolumes s' = countryVolumes s ∧
  countryRisks s' = countryRisks s ∧
  countryManagedRisks s' = countryManagedRisks s ∧
  baselineRisk s' = baselineRisk s ∧
  managedRisk s' = managedRisk s ∧
  riskConcentration s' = riskConcentration s ∧
  focus s' = focus s ∧
  hrddStrategy s' = hrddStrategy s ∧
  transparencyEffectiveness s' = transparencyEffectiveness s ∧
  responsivenessStrategy s' = responsivenessStrategy s ∧
  responsivenessEffectiveness s' = responsivenessEffectiveness s ∧
  focusEffectivenessMetrics s' = focusEffectivenessMetrics s ∧
  currentPanel s' = currentPanel s ∧
  loading s' = loading s ∧
  error s' = error s ∧
  apiHealthy s' = apiHealthy s ∧
  lastUpdate s' = lastUpdate s ∧
  isDirty s' = isDirty s ∧
  isGeneratingReport s' = isGeneratingReport s.
Proof.
  unfold optimizeBudgetAllocation. simpl.
  repeat split; reflexivity.
Qed.

End Optimisation.

(** ** Panel navigation through [setState] *)

Section Navigation.

Import AppController Spec.
Local Open Scope Q_scope.

(** A member that [setState] assigns does not disturb a projection
    that its setter leaves alone. *)
Lemma assign_frame {A B C : Type} (proj : State → C) (v : option A)
    (g : A → B) (set : B → State → State) (s : State) :
  (∀ b s, proj (set b s) = proj s) → proj (assign v g set s) = proj s.
Proof. intros H. destruct v; simpl; auto. Qed.

(** The panel [setState] leaves the application on is decided by the
    [currentPanel] member alone. *)
Lemma setState_currentPanel_eq (eng : Engine.t) (now : string)
    (p : PartialState) (s : State) :
  currentPanel (setState eng now (Some p) s)
  = if isNumber (p_currentPanel p)
    then nmax (num 1) (nmin (num 5) (nround (toNumber (p_currentPanel p))))
    else currentPanel s.
Proof.
  unfold setState. cbv zeta.
  unfold calculateManagedRisk, calculateBaselineRisk, calculateAllRisks.
  cbn [currentPanel set_lastUpdate set_countryManagedRisks
       set_focusEffectivenessMetrics set_managedRisk set_baselineRisk
       set_countryRisks set_isDirty].
  destruct (isNumber (p_currentPanel p)); [reflexivity|].
  repeat (rewrite assign_frame by reflexivity).
  destruct (isNumber (p_riskConcentration p)), (isNumber (p_focus p));
    cbn [currentPanel set_riskConcentration set_focus];
    repeat (rewrite assign_frame by reflexivity); reflexivity.
Qed.

(** Rounding, capping at 5 and flooring at 1 gives one of 1, ..., 5. *)
Lemma clamp_panel (n : number) :
  n ≠ NaN →
  ∃ z : Z, (1 <= z <= 5)%Z ∧
    nmax (num 1) (nmin (num 5) (nround n)) = num z ∧
    (∀ q, n = Fin q → z = Z.max 1 (Z.min 5 (Qfloor (q + (1 # 2))))).
Proof.
  intros Hn. destruct n as [q| | |]; [| | |contradiction].
  - set (k := Qfloor (q + (1 # 2))).
    exists (Z.max 1 (Z.min 5 k)). split; [lia|]. split.
    + cbn [nround]. fold k. unfold num. rewrite nmin_fin, nmax_fin.
      destruct (Qlt_b (inject_Z k) (inject_Z 5)) eqn:E1;
        [apply Qlt_b_true in E1; rewrite <- Zlt_Qlt in E1
        |apply Qlt_b_false in E1; rewrite <- Zle_Qle in E1].
      * destruct (Qlt_b (inject_Z 1) (inject_Z k)) eqn:E2;
          [apply Qlt_b_true in E2; rewrite <- Zlt_Qlt in E2
          |apply Qlt_b_false in E2; rewrite <- Zle_Qle in E2];
          f_equal; f_equal; lia.
      * change (Qlt_b (inject_Z 1) (inject_Z 5)) with true. cbv iota.
        f_equal; f_equal; lia.
    + intros q' [= <-]. reflexivity.
  - exists 5%Z. split; [lia|]. split; [reflexivity|]. discriminate.
  - exists 1%Z. split; [lia|]. split; [reflexivity|]. discriminate.
Qed.

(** C9, in the form that holds.  A [setState] call whose
    [currentPanel] member is a number other than [NaN] leaves the
    application on the panel obtained by rounding it and clamping the
    result to 1, ..., 5, hence never on panel 6, although
    [setCurrentPanel] accepts panel 6.  A [setState] call without a
    numeric [currentPanel] leaves the panel where it was, panel 6
    included. *)
Theorem setState_currentPanel (eng : Engine.t) (now : string)
    (p : PartialState) (s : State) :
  (∀ n, p_currentPanel p = JNum n → n ≠ NaN →
     ∃ z : Z, (1 <= z <= 5)%Z ∧
       currentPanel (setState eng now (Some p) s) = num z ∧
       (∀ q, n = Fin q → z = Z.max 1 (Z.min 5 (Qfloor (q + (1 # 2)))))) ∧
  (isNumber (p_currentPanel p) = false →
     currentPanel (setState eng now (Some p) s) = currentPanel s) ∧
  currentPanel (setState eng now None s) = currentPanel s ∧
  (∀ panel : Q, 1 <= panel → panel <= 6 →
     currentPanel (setCurrentPanel (Fin panel) s) = Fin panel) ∧
  currentPanel (setCurrentPanel (num 6) s) = num 6.
Proof.
  split; [|split; [|split; [|split]]].
  - intros n Hp Hn. rewrite setState_currentPanel_eq, Hp. simpl isNumber.
    cbv iota. cbn [toNumber]. apply clamp_panel. exact Hn.
  - intros Hp. rewrite setState_currentPanel_eq, Hp. reflexivity.
  - reflexivity.
  - intros panel H1 H6. unfold setCurrentPanel, nge, num.
    change (if ENABLE_PANEL_6 then Fin (inject_Z 6) else Fin (inject_Z 5))
      with (Fin (inject_Z 6)).
    cbv zeta.
    rewrite (proj2 (nle_fin (inject_Z 1) panel)) by exact H1.
    rewrite (proj2 (nle_fin panel (inject_Z 6))) by exact H6.
    reflexivity.
  - reflexivity.
Qed.

(** C9 as stated, that no [setState] call leaves the application on
    panel 6, fails: after [setCurrentPanel(6)], [setState({})] does. *)
Lemma setState_stays_on_panel_6 :
  let s := setCurrentPanel (num 6) (initialState demoEngine) in
  currentPanel s = num 6 ∧
  currentPanel (setState demoEngine "t" (Some emptyPartial) s) = num 6.
Proof. split; reflexivity. Qed.

(** [NaN] passes the [typeof] test and every later step: it is stored. *)
Example setState_currentPanel_NaN :
  currentPanel
    (setState demoEngine "t"
       (Some (mkPartial None None None None None None None JUndefined
                JUndefined None None None None None None None None None
                None (JNum NaN)))
       (initialState demoEngine))
  = NaN.
Proof. reflexivity. Qed.

End Navigation.

(** ** Budget rows *)

Section BudgetRows.

Import Panels Spec.
Local Open Scope Q_scope.

Lemma orZero_finite (arr : list jsval) (i : nat) :
  finiteArray arr → ∃ q, orZero (index arr i) = Fin q.
Proof.
  intros Hfin. unfold orZero, index.
  destruct (arr !! i) as [v|] eqn:Hv; simpl; [|eexists; reflexivity].
  unfold finiteArray in Hfin. rewrite Forall_lookup in Hfin.
  specialize (Hfin i v Hv).
  destruct v as [[q| | |]| | |]; try discriminate.
  simpl. destruct (negb (Qeq_bool q 0)); eexists; reflexivity.
Qed.

Lemma coverageAt_finite (allocation : list jsval) (i : nat) :
  ∃ c, coverageAt allocation i = Fin c.
Proof.
  unfold coverageAt.
  destruct (index allocation i) as [[q| | |]| | |]; simpl;
    eexists; reflexivity.
Qed.

(** The clamped ratio the code computes is the specification's. *)
Lemma coverageRatio_code (c : Q) :
  ∃ ρ, nmax (num 0) (nmin (num 1) (ndiv (Fin c) (num 100))) = Fin ρ ∧
       ρ == coverageRatio c.
Proof.
  unfold num. rewrite ndiv_fin by discriminate.
  rewrite nmin_fin, nmax_fin. eexists. split; [reflexivity|].
  unfold coverageRatio.
  change (inject_Z 0) with 0. change (inject_Z 1) with 1.
  change (inject_Z 100) with 100.
  assert (Hdiv : c / 100 == c * (1 # 100)) by (field; discriminate).
  destruct (Qlt_b (c / 100) 1) eqn:E1;
    [apply Qlt_b_true in E1 | apply Qlt_b_false in E1];
  (destruct (Qlt_b 0 _) eqn:E2;
    [apply Qlt_b_true in E2 | apply Qlt_b_false in E2]);
  (destruct (Qlt_b c 0) eqn:E3;
    [apply Qlt_b_true in E3 | apply Qlt_b_false in E3]);
  (destruct (Qlt_b 100 c) eqn:E4;
    [apply Qlt_b_true in E4 | apply Qlt_b_false in E4]);
  try reflexivity; lra.
Qed.


(** One row, against the formulas of the specification. *)
Lemma buildRow_formulas (ctx : BreakdownContext) (allocation : list jsval)
    (reduce : bool) (label : string) (i : nat) :
  finiteContext ctx →
  ∃ n h c a p d r k : Q,
    safeSupplierCount ctx = Fin n ∧
    safeHourlyRate ctx = Fin h ∧
    coverageAt allocation i = Fin c ∧
    orZero (index (safeAnnualCosts ctx) i) = Fin a ∧
    orZero (index (safePerSupplierCosts ctx) i) = Fin p ∧
    orZero (index (safeInternalHours ctx) i) = Fin d ∧
    orZero (index (safeRemedyHours ctx) i) = Fin r ∧
    reductionFactorAt ctx reduce i = Fin k ∧
    let row := buildRow ctx allocation reduce label i in
    rowName row = label ∧
    coverage row = Fin c ∧
    is_q (Panels.suppliersUsingTool row)
      (inject_Z (Spec.suppliersUsingTool n c)) ∧
    is_q (totalExternalCost row) (externalCost (a * k) (p * k) n c) ∧
    is_q (detectionInternalCost row) (internalCost (d * k) h n c) ∧
    is_q (remedyInternalCost row) (internalCost (r * k) h n c) ∧
    is_q (totalInternalCost row)
      (internalCost (d * k) h n c + internalCost (r * k) h n c) ∧
    is_q (totalCost row)
      (externalCost (a * k) (p * k) n c
       + (internalCost (d * k) h n c + internalCost (r * k) h n c)).
Proof.
  intros (Hn & Hh & Hf & Ha & Hp & Hd & Hr).
  destruct (safeSupplierCount ctx) as [n| | |] eqn:En; try discriminate.
  destruct (safeHourlyRate ctx) as [h| | |] eqn:Eh; try discriminate.
  destruct (coverageAt_finite allocation i) as [c Ec].
  destruct (orZero_finite _ i Ha) as [a Ea].
  destruct (orZero_finite _ i Hp) as [p Ep].
  destruct (orZero_finite _ i Hd) as [d Ed].
  destruct (orZero_finite _ i Hr) as [r Er].
  assert (Hk : ∃ k, reductionFactorAt ctx reduce i = Fin k).
  { unfold reductionFactorAt.
    destruct (reduce && socialAuditTool ctx i).
    - destruct (socialAuditReductionFactor ctx) as [f| | |];
        try discriminate. eexists; reflexivity.
    - eexists; reflexivity. }
  destruct Hk as [k Ek].
  exists n, h, c, a, p, d, r, k.
  repeat (split; [first [reflexivity | assumption]|]).
  unfold buildRow. fold (coverageAt allocation i).
  fold (reductionFactorAt ctx reduce i).
  rewrite Ec, En, Eh, Ea, Ep, Ed, Er, Ek.
  destruct (coverageRatio_code c) as (ρ & Eρ & Hρ). rewrite Eρ.
  cbn [nmul nceil nadd rowName coverage Panels.suppliersUsingTool
       totalExternalCost detectionInternalCost remedyInternalCost
       totalInternalCost totalCost is_q same].
  unfold externalCost, internalCost, Spec.suppliersUsingTool.
  assert (Hceil : Qceiling (n * ρ) = Qceiling (n * coverageRatio c))
    by (rewrite Hρ; reflexivity).
  rewrite Hceil.
  repeat split; try reflexivity; rewrite ?Hρ; ring.
Qed.



End BudgetRows.

(** ** Stage attribution without an engine breakdown *)

Section StageShares.

Import Panels Spec.
Local Open Scope Q_scope.




End StageShares.

(** ** Volumes and the selection *)

Section Volumes.

Import AppController Spec.

Lemma elem_of_distinctFrom (seen l : list string) (x : string) :
  x ∈ distinctFrom seen l ↔ x ∈ l ∧ x ∉ seen.
Proof.
  revert seen. induction l as [|y t IH]; intros seen; simpl.
  - split; [intros H; inversion H | intros [H _]; inversion H].
  - destruct (bool_decide (y ∈ seen)) eqn:E.
    + apply bool_decide_eq_true in E. rewrite IH, elem_of_cons.
      split; [tauto|]. intros [[->|H] Hn]; [contradiction | tauto].
    + apply bool_decide_eq_false in E.
      rewrite !elem_of_cons, IH, not_elem_of_cons.
      split.
      * intros [->|(H1 & H2 & H3)]; tauto.
      * intros [[->|H1] H2]; [tauto|].
        destruct (decide (x = y)) as [->|Hne]; tauto.
Qed.

Lemma elem_of_distinct (l : list string) (x : string) :
  x ∈ distinct l ↔ x ∈ l.
Proof.
  unfold distinct. rewrite elem_of_distinctFrom. split; [tauto|].
  intros H. split; [exact H|]. apply not_elem_of_nil.
Qed.

Lemma lookup_deleteAll (codes : list string) (m : gmap string jsval)
    (k : string) :
  is_Some (deleteAll codes m !! k) ↔ is_Some (m !! k) ∧ k ∉ codes.
Proof.
  unfold deleteAll. revert m.
  induction codes as [|c t IH]; intros m; simpl.
  - split; [intros H; split; [exact H | apply not_elem_of_nil] | tauto].
  - rewrite IH, not_elem_of_cons. destruct (decide (k = c)) as [->|Hne].
    + rewrite lookup_delete_eq. split.
      * intros [[? H] _]. discriminate.
      * intros [_ [H _]]. contradiction.
    + rewrite lookup_delete_ne by congruence. tauto.
Qed.

(** A step that touches neither member keeps the invariant. *)
Lemma volumesSelected_frame (s s' : State) :
  countryVolumes s' = countryVolumes s →
  selectedCountries s' = selectedCountries s →
  volumesSelected s → volumesSelected s'.
Proof. unfold volumesSelected. intros -> ->. auto. Qed.

(** [onCountrySelect] purges the volume of every country it deselects. *)
Lemma onCountrySelect_volumesSelected (eng : Engine.t) (now : string)
    (sel : Selection) (s : State) :
  volumesSelected s → volumesSelected (onCountrySelect eng now sel s).
Proof.
  intros Hinv. unfold onCountrySelect.
  match goal with
  | |- context [match ?u with Some _ => _ | None => s end] =>
      destruct u as [updated|]; [|exact Hinv]
  end.
  set (deselected :=
         filter (λ code, includes updated code = false)
           (distinct (selectedCountries s))).
  assert (Hvol : ∀ code,
            is_Some (countryVolumes
                       match deselected with
                       | [] => s
                       | _ :: _ =>
                           set_countryManagedRisks
                             (deleteAll deselected (countryManagedRisks s))
                             (set_countryVolumes
                                (deleteAll deselected (countryVolumes s)) s)
                       end !! code) →
            is_Some (countryVolumes s !! code) ∧ code ∉ deselected).
  { intros code. destruct deselected as [|d ds] eqn:E.
    - intros H. split; [exact H | apply not_elem_of_nil].
    - cbn [countryVolumes set_countryManagedRisks set_countryVolumes].
      intros H. apply lookup_deleteAll in H. exact H. }
  intros code Hcode.
  cbn [countryVolumes selectedCountries set_lastUpdate calculateManagedRisk
       calculateBaselineRisk calculateAllRisks set_countryManagedRisks
       set_focusEffectivenessMetrics set_managedRisk set_baselineRisk
       set_countryRisks set_isDirty set_selectedCountries] in Hcode |- *.
  apply Hvol in Hcode. destruct Hcode as [Hsome Hnot].
  specialize (Hinv code Hsome).
  destruct (includes updated code) eqn:Hin.
  - unfold includes in Hin. apply bool_decide_eq_true in Hin. exact Hin.
  - exfalso. apply Hnot. unfold deselected.
    apply list_elem_of_filter. split; [exact Hin|].
    apply elem_of_distinct. exact Hinv.
Qed.

(** [onVolumeChange] stores a volume only for a selected country. *)
Lemma onVolumeChange_volumesSelected (code : string) (v : jsval) (s : State) :
  volumesSelected s → volumesSelected (onVolumeChange code v s).
Proof.
  intros Hinv. unfold onVolumeChange.
  destruct (includes (selectedCountries s) (normalize code)) eqn:Hin;
    simpl negb; cbv iota; [|exact Hinv].
  unfold includes in Hin. apply bool_decide_eq_true in Hin.
  intros k Hk.
  cbn [countryVolumes selectedCountries set_isDirty set_countryVolumes]
    in Hk |- *.
  destruct (decide (k = normalize code)) as [->|Hne]; [exact Hin|].
  rewrite lookup_insert_ne in Hk by congruence. apply Hinv. exact Hk.
Qed.

Lemma removeCountry_volumesSelected (eng : Engine.t) (now code : string)
    (s : State) :
  volumesSelected s → volumesSelected (removeCountry eng now code s).
Proof.
  intros Hinv. unfold removeCountry.
  destruct (negb (nonEmpty (normalize code))); [exact Hinv|].
  apply onCountrySelect_volumesSelected.
  intros k Hk.
  cbn [countryVolumes selectedCountries set_countryManagedRisks
       set_countryVolumes] in Hk |- *.
  destruct (decide (k = normalize code)) as [->|Hne].
  - rewrite lookup_delete_eq in Hk. destruct Hk as [? Hk]. discriminate.
  - rewrite lookup_delete_ne in Hk by congruence. apply Hinv. exact Hk.
Qed.

Lemma addCountry_volumesSelected (eng : Engine.t) (now code : string)
    (volume : option jsval) (s : State) :
  volumesSelected s → volumesSelected (addCountry eng now code volume s).
Proof.
  intros Hinv. unfold addCountry.
  destruct (negb (nonEmpty (normalize code))); [exact Hinv|].
  destruct volume as [v|].
  - apply onVolumeChange_volumesSelected, onCountrySelect_volumesSelected.
    exact Hinv.
  - apply onCountrySelect_volumesSelected. exact Hinv.
Qed.

(** The handlers keep the invariant of C2: from a new controller, no
    sequence of handler calls other than [setState] and [restoreState]
    leaves a volume for a country that is not selected. *)
Lemma handlers_keep_volumes_selected (eng : Engine.t) (s : State) :
  rtc (handlerStep eng) (initialState eng) s → volumesSelected s.
Proof.
  intros Hreach. apply rtc_nsteps in Hreach. destruct Hreach as [n Hn].
  revert s Hn. induction n as [|n IH]; intros s Hn.
  - apply nsteps_once_inv in Hn || inversion Hn; subst.
    intros code [v Hv]. simpl in Hv. rewrite lookup_empty in Hv.
    discriminate.
  - apply nsteps_inv_r in Hn. destruct Hn as (s0 & Hs0 & Hstep).
    specialize (IH s0 Hs0).
    destruct Hstep.
    + eapply volumesSelected_frame; [| |exact IH];
        destruct w; reflexivity.
    + apply onCountrySelect_volumesSelected, IH.
    + apply onVolumeChange_volumesSelected, IH.
    + eapply volumesSelected_frame; [| |exact IH];
        destruct next; reflexivity.
    + eapply volumesSelected_frame; [| |exact IH];
        destruct next; reflexivity.
    + eapply volumesSelected_frame; [| |exact IH];
        destruct next; reflexivity.
    + eapply volumesSelected_frame; [| |exact IH];
        destruct next; reflexivity.
    + eapply volumesSelected_frame; [| |exact IH]; reflexivity.
    + eapply volumesSelected_frame; [| |exact IH]; reflexivity.
    + eapply volumesSelected_frame; [| |exact IH]; reflexivity.
    + eapply volumesSelected_frame; [| |exact IH];
        unfold setCurrentPanel;
        destruct (nge panel (num 1) && nle panel (if ENABLE_PANEL_6 then num 6 else num 5));
        reflexivity.
    + apply addCountry_volumesSelected, IH.
    + apply removeCountry_volumesSelected, IH.
    + eapply volumesSelected_frame; [| |exact IH]; reflexivity.
    + eapply volumesSelected_frame; [| |exact IH]; reflexivity.
    + eapply volumesSelected_frame; [| |exact IH]; reflexivity.
    + eapply volumesSelected_frame; [| |exact IH]; reflexivity.
Qed.

(** C2.  [setState] breaks the invariant that the handlers keep.
    Select FRA, give it the volume 25, then call
    [setState({selectedCountries: ['DEU']})]: FRA is no longer selected
    and its volume is still there, where [onCountrySelect(['DEU'])]
    purges it.  [setState({countryVolumes: {XX: 5}})] on a new
    controller stores a volume for a country that was never selected. *)
Theorem setState_orphans_volume :
  let s0 := initialState demoEngine in
  let s1 := onCountrySelect demoEngine "t1" (SelArray [Some "FRA"]) s0 in
  let s2 := onVolumeChange "FRA" (JNum (num 25)) s1 in
  let onlyDEU :=
    mkPartial None (Some ["DEU"]) None None None None None JUndefined
      JUndefined None None None None None None None None None None
      JUndefined in
  let onlyVolumes :=
    mkPartial None None None None None None None JUndefined JUndefined
      (Some [("XX", JNum (num 5))]) None None None None None None None None
      None JUndefined in
  let s3 := setState demoEngine "t2" (Some onlyDEU) s2 in
  let s3' := onCountrySelect demoEngine "t2" (SelArray [Some "DEU"]) s2 in
  let s4 := setState demoEngine "t1" (Some onlyVolumes) s0 in
  rtc (handlerStep demoEngine) s0 s2 ∧
  volumesSelected s2 ∧
  selectedCountries s3 = ["DEU"] ∧
  countryVolumes s3 !! "FRA" = Some (JNum (num 25)) ∧
  ¬ volumesSelected s3 ∧
  selectedCountries s3' = ["DEU"] ∧
  countryVolumes s3' = ∅ ∧
  selectedCountries s4 = [] ∧
  countryVolumes s4 !! "XX" = Some (JNum (num 5)) ∧
  ¬ volumesSelected s4.
Proof.
  intros s0 s1 s2 onlyDEU onlyVolumes s3 s3' s4.
  assert (Hreach : rtc (handlerStep demoEngine) s0 s2).
  { eapply rtc_l; [apply (StepCountrySelect demoEngine s0 "t1"
                            (SelArray [Some "FRA"]))|].
    eapply rtc_l; [apply (StepVolume demoEngine s1 "FRA" (JNum (num 25)))|].
    apply rtc_refl. }
  split; [exact Hreach|].
  split; [apply (handlers_keep_volumes_selected demoEngine), Hreach|].
  assert (H3 : countryVolumes s3 !! "FRA" = Some (JNum (num 25)))
    by (vm_compute; reflexivity).
  assert (H4 : countryVolumes s4 !! "XX" = Some (JNum (num 5)))
    by (vm_compute; reflexivity).
  assert (Hsel3 : selectedCountries s3 = ["DEU"])
    by (vm_compute; reflexivity).
  assert (Hsel4 : selectedCountries s4 = []) by (vm_compute; reflexivity).
  split; [exact Hsel3|].
  split; [exact H3|].
  split.
  { intros Hinv. specialize (Hinv "FRA" (ex_intro _ _ H3)).
    rewrite Hsel3 in Hinv. apply list_elem_of_singleton in Hinv.
    discriminate. }
  split; [vm_compute; reflexivity|].
  split; [vm_compute; reflexivity|].
  split; [exact Hsel4|].
  split; [exact H4|].
  intros Hinv. specialize (Hinv "XX" (ex_intro _ _ H4)).
  rewrite Hsel4 in Hinv. inversion Hinv.
Qed.

End Volumes.

(** ** Saving and restoring a session *)

Section Persistence.

Import AppController Spec.
Local Open Scope Q_scope.

Lemma restoreMember_frame {A C : Type} (proj : State → C) (v : option A)
    (f : A → State → State) (acc : State * bool) :
  (∀ a s, proj (f a s) = proj s) →
  proj (restoreMember v f acc).1 = proj acc.1.
Proof. intros H. destruct v; simpl; auto. Qed.

(** Reading a member of a state written member by member. *)
Ltac state_cbn :=
  cbn [
       countries weights supplierCount hourlyRate
       toolAnnualProgrammeCosts toolPerSupplierCosts
       toolInternalHours toolRemedyInternalHours
       saqConstraintEnabled socialAuditConstraintEnabled
       socialAuditCostReduction shouldAutoRunOptimization
       lastOptimizationResult selectedCountries countryVolumes
       countryRisks countryManagedRisks baselineRisk managedRisk
       riskConcentration focus hrddStrategy
       transparencyEffectiveness responsivenessStrategy
       responsivenessEffectiveness focusEffectivenessMetrics
       currentPanel loading error apiHealthy lastUpdate isDirty
       isGeneratingReport set_countries set_weights
       set_supplierCount set_hourlyRate
       set_toolAnnualProgrammeCosts set_toolPerSupplierCosts
       set_toolInternalHours set_toolRemedyInternalHours
       set_saqConstraintEnabled set_socialAuditConstraintEnabled
       set_socialAuditCostReduction set_shouldAutoRunOptimization
       set_lastOptimizationResult set_selectedCountries
       set_countryVolumes set_countryRisks set_countryManagedRisks
       set_baselineRisk set_managedRisk set_riskConcentration
       set_focus set_hrddStrategy set_transparencyEffectiveness
       set_responsivenessStrategy set_responsivenessEffectiveness
       set_focusEffectivenessMetrics set_currentPanel set_loading
       set_error set_apiHealthy set_lastUpdate set_isDirty
       set_isGeneratingReport].

(** A setter leaves the other members alone. *)
Ltac frames :=
  intros ? []; state_cbn;
  lazymatch goal with |- ?x = ?y => constr_eq x y; reflexivity end.

Lemma setter_frame {B C : Type} (proj : State → C)
    (set : B → State → State) (v : B) (s : State) :
  (∀ b s, proj (set b s) = proj s) → proj (set v s) = proj s.
Proof. intros H. apply H. Qed.

Lemma restoreMember_Some {A : Type} (a : A) (f : A → State → State)
    (acc : State * bool) :
  (restoreMember (Some a) f acc).1 = f a acc.1.
Proof. reflexivity. Qed.

Lemma save_restore_state (eng : Engine.t) (s : State) :
  (restoreState eng (saveState s).2 (saveState s).1).1
  = set_isDirty false
      (restoreParsed eng (snapshot s) (set_isDirty false s)).1.
Proof. reflexivity. Qed.

(** Read one member of the state restored from a saved document: skip
    the members restored after it, then read what its own step wrote. *)
Ltac restored_member :=
  rewrite save_restore_state;
  rewrite (setter_frame _ set_isDirty) by frames;
  unfold restoreParsed; cbv zeta;
  repeat (rewrite restoreMember_frame by frames);
  unfold snapshot at 1;
  cbn [snap_weights snap_selectedCountries snap_hrddStrategy
       snap_transparencyEffectiveness snap_responsivenessStrategy
       snap_responsivenessEffectiveness snap_countryVolumes snap_focus];
  try (rewrite restoreMember_Some; state_cbn; reflexivity).

(** What [restoreState] makes of the document [saveState] wrote. *)
Lemma save_restore_weights (eng : Engine.t) (s : State) :
  weights (restoreState eng (saveState s).2 (saveState s).1).1
  = jsonValue <$> weights s.
Proof. restored_member. Qed.

Lemma save_restore_hrddStrategy (eng : Engine.t) (s : State) :
  hrddStrategy (restoreState eng (saveState s).2 (saveState s).1).1
  = jsonValue <$> hrddStrategy s.
Proof. restored_member. Qed.

Lemma save_restore_responsivenessStrategy (eng : Engine.t) (s : State) :
  responsivenessStrategy (restoreState eng (saveState s).2 (saveState s).1).1
  = jsonValue <$> responsivenessStrategy s.
Proof. restored_member. Qed.

Lemma save_restore_transparencyEffectiveness (eng : Engine.t) (s : State) :
  transparencyEffectiveness
    (restoreState eng (saveState s).2 (saveState s).1).1
  = normalizeTransparencyEffectiveness
      (Some (jsonNumber <$> transparencyEffectiveness s)).
Proof. restored_member. Qed.

Lemma save_restore_responsivenessEffectiveness (eng : Engine.t) (s : State) :
  responsivenessEffectiveness
    (restoreState eng (saveState s).2 (saveState s).1).1
  = normalizeResponsivenessEffectiveness eng
      (Some (jsonNumber <$> responsivenessEffectiveness s)).
Proof. restored_member. Qed.

Lemma save_restore_selectedCountries (eng : Engine.t) (s : State) :
  selectedCountries (restoreState eng (saveState s).2 (saveState s).1).1
  = filter (λ c, nonEmpty c = true)
      ((λ code, match code with
                | Some c => normalize c
                | None => EmptyString
                end) <$> (Some <$> selectedCountries s)).
Proof. restored_member. Qed.

Lemma save_restore_countryVolumes (eng : Engine.t) (s : State) :
  countryVolumes (restoreState eng (saveState s).2 (saveState s).1).1
  = normalizeKeys (jsonObject (countryVolumes s)).
Proof. restored_member. Qed.

Lemma save_restore_focus (eng : Engine.t) (s : State) (q : Q) :
  focus s = Fin q →
  focus (restoreState eng (saveState s).2 (saveState s).1).1
  = clamp01 (JNum (Fin q)).
Proof.
  intros Hq. restored_member. rewrite Hq. cbn [jsonNumber jsonValue asNumber].
  rewrite restoreMember_Some. state_cbn. reflexivity.
Qed.

(** JSON carries an array of finite numbers unchanged. *)
Lemma jsonValue_finiteArray (l : list jsval) :
  finiteArray l → jsonValue <$> l = l.
Proof.
  unfold finiteArray. induction 1 as [|v l Hv _ IH]; [reflexivity|].
  rewrite fmap_cons, IH.
  destruct v as [[q| | |]| | |]; try discriminate. reflexivity.
Qed.

(** Codes that are already normalized are restored as they are. *)
Lemma restore_normalized_codes (l : list string) :
  Forall (λ c, normalize c = c ∧ c ≠ EmptyString) l →
  filter (λ c, nonEmpty c = true)
    ((λ code, match code with
              | Some c => normalize c
              | None => EmptyString
              end) <$> (Some <$> l)) = l.
Proof.
  induction 1 as [|c l [Hc Hne] _ IH]; [reflexivity|].
  rewrite !fmap_cons, Hc, filter_cons, IH.
  destruct (decide (nonEmpty c = true)) as [_|Hn]; [reflexivity|].
  destruct c; [contradiction|]. exfalso. apply Hn. reflexivity.
Qed.

(** An effectiveness percentage read back: the same unless it lies in
    (0, 1], in which case it comes back multiplied by 100. *)
Lemma restoredEntry_normalized (q : Q) (r : number) :
  0 <= q → q <= 100 → normalizedEntry q r → restoredEntry (Fin q) r.
Proof.
  intros H0 H100 (_ & _ & _ & _ & Hkeep & Hscale & _). split.
  - intros [Hz|H1]; apply Hkeep; [left; exact Hz | right; split; lra].
  - exact Hscale.
Qed.

Lemma restored_transparency (l : list number) :
  Forall (within 0 100) l →
  Forall2 restoredEntry l
    (normalizeTransparencyEffectiveness (Some (jsonNumber <$> l))).
Proof.
  induction 1 as [|e l He _ IH]; [constructor|].
  destruct e as [q| | |]; try contradiction. simpl in He.
  cbn [normalizeTransparencyEffectiveness] in IH |- *.
  rewrite !fmap_cons. constructor; [|exact IH].
  apply restoredEntry_normalized; [lra | lra |].
  cbn [jsonNumber jsonValue parseFloat isFiniteNum negb].
  exact (normalized_finite q).
Qed.

Lemma index_fmap_jsonNumber (l : list number) (i : nat) (q : Q) :
  l !! i = Some (Fin q) → index (jsonNumber <$> l) i = JNum (Fin q).
Proof.
  intros H. unfold index. rewrite list_lookup_fmap, H. reflexivity.
Qed.

Lemma restored_responsiveness (eng : Engine.t) (l : list number) :
  length l = expectedLength eng →
  Forall (within 0 100) l →
  Forall2 restoredEntry l
    (normalizeResponsivenessEffectiveness eng (Some (jsonNumber <$> l))).
Proof.
  intros Hlen Hall. apply Forall2_same_length_lookup. split.
  - unfold normalizeResponsivenessEffectiveness.
    rewrite length_fmap, length_seq. exact Hlen.
  - intros i e r He Hr.
    assert (Hi : (i < expectedLength eng)%nat).
    { rewrite <- Hlen. apply lookup_lt_is_Some. eauto. }
    rewrite Forall_lookup in Hall. pose proof (Hall i e He) as Hw.
    destruct e as [q| | |]; try contradiction. simpl in Hw.
    unfold normalizeResponsivenessEffectiveness in Hr.
    rewrite (lookup_fmap_seq _ _ _ Hi) in Hr.
    rewrite (index_fmap_jsonNumber l i q He) in Hr.
    cbn [parseFloat isFiniteNum negb] in Hr. injection Hr as <-.
    apply restoredEntry_normalized; [lra | lra |].
    exact (normalized_finite q).
Qed.

(** Writing the entries of an object back under keys that need no
    normalizing rebuilds the object. *)
Lemma lookup_normalizeKeys_aux (entries : list (string * jsval))
    (acc : gmap string jsval) (k : string) :
  NoDup entries.*1 →
  Forall (λ kv, normalize kv.1 = kv.1) entries →
  foldl (λ (acc : gmap string jsval) kv, <[normalize kv.1 := kv.2]> acc)
        acc entries !! k
  = (list_to_map entries ∪ acc) !! k.
Proof.
  revert acc. induction entries as [|[k0 v0] t IH]; intros acc Hnd Hall.
  - simpl. rewrite (left_id_L ∅ (∪)). reflexivity.
  - inversion Hall as [|? ? Hk0 Ht]; subst. simpl in Hk0.
    rewrite fmap_cons in Hnd. apply NoDup_cons in Hnd.
    destruct Hnd as [Hnot Hnd]. simpl in Hnot.
    cbn [foldl]. rewrite IH by assumption. cbn [fst snd]. rewrite Hk0.
    rewrite list_to_map_cons.
    assert (Hnone : (list_to_map t : gmap string jsval) !! k0 = None)
      by (apply not_elem_of_list_to_map_1; exact Hnot).
    destruct (decide (k = k0)) as [->|Hne].
    + rewrite lookup_union_r by exact Hnone.
      rewrite lookup_insert_eq.
      rewrite lookup_union_l'; rewrite lookup_insert_eq; eauto.
    + rewrite !lookup_union, !lookup_insert_ne by congruence. reflexivity.
Qed.

Lemma omap_id_on {A : Type} (f : A → option A) (l : list A) :
  Forall (λ x, f x = Some x) l → omap f l = l.
Proof.
  induction 1 as [|x l Hx _ IH]; [reflexivity|].
  cbn [omap list_omap]. rewrite Hx, IH. reflexivity.
Qed.

Lemma restore_saved_volumes (m : gmap string jsval) :
  (∀ k v, m !! k = Some v → normalize k = k ∧ isFinite v = true) →
  normalizeKeys (jsonObject m) = m.
Proof.
  intros Hm.
  assert (Hjson : jsonObject m = map_to_list m).
  { unfold jsonObject. apply omap_id_on. apply Forall_forall.
    intros [k v] Hkv. apply elem_of_map_to_list in Hkv.
    destruct (Hm k v Hkv) as [_ Hv]. cbn [fst snd].
    destruct v as [[x| | |]| | |]; try discriminate. reflexivity. }
  rewrite Hjson. apply map_eq. intros k. unfold normalizeKeys.
  rewrite lookup_normalizeKeys_aux.
  - rewrite list_to_map_to_list, (right_id_L ∅ (∪)). reflexivity.
  - apply NoDup_fst_map_to_list.
  - apply Forall_forall. intros [k0 v0] Hkv.
    apply elem_of_map_to_list in Hkv. apply (Hm k0 v0 Hkv).
Qed.

(** For session data that JSON carries unchanged, [saveState] followed
    by [restoreState] gives back the weights, the strategy vectors, the
    focus, the selection and the volumes, and every effectiveness
    percentage that is 0 or above 1; a percentage in (0, 1] comes back
    multiplied by 100. *)
Lemma save_restore_roundtrip (eng : Engine.t) (s : State) :
  persistable eng s →
  let s' := (restoreState eng (saveState s).2 (saveState s).1).1 in
  weights s' = weights s ∧
  hrddStrategy s' = hrddStrategy s ∧
  responsivenessStrategy s' = responsivenessStrategy s ∧
  same (focus s') (focus s) ∧
  selectedCountries s' = selectedCountries s ∧
  countryVolumes s' = countryVolumes s ∧
  Forall2 restoredEntry (transparencyEffectiveness s)
    (transparencyEffectiveness s') ∧
  Forall2 restoredEntry (responsivenessEffectiveness s)
    (responsivenessEffectiveness s').
Proof.
  intros [Hw Hs Hr Ht He Hlen Hf Hc Hv] s'. subst s'.
  split; [rewrite save_restore_weights; apply jsonValue_finiteArray, Hw|].
  split; [rewrite save_restore_hrddStrategy;
          apply jsonValue_finiteArray, Hs|].
  split; [rewrite save_restore_responsivenessStrategy;
          apply jsonValue_finiteArray, Hr|].
  split.
  { destruct (focus s) as [q| | |] eqn:Eq; try contradiction.
    rewrite (save_restore_focus eng s q Eq). simpl in Hf.
    unfold clamp01. cbn [parseFloat isFiniteNum negb].
    apply (clamp_id 0 1 q); apply Hf. }
  split; [rewrite save_restore_selectedCountries;
          apply restore_normalized_codes, Hc|].
  split; [rewrite save_restore_countryVolumes;
          apply restore_saved_volumes, Hv|].
  split.
  - rewrite save_restore_transparencyEffectiveness.
    apply restored_transparency, Ht.
  - rewrite save_restore_responsivenessEffectiveness.
    apply restored_responsiveness; assumption.
Qed.

(** C4.  Saving and restoring does not always give back the session.
    [onTransparencyChange([0.005, 40, 30, 20, 10, 5])] on a new
    controller stores the percentages 0.5, 40, 30, 20, 10, 5.  After
    [saveState] and [restoreState] the first one is 50: [restoreState]
    normalizes the saved percentages once more, and the normalizer
    reads 0.5 as a fraction.  The members that [restoreState] copies
    (weights, strategy vectors, selection, volumes) come back as they
    were saved. *)
Theorem restoreState_rescales_effectiveness :
  let s0 := initialState demoEngine in
  let s :=
    onTransparencyChange
      (Some [JNum (Fin (5 # 1000)); JNum (num 40); JNum (num 30);
             JNum (num 20); JNum (num 10); JNum (num 5)]) s0 in
  let s' :=
    (restoreState demoEngine (saveState s).2 (saveState s).1).1 in
  rtc (handlerStep demoEngine) s0 s ∧
  persistable demoEngine s ∧
  Forall2 same (transparencyEffectiveness s)
    [Fin (1 # 2); Fin 40; Fin 30; Fin 20; Fin 10; Fin 5] ∧
  Forall2 same (transparencyEffectiveness s')
    [Fin 50; Fin 40; Fin 30; Fin 20; Fin 10; Fin 5] ∧
  ¬ Forall2 same (transparencyEffectiveness s)
      (transparencyEffectiveness s') ∧
  weights s' = weights s ∧
  hrddStrategy s' = hrddStrategy s ∧
  responsivenessStrategy s' = responsivenessStrategy s ∧
  selectedCountries s' = selectedCountries s ∧
  countryVolumes s' = countryVolumes s.
Proof.
  intros s0 s s'.
  assert (Hp : persistable demoEngine s).
  { split.
    - repeat constructor.
    - repeat constructor.
    - repeat constructor.
    - vm_compute. repeat constructor; discriminate.
    - vm_compute. repeat constructor; discriminate.
    - reflexivity.
    - vm_compute. split; discriminate.
    - constructor.
    - intros k v Hkv. vm_compute in Hkv. discriminate. }
  pose proof (save_restore_roundtrip demoEngine s Hp)
    as (Hw & Hs & Hr & _ & Hc & Hv & _ & _).
  split; [apply rtc_once, StepTransparency|].
  split; [exact Hp|].
  split; [vm_compute; repeat constructor|].
  split.
  { subst s'. rewrite save_restore_transparencyEffectiveness.
    vm_compute. repeat constructor. }
  split.
  { subst s'. rewrite save_restore_transparencyEffectiveness.
    vm_compute. intros H. inversion H as [|? ? ? ? Hhead _]; subst.
    vm_compute in Hhead. discriminate. }
  repeat split; assumption.
Qed.

End Persistence.

(** ** The properties at concrete inputs *)

Section Instances.

Import Panels AppController Spec.
Local Open Scope Q_scope.



(** C5 for the default strategy, whose audit coverages are 5 and 65. *)
Lemma auditCoverageTarget_range_witness :
  ∃ t : Q,
    auditCoverageTarget (Some (jnums [0; 10; 5; 65; 100; 0]%Z)) None true
    = Some (Fin t) ∧ 0 <= t ∧ t <= 100.
Proof.
  destruct (auditCoverageTarget_range
              (Some (jnums [0; 10; 5; 65; 100; 0]%Z)) None)
    as ((c & f & t & _ & _ & Ht & _ & _ & _ & _ & H0 & H100 & _) & _).
  exists t. split; [exact Ht|]. split; [exact H0 | exact H100].
Defined.


(** C8 for the entries 0.5 and [null]. *)
Lemma normalizers_store_percentages_witness :
  let arr := [JNum (Fin (1 # 2)); JNull] in
  ∃ r : number,
    arr !! 0%nat = Some (JNum (Fin (1 # 2))) ∧
    normalizeTransparencyEffectiveness (Some arr) !! 0%nat = Some r ∧
    normalizedEntry (1 # 2) r.
Proof.
  intros arr.
  destruct (normalizers_store_percentages demoEngine arr)
    as ((_ & Hentry) & _ & _).
  assert (H0 : arr !! 0%nat = Some (JNum (Fin (1 # 2)))) by reflexivity.
  destruct (Hentry 0%nat (JNum (Fin (1 # 2))) H0) as (r & Hr & _ & _ & Hn).
  exists r. split; [exact H0|]. split; [exact Hr|].
  apply Hn. reflexivity.
Defined.

(** C9 for [setState({currentPanel: 6})] on a new controller. *)
Lemma setState_currentPanel_witness :
  let p :=
    mkPartial None None None None None None None JUndefined JUndefined
      None None None None None None None None None None (JNum (num 6)) in
  p_currentPanel p = JNum (num 6) ∧
  num 6 ≠ NaN ∧
  ∃ z : Z,
    (1 <= z <= 5)%Z ∧
    currentPanel (setState demoEngine "t" (Some p) (initialState demoEngine))
    = num z.
Proof.
  intros p.
  assert (H1 : p_currentPanel p = JNum (num 6)) by reflexivity.
  assert (H2 : num 6 ≠ NaN) by discriminate.
  split; [exact H1|]. split; [exact H2|].
  destruct (setState_currentPanel demoEngine "t" p (initialState demoEngine))
    as (Hclamp & _).
  destruct (Hclamp (num 6) H1 H2) as (z & Hz & Hpanel & _).
  exists z. split; [exact Hz | exact Hpanel].
Defined.

(** C10 for annual costs of which one is above the cap and one is
    missing. *)
Lemma cost_assumptions_capped_witness :
  let annual := Some [JNum (num 60000); JNull] in
  ∃ r : number,
    sanitizedToolAnnualProgrammeCosts demoEngine annual !! 0%nat = Some r ∧
    within 0 50000 r ∧ is_q r 50000.
Proof.
  intros annual.
  destruct (cost_assumptions_capped demoEngine annual None None None)
    as ((_ & Hentry) & _).
  assert (Hi : (0 < strategyCount demoEngine)%nat) by (vm_compute; lia).
  destruct (Hentry 0%nat Hi) as (r & Hr & Hw & _ & Hq).
  exists r. split; [exact Hr|]. split; [exact Hw|].
  destruct (Hq 60000) as (_ & _ & Hcap); [reflexivity|].
  apply Hcap. reflexivity.
Defined.

End Instances.

(** ** ISO codes: trimming and upper-casing *)

Section Codes.

Import Spec.

Lemma isWhiteSpace_upperChar (c : ascii) :
  isWhiteSpace (upperChar c) = isWhiteSpace c.
Proof. destruct c as [[] [] [] [] [] [] [] []]; reflexivity. Qed.

Lemma upperChar_idemp (c : ascii) : upperChar (upperChar c) = upperChar c.
Proof. destruct c as [[] [] [] [] [] [] [] []]; reflexivity. Qed.

Lemma toUpperCase_idemp (s : string) :
  toUpperCase (toUpperCase s) = toUpperCase s.
Proof.
  induction s as [|c t IH]; simpl; [reflexivity|].
  rewrite upperChar_idemp, IH. reflexivity.
Qed.

Lemma trimStart_toUpperCase (s : string) :
  trimStart (toUpperCase s) = toUpperCase (trimStart s).
Proof.
  induction s as [|c t IH]; simpl; [reflexivity|].
  rewrite isWhiteSpace_upperChar. destruct (isWhiteSpace c); [exact IH|].
  reflexivity.
Qed.

Lemma trimEnd_toUpperCase (s : string) :
  trimEnd (toUpperCase s) = toUpperCase (trimEnd s).
Proof.
  induction s as [|c t IH]; simpl; [reflexivity|].
  rewrite IH, isWhiteSpace_upperChar.
  destruct (trimEnd t) as [|d r]; simpl.
  - destruct (isWhiteSpace c); reflexivity.
  - reflexivity.
Qed.

Lemma trimEnd_idemp (s : string) : trimEnd (trimEnd s) = trimEnd s.
Proof.
  induction s as [|c t IH]; simpl; [reflexivity|].
  destruct (trimEnd t) as [|d r] eqn:E.
  - destruct (isWhiteSpace c) eqn:W; simpl; [reflexivity|].
    rewrite W. reflexivity.
  - change (trimEnd (String c (String d r))) with
      (match trimEnd (String d r) with
       | EmptyString =>
           if isWhiteSpace c then EmptyString else String c EmptyString
       | t' => String c t'
       end).
    rewrite IH. reflexivity.
Qed.

Lemma trimStart_clean (s : string) : startsClean (trimStart s).
Proof.
  induction s as [|c t IH]; simpl; [exact I|].
  destruct (isWhiteSpace c) eqn:W; [exact IH | exact W].
Qed.

Lemma trimStart_id (s : string) : startsClean s → trimStart s = s.
Proof. destruct s as [|c t]; simpl; [reflexivity|]. intros ->. reflexivity. Qed.

Lemma trimEnd_clean (s : string) : startsClean s → startsClean (trimEnd s).
Proof.
  destruct s as [|c t]; simpl; [auto|]. intros W.
  destruct (trimEnd t); [rewrite W|]; exact W.
Qed.

Lemma trim_idemp (s : string) : trim (trim s) = trim s.
Proof.
  unfold trim.
  rewrite (trimStart_id (trimEnd (trimStart s)))
    by apply trimEnd_clean, trimStart_clean.
  apply trimEnd_idemp.
Qed.

(** Normalizing a code a second time changes nothing. *)
Lemma normalize_idemp (s : string) : normalize (normalize s) = normalize s.
Proof.
  unfold normalize, trim.
  rewrite trimStart_toUpperCase, trimEnd_toUpperCase, toUpperCase_idemp.
  fold (trim s). fold (trim (trim s)). rewrite trim_idemp. reflexivity.
Qed.

End Codes.

(** ** Selecting countries *)

Section Selection.

Import AppController Spec.

Lemma distinctFrom_spec (seen l : list string) :
  NoDup (distinctFrom seen l) ∧
  (NoDup l → (∀ x, x ∈ l → x ∉ seen) → distinctFrom seen l = l).
Proof.
  revert seen. induction l as [|y t IH]; intros seen; simpl.
  - split; [constructor | reflexivity].
  - destruct (bool_decide (y ∈ seen)) eqn:E.
    + apply bool_decide_eq_true in E. split; [apply IH|].
      intros _ H. exfalso. apply (H y); [left | exact E].
    + apply bool_decide_eq_false in E. split.
      * constructor; [|apply IH].
        rewrite elem_of_distinctFrom. intros [_ H]. apply H. left.
      * intros Hnd H. apply NoDup_cons in Hnd as [Hy Hnd]. f_equal.
        apply IH; [exact Hnd|].
        intros x Hx. rewrite not_elem_of_cons. split.
        -- intros ->. contradiction.
        -- apply H. right. exact Hx.
Qed.

Lemma NoDup_distinct (l : list string) : NoDup (distinct l).
Proof. apply distinctFrom_spec. Qed.

Lemma distinct_id (l : list string) : NoDup l → distinct l = l.
Proof.
  intros H. apply distinctFrom_spec; [exact H|].
  intros x _. apply not_elem_of_nil.
Qed.

Lemma distinctFrom_snoc (seen l : list string) (x : string) :
  x ∉ seen → x ∉ l →
  distinctFrom seen (l ++ [x]) = distinctFrom seen l ++ [x].
Proof.
  revert seen. induction l as [|y t IH]; intros seen Hs Hl; simpl.
  - rewrite bool_decide_eq_false_2 by exact Hs. reflexivity.
  - apply not_elem_of_cons in Hl as [Hne Hl].
    destruct (bool_decide (y ∈ seen)); [apply IH; assumption|].
    simpl. f_equal. apply IH; [|exact Hl].
    rewrite not_elem_of_cons. split; [exact Hne | exact Hs].
Qed.

Lemma distinct_snoc (l : list string) (x : string) :
  x ∉ l → distinct (l ++ [x]) = distinct l ++ [x].
Proof. apply distinctFrom_snoc, not_elem_of_nil. Qed.

Lemma lookup_deleteAll_eq (codes : list string) (m : gmap string jsval)
    (k : string) :
  deleteAll codes m !! k = if decide (k ∈ codes) then None else m !! k.
Proof.
  unfold deleteAll. revert m.
  induction codes as [|c t IH]; intros m; simpl.
  - destruct (decide (k ∈ [])) as [H|_]; [inversion H | reflexivity].
  - rewrite IH. destruct (decide (k ∈ t)) as [Ht|Ht].
    + rewrite decide_True by (right; exact Ht). reflexivity.
    + destruct (decide (k = c)) as [->|Hne].
      * rewrite decide_True by left. apply lookup_delete_eq.
      * rewrite decide_False by (rewrite not_elem_of_cons; tauto).
        apply lookup_delete_ne. congruence.
Qed.

(** What a call of [onCountrySelect] that does not return early leaves
    in the selection and the volumes. *)
Lemma onCountrySelect_selected (eng : Engine.t) (now : string)
    (sel : Selection) (s : State) :
  onCountrySelect eng now sel s = s ∨
  countryVolumes (onCountrySelect eng now sel s)
  = deleteAll
      (filter (λ code,
                 includes (selectedCountries (onCountrySelect eng now sel s))
                   code = false)
         (distinct (selectedCountries s)))
      (countryVolumes s).
Proof.
  unfold onCountrySelect.
  match goal with
  | |- context [match ?u with Some _ => _ | None => s end] =>
      destruct u as [updated|]; [right | left; reflexivity]
  end.
  cbn [countryVolumes selectedCountries set_lastUpdate calculateManagedRisk
       calculateBaselineRisk calculateAllRisks set_countryManagedRisks
       set_focusEffectivenessMetrics set_managedRisk set_baselineRisk
       set_countryRisks set_isDirty set_selectedCountries].
  destruct (filter _ (distinct (selectedCountries s))) as [|d ds];
    reflexivity.
Qed.

Lemma onCountrySelect_array (eng : Engine.t) (now : string)
    (codes : list (option string)) (s : State) :
  selectedCountries (onCountrySelect eng now (SelArray codes) s)
  = filter (λ c, nonEmpty c = true)
      ((λ code, match code with
                | Some c => normalize c
                | None => EmptyString
                end) <$> codes).
Proof. reflexivity. Qed.

Lemma normalized_codes_kept (l : list string) :
  Forall normalized l →
  filter (λ c, nonEmpty c = true)
    ((λ code, match code with
              | Some c => normalize c
              | None => EmptyString
              end) <$> (Some <$> l)) = l.
Proof.
  induction 1 as [|c t [Hn He] _ IH]; [reflexivity|].
  cbn [fmap list_fmap]. rewrite filter_cons, Hn.
  destruct (decide (nonEmpty c = true)); [|contradiction].
  f_equal. exact IH.
Qed.

Lemma onCountrySelect_keeps_volume (eng : Engine.t) (now : string)
    (sel : Selection) (s : State) (c : string) :
  c ∉ selectedCountries s ∨ c ∈ selectedCountries (onCountrySelect eng now sel s) →
  countryVolumes (onCountrySelect eng now sel s) !! c = countryVolumes s !! c.
Proof.
  intros H.
  destruct (onCountrySelect_selected eng now sel s) as [Heq | Heq];
    rewrite Heq; [reflexivity|].
  rewrite lookup_deleteAll_eq. apply decide_False.
  rewrite list_elem_of_filter, elem_of_distinct. unfold includes.
  rewrite bool_decide_eq_false. tauto.
Qed.

(** X1.  [onCountrySelect] deletes the volume of exactly the countries
    it deselects: a country that was selected and is not any more has
    no volume afterwards, and the volume of every other code is what it
    was, whatever form the argument has. *)
Theorem onCountrySelect_purges_deselected (eng : Engine.t) (now : string)
    (sel : Selection) (s : State) (c : string) :
  let s' := onCountrySelect eng now sel s in
  (c ∈ selectedCountries s → c ∉ selectedCountries s' →
   countryVolumes s' !! c = None) ∧
  (c ∉ selectedCountries s ∨ c ∈ selectedCountries s' →
   countryVolumes s' !! c = countryVolumes s !! c).
Proof.
  intros s'. subst s'. split; [|apply onCountrySelect_keeps_volume].
  intros Hsel Hnot.
  destruct (onCountrySelect_selected eng now sel s) as [Heq | Heq].
  - rewrite Heq in Hnot. contradiction.
  - rewrite Heq, lookup_deleteAll_eq. apply decide_True.
    apply list_elem_of_filter. split.
    + unfold includes. apply bool_decide_eq_false. exact Hnot.
    + apply elem_of_distinct. exact Hsel.
Qed.

Local Open Scope Q_scope.

(** [Math.max(0, parseFloat(v) || 0)] is never [NaN] and never below
    0; a finite number from 0 upwards is kept. *)
Lemma costValue_spec (v : jsval) :
  nge (costValue v) (num 0) = true ∧
  (∀ q, parseFloat v = Fin q → 0 <= q → is_q (costValue v) q) ∧
  (∀ q, parseFloat v = Fin q → q < 0 → is_q (costValue v) 0) ∧
  (parseFloat v = NaN → is_q (costValue v) 0) ∧
  (parseFloat v = PosInf → costValue v = PosInf).
Proof.
  unfold costValue, nor, is_q. destruct (parseFloat v) as [q| | |] eqn:E.
  - unfold ntruthy. destruct (Qeq_bool q 0) eqn:Z; simpl negb; cbv iota.
    + apply Qeq_bool_iff in Z.
      split; [reflexivity|].
      repeat split; try discriminate; intros q' [= <-] H; simpl;
        change (inject_Z 0) with 0; lra.
    + apply Qeq_bool_false in Z. unfold num. rewrite !nmax_fin.
      change (inject_Z 0) with 0.
      destruct (Qlt_b 0 q) eqn:L.
      * apply Qlt_b_true in L.
        split; [apply nle_fin; lra|].
        repeat split; try discriminate; intros q' [= <-] H; simpl; lra.
      * apply Qlt_b_false in L.
        split; [apply nle_fin; lra|].
        repeat split; try discriminate; intros q' [= <-] H; simpl; lra.
  - repeat split; try discriminate.
  - repeat split; try discriminate.
  - repeat split; try discriminate.
Qed.

(** X2.  [onVolumeChange] changes nothing for a country that is not
    selected.  For a selected country it stores under the normalized
    code a number that is never [NaN] and never negative (a negative or
    unreadable volume becomes 0), and leaves the selection and every
    other volume as they were. *)
Theorem onVolumeChange_stored (code : string) (v : jsval) (s : State) :
  let s' := onVolumeChange code v s in
  (normalize code ∉ selectedCountries s → s' = s) ∧
  (normalize code ∈ selectedCountries s →
   ∃ n, countryVolumes s' !! normalize code = Some (JNum n) ∧
        nge n (num 0) = true ∧
        (∀ q, parseFloat v = Fin q → 0 <= q → is_q n q) ∧
        (∀ q, parseFloat v = Fin q → q < 0 → is_q n 0) ∧
        (parseFloat v = NaN → is_q n 0) ∧
        (∀ k, k ≠ normalize code →
              countryVolumes s' !! k = countryVolumes s !! k) ∧
        selectedCountries s' = selectedCountries s).
Proof.
  intros s'. subst s'. unfold onVolumeChange, includes.
  destruct (decide (normalize code ∈ selectedCountries s)) as [Hin|Hout].
  - rewrite bool_decide_eq_true_2 by exact Hin. simpl negb. cbv iota.
    split; [intros H; contradiction | intros _].
    exists (costValue v).
    cbn [countryVolumes selectedCountries set_isDirty set_countryVolumes].
    destruct (costValue_spec v) as (H1 & H2 & H3 & H4 & _).
    split; [apply lookup_insert_eq|].
    repeat split; try assumption.
    intros k Hk. apply lookup_insert_ne. congruence.
  - rewrite bool_decide_eq_false_2 by exact Hout. simpl negb. cbv iota.
    split; [reflexivity | intros H; contradiction].
Qed.



(** X4.  [removeCountry] with a code that is not blank leaves no volume
    for the normalized code.  If the selection held only normalized
    codes, the code is no longer selected and every other selected
    country still is. *)
Theorem removeCountry_removes (eng : Engine.t) (now code : string)
    (s : State) :
  nonEmpty (normalize code) = true →
  let s' := removeCountry eng now code s in
  countryVolumes s' !! normalize code = None ∧
  (Forall normalized (selectedCountries s) →
   (normalize code ∉ selectedCountries s') ∧
   (∀ c, c ≠ normalize code →
         (c ∈ selectedCountries s' ↔ c ∈ selectedCountries s))).
Proof.
  intros Hne s'. subst s'. unfold removeCountry. rewrite Hne. simpl negb.
  cbv iota.
  set (s1 := set_countryManagedRisks _ (set_countryVolumes _ s)).
  split.
  - destruct (onCountrySelect_selected eng now
                (SelArray (Some <$> filter (λ c, c ≠ normalize code)
                                      (selectedCountries s1))) s1)
      as [Heq | Heq]; rewrite Heq.
    + apply lookup_delete_eq.
    + rewrite lookup_deleteAll_eq.
      destruct (decide _); [reflexivity | apply lookup_delete_eq].
  - intros Hnorm. rewrite onCountrySelect_array.
    change (selectedCountries s1) with (selectedCountries s).
    rewrite normalized_codes_kept.
    + split.
      * rewrite list_elem_of_filter. tauto.
      * intros c Hc. rewrite list_elem_of_filter. tauto.
    + apply Forall_forall. intros c Hc.
      apply list_elem_of_filter in Hc as [_ Hc].
      exact (proj1 (Forall_forall _ _) Hnorm c Hc).
Qed.

(** The hypothesis of X4 is needed: with the selection [" fra"], which
    [setState] can store, removing FRA leaves FRA selected. *)
Example removeCountry_unnormalized_selection :
  selectedCountries
    (removeCountry demoEngine "t" "FRA"
       (set_selectedCountries [" fra"] (initialState demoEngine)))
  = ["FRA"].
Proof. reflexivity. Qed.

Lemma onCountrySelect_string (eng : Engine.t) (now code : string)
    (s : State) :
  nonEmpty (normalize code) = true →
  selectedCountries (onCountrySelect eng now (SelString code) s)
  = let selectionSet := distinct (normalize <$> selectedCountries s) in
    if includes selectionSet (normalize code)
    then filter (λ c, c ≠ normalize code) selectionSet
    else selectionSet ++ [normalize code].
Proof.
  intros Hne. unfold onCountrySelect. rewrite Hne. reflexivity.
Qed.

Lemma fmap_normalize_id (l : list string) :
  Forall (λ c, normalize c = c) l → normalize <$> l = l.
Proof.
  induction 1 as [|c t Hc _ IH]; [reflexivity|].
  cbn [fmap list_fmap]. rewrite Hc. f_equal. exact IH.
Qed.

Lemma filter_ne_snoc (l : list string) (x : string) :
  x ∉ l → filter (λ c, c ≠ x) (l ++ [x]) = l.
Proof.
  intros Hx. rewrite filter_app, filter_cons.
  destruct (decide (x ≠ x)) as [H|_]; [contradiction|].
  rewrite filter_nil, app_nil_r.
  induction l as [|y t IH]; [reflexivity|].
  apply not_elem_of_cons in Hx as [Hne Hx].
  rewrite filter_cons.
  destruct (decide (y ≠ x)) as [_|H]; [|exfalso; apply H; congruence].
  f_equal. apply IH. exact Hx.
Qed.

(** X5.  Toggling a country that is not selected on and off again with
    [onCountrySelect(code)] gives back the selection, normalized and
    without duplicates.  If the selection already was normalized and
    free of duplicates it comes back as it was, and so does the volume
    of every other country. *)
Theorem onCountrySelect_toggle_twice (eng : Engine.t)
    (now now' code : string) (s : State) :
  nonEmpty (normalize code) = true →
  normalize code ∉ normalize <$> selectedCountries s →
  let s1 := onCountrySelect eng now (SelString code) s in
  let s2 := onCountrySelect eng now' (SelString code) s1 in
  selectedCountries s1
  = distinct (normalize <$> selectedCountries s) ++ [normalize code] ∧
  selectedCountries s2 = distinct (normalize <$> selectedCountries s) ∧
  (Forall (λ c, normalize c = c) (selectedCountries s) →
   NoDup (selectedCountries s) →
   selectedCountries s2 = selectedCountries s ∧
   (∀ k, k ≠ normalize code →
         countryVolumes s2 !! k = countryVolumes s !! k)).
Proof.
  intros Hne Hnew s1 s2.
  set (S0 := distinct (normalize <$> selectedCountries s)).
  assert (HnewS : normalize code ∉ S0).
  { unfold S0. rewrite elem_of_distinct. exact Hnew. }
  assert (H1 : selectedCountries s1 = S0 ++ [normalize code]).
  { unfold s1. rewrite onCountrySelect_string by exact Hne.
    cbv zeta. fold S0. unfold includes.
    rewrite bool_decide_eq_false_2 by exact HnewS. reflexivity. }
  assert (HS0 : Forall (λ c, normalize c = c) S0).
  { apply Forall_forall. intros c Hc. unfold S0 in Hc.
    rewrite elem_of_distinct in Hc.
    apply list_elem_of_fmap in Hc as (c' & -> & _). apply normalize_idemp. }
  assert (H2 : selectedCountries s2 = S0).
  { unfold s2. rewrite onCountrySelect_string by exact Hne.
    cbv zeta. rewrite H1, fmap_app, (fmap_normalize_id S0) by exact HS0.
    cbn [fmap list_fmap]. rewrite normalize_idemp.
    rewrite distinct_snoc by exact HnewS.
    rewrite (distinct_id S0) by apply NoDup_distinct.
    unfold includes. rewrite bool_decide_eq_true_2
      by (apply elem_of_app; right; left).
    apply filter_ne_snoc. exact HnewS. }
  split; [exact H1|]. split; [exact H2|].
  intros Hnorm Hnd.
  assert (HS : S0 = selectedCountries s).
  { unfold S0. rewrite fmap_normalize_id by exact Hnorm.
    apply distinct_id. exact Hnd. }
  split; [rewrite H2; exact HS|].
  intros k Hk.
  transitivity (countryVolumes s1 !! k).
  - destruct (decide (k ∈ selectedCountries s1)) as [Hin|Hout].
    + destruct (decide (k ∈ selectedCountries s2)) as [Hin2|Hout2].
      * apply onCountrySelect_keeps_volume. right. exact Hin2.
      * exfalso. apply Hout2. rewrite H2. rewrite H1 in Hin.
        apply elem_of_app in Hin as [Hin|Hin]; [exact Hin|].
        apply list_elem_of_singleton in Hin. contradiction.
    + apply onCountrySelect_keeps_volume. left. exact Hout.
  - destruct (decide (k ∈ selectedCountries s)) as [Hin|Hout].
    + apply onCountrySelect_keeps_volume. right. fold s1. rewrite H1, HS.
      apply elem_of_app. left. exact Hin.
    + apply onCountrySelect_keeps_volume. left. exact Hout.
Qed.

End Selection.

(** ** The cost assumptions of panel 6 *)

Section CostHandlers.

Import AppController Spec.

Local Open Scope Q_scope.

(** [Math.max(1, Math.floor(parseFloat(v) || 1))]. *)
Lemma supplierCount_stored (v : jsval) :
  let n := nmax (num 1) (nfloor (nor (parseFloat v) (num 1))) in
  (n = PosInf ∨ ∃ z : Z, n = num z ∧ (1 <= z)%Z) ∧
  (∀ q, parseFloat v = Fin q → 1 <= q → n = num (Qfloor q)) ∧
  (∀ q, parseFloat v = Fin q → q < 1 → n = num 1) ∧
  (parseFloat v = NaN → n = num 1).
Proof.
  cbv zeta. unfold nor. destruct (parseFloat v) as [q| | |] eqn:E.
  + unfold ntruthy. destruct (Qeq_bool q 0) eqn:Z; simpl negb; cbv iota.
    * apply Qeq_bool_iff in Z.
      split; [right; exists 1%Z; split; [reflexivity | lia]|].
      repeat split; try discriminate; intros q' [= <-] H;
        first [lra | reflexivity].
    * unfold nfloor, num. rewrite nmax_fin.
      destruct (Qlt_b (inject_Z 1) (inject_Z (Qfloor q))) eqn:L.
      -- apply Qlt_b_true in L. rewrite <- Zlt_Qlt in L.
         split; [right; exists (Qfloor q); split; [reflexivity | lia]|].
         repeat split; try discriminate; intros q' [= <-] H;
           try reflexivity.
         exfalso. pose proof (Qfloor_le q) as Hf.
         assert (inject_Z 1 < inject_Z (Qfloor q))
           by (rewrite <- Zlt_Qlt; exact L).
         change (inject_Z 1) with 1 in *. lra.
      -- apply Qlt_b_false in L. rewrite <- Zle_Qle in L.
         split; [right; exists 1%Z; split; [reflexivity | lia]|].
         repeat split; try discriminate; intros q' [= <-] H;
           try reflexivity.
         assert (1 <= Qfloor q)%Z
           by (change 1%Z with (Qfloor 1); apply Qfloor_resp_le; exact H).
         f_equal. f_equal. lia.
  + split; [left; reflexivity|]. repeat split; discriminate.
  + split; [right; exists 1%Z; split; [reflexivity | lia]|].
    repeat split; discriminate.
  + split; [right; exists 1%Z; split; [reflexivity | lia]|].
    repeat split; try discriminate.
Qed.

(** X6.  [onSupplierCountChange] stores a whole number of at least 1,
    or [Infinity]: a count from 1 upwards is rounded down, anything
    below 1 or unreadable becomes 1.  [onHourlyRateChange] stores a
    rate that is never [NaN] and never negative.  Both discard the last
    optimisation result. *)
Theorem cost_scalars_stored (v : jsval) (s : State) :
  (∃ n, supplierCount (onSupplierCountChange v s) = n ∧
        (n = PosInf ∨ ∃ z : Z, n = num z ∧ (1 <= z)%Z) ∧
        (∀ q, parseFloat v = Fin q → 1 <= q → n = num (Qfloor q)) ∧
        (∀ q, parseFloat v = Fin q → q < 1 → n = num 1) ∧
        (parseFloat v = NaN → n = num 1)) ∧
  (∃ r, hourlyRate (onHourlyRateChange v s) = r ∧
        nge r (num 0) = true ∧
        (∀ q, parseFloat v = Fin q → 0 <= q → is_q r q) ∧
        (∀ q, parseFloat v = Fin q → q < 0 → is_q r 0) ∧
        (parseFloat v = NaN → is_q r 0)) ∧
  lastOptimizationResult (onSupplierCountChange v s) = None ∧
  lastOptimizationResult (onHourlyRateChange v s) = None.
Proof.
  split; [|split; [|split; reflexivity]].
  - eexists. split; [reflexivity|]. apply supplierCount_stored.
  - exists (costValue v). split; [reflexivity|].
    destruct (costValue_spec v) as (H1 & H2 & H3 & H4 & _).
    repeat split; assumption.
Qed.

Lemma nge_num_nat (i : nat) : nge (num (Z.of_nat i)) (num 0) = true.
Proof. apply nle_fin. rewrite <- Zle_Qle. lia. Qed.

Lemma nlt_num_nat (i n : nat) :
  nlt (num (Z.of_nat i)) (num (Z.of_nat n)) = bool_decide (i < n)%nat.
Proof.
  unfold num, nlt. destruct (decide (i < n)%nat) as [H|H].
  - rewrite bool_decide_eq_true_2 by exact H.
    apply Qlt_b_true. rewrite <- Zlt_Qlt. lia.
  - rewrite bool_decide_eq_false_2 by exact H.
    apply Qlt_b_false. rewrite <- Zle_Qle. lia.
Qed.

Lemma setToolEntry_whole (i : nat) (v : number) (arr : list number) :
  (i < length arr)%nat →
  setToolEntry (num (Z.of_nat i)) v arr = Some (<[i := v]> arr).
Proof.
  intros H. unfold setToolEntry.
  rewrite nge_num_nat, nlt_num_nat, bool_decide_eq_true_2 by exact H.
  cbn [andb]. unfold num. rewrite Qfloor_Z.
  rewrite (proj2 (Qeq_bool_iff _ _)) by reflexivity.
  rewrite Nat2Z.id. reflexivity.
Qed.

Lemma setToolEntry_length (toolIndex v : number) (arr arr' : list number) :
  setToolEntry toolIndex v arr = Some arr' → length arr' = length arr.
Proof.
  unfold setToolEntry. destruct (_ && _); [|discriminate].
  intros [= <-]. destruct toolIndex as [q| | |]; try reflexivity.
  destruct (Qeq_bool _ _); [apply length_insert | reflexivity].
Qed.

(** The body shared by the tool handlers, for any array of the state
    that [set] writes and [get] reads back. *)
Lemma onToolValueChange_stores (get : State → list number)
    (set : list number → State → State) :
  (∀ a s, get (set_lastOptimizationResult None (set_isDirty true (set a s)))
          = a) →
  (∀ a s, lastOptimizationResult
            (set_lastOptimizationResult None (set_isDirty true (set a s)))
          = None) →
  (∀ a s, isDirty
            (set_lastOptimizationResult None (set_isDirty true (set a s)))
          = true) →
  toolHandlerStores get (onToolValueChange get set).
Proof.
  intros Hget Hopt Hdirty toolIndex v s.
  unfold onToolValueChange. simpl negb. cbv iota.
  split; [|split].
  - intros i -> Hi. rewrite setToolEntry_whole by exact Hi.
    rewrite Hget, Hopt, Hdirty. auto.
  - intros H. unfold setToolEntry. rewrite H. reflexivity.
  - destruct (setToolEntry toolIndex (costValue v) (get s)) as [arr|] eqn:E;
      [|reflexivity].
    rewrite Hget. eapply setToolEntry_length. exact E.
Qed.

(** X7.  Each of the four tool handlers replaces exactly the entry at a
    whole index inside its array by the cost made non-negative, keeps
    the array's length and discards the last optimisation result; an
    index that is negative, [NaN] or past the end changes nothing. *)
Theorem tool_handlers_store :
  toolHandlerStores toolAnnualProgrammeCosts
    onToolAnnualProgrammeCostChange ∧
  toolHandlerStores toolPerSupplierCosts onToolPerSupplierCostChange ∧
  toolHandlerStores toolInternalHours onToolInternalHoursChange ∧
  toolHandlerStores toolRemedyInternalHours onToolRemedyInternalHoursChange.
Proof.
  split; [|split; [|split]].
  - apply (onToolValueChange_stores toolAnnualProgrammeCosts
             set_toolAnnualProgrammeCosts); intros a s; reflexivity.
  - apply (onToolValueChange_stores toolPerSupplierCosts
             set_toolPerSupplierCosts); intros a s; reflexivity.
  - apply (onToolValueChange_stores toolInternalHours
             set_toolInternalHours); intros a s; reflexivity.
  - apply (onToolValueChange_stores toolRemedyInternalHours
             set_toolRemedyInternalHours); intros a s; reflexivity.
Qed.

(** The handlers do not cap a cost themselves: the limit of a field is
    applied by its listener. *)
Example tool_handler_does_not_cap :
  toolAnnualProgrammeCosts
    (onToolAnnualProgrammeCostChange (num 0) (JNum (num 1000000))
       (initialState demoEngine))
  = nums [1000000; 0; 0; 40000; 0; 0]%Z.
Proof. reflexivity. Qed.

(** X8.  A call of a cost handler either changes nothing or discards
    the last optimisation result and marks the state as changed; in
    both cases the selection, the volumes, the strategy and the current
    panel are left alone. *)
Theorem cost_change_discards_optimisation (s s' : State) :
  costHandlerStep s s' →
  (s' = s ∨ (lastOptimizationResult s' = None ∧ isDirty s' = true)) ∧
  selectedCountries s' = selectedCountries s ∧
  countryVolumes s' = countryVolumes s ∧
  hrddStrategy s' = hrddStrategy s ∧
  currentPanel s' = currentPanel s.
Proof.
  assert (Htool : ∀ get set i v,
            (∀ a s, lastOptimizationResult
                      (set_lastOptimizationResult None
                         (set_isDirty true (set a s))) = None) →
            (∀ a s, isDirty
                      (set_lastOptimizationResult None
                         (set_isDirty true (set a s))) = true) →
            (∀ a s, selectedCountries (set a s) = selectedCountries s ∧
                    countryVolumes (set a s) = countryVolumes s ∧
                    hrddStrategy (set a s) = hrddStrategy s ∧
                    currentPanel (set a s) = currentPanel s) →
            (onToolValueChange get set i v s = s ∨
             (lastOptimizationResult (onToolValueChange get set i v s) = None
              ∧ isDirty (onToolValueChange get set i v s) = true)) ∧
            selectedCountries (onToolValueChange get set i v s)
            = selectedCountries s ∧
            countryVolumes (onToolValueChange get set i v s)
            = countryVolumes s ∧
            hrddStrategy (onToolValueChange get set i v s) = hrddStrategy s ∧
            currentPanel (onToolValueChange get set i v s) = currentPanel s).
  { intros get set i v Hopt Hdirty Hframe. unfold onToolValueChange.
    simpl negb. cbv iota.
    destruct (setToolEntry i (costValue v) (get s)) as [arr|].
    - split; [right; split; [apply Hopt | apply Hdirty]|].
      apply (Hframe arr s).
    - split; [left; reflexivity|]. repeat split. }
  intros Hstep. destruct Hstep;
    first [apply Htool; intros; repeat split
          |split; [right; split; reflexivity | repeat split]].
Qed.

Lemma listenerValue_within (cap : Z) (q : Q) :
  (0 <= cap)%Z → within 0 (inject_Z cap) (Panels.listenerValue cap (Fin q)).
Proof.
  intros Hcap. unfold Panels.listenerValue, num.
  rewrite nmax_fin, nmin_fin. unfold within.
  change (inject_Z 0) with 0.
  assert (0 <= inject_Z cap) by (change 0 with (inject_Z 0);
                                 rewrite <- Zle_Qle; exact Hcap).
  destruct (Qlt_b 0 q) eqn:E1;
    [apply Qlt_b_true in E1 | apply Qlt_b_false in E1];
  match goal with
  | |- context [Qlt_b ?a ?b] =>
      destruct (Qlt_b a b) eqn:E2;
      [apply Qlt_b_true in E2 | apply Qlt_b_false in E2]
  end; lra.
Qed.

(** A number from 0 upwards passes through
    [Math.max(0, parseFloat(v) || 0)]. *)
Lemma costValue_within (cap : Q) (x : number) :
  within 0 cap x → within 0 cap (costValue (JNum x)).
Proof.
  destruct x as [q| | |]; simpl; try contradiction. intros [H0 Hc].
  unfold costValue, nor, parseFloat, ntruthy.
  destruct (Qeq_bool q 0) eqn:Z; simpl negb; cbv iota.
  - simpl. change (inject_Z 0) with 0. lra.
  - unfold num. rewrite nmax_fin. change (inject_Z 0) with 0.
    destruct (Qlt_b 0 q); simpl; lra.
Qed.

Lemma costValue_finite (q : Q) :
  ∃ q', costValue (JNum (Fin q)) = Fin q' ∧ 0 <= q'.
Proof.
  unfold costValue, nor, parseFloat, ntruthy.
  destruct (Qeq_bool q 0); simpl negb; cbv iota.
  - exists 0. split; [reflexivity | lra].
  - unfold num. rewrite nmax_fin. change (inject_Z 0) with 0.
    destruct (Qlt_b 0 q) eqn:E; eexists; (split; [reflexivity|]);
      [apply Qlt_b_true in E|]; lra.
Qed.

Lemma setToolEntry_Forall (P : number → Prop) (toolIndex v : number)
    (arr arr' : list number) :
  setToolEntry toolIndex v arr = Some arr' → P v → Forall P arr →
  Forall P arr'.
Proof.
  unfold setToolEntry. destruct (_ && _); [|discriminate].
  intros [= <-] Hv Harr. destruct toolIndex as [q| | |]; try exact Harr.
  destruct (Qeq_bool _ _); [|exact Harr].
  apply Forall_insert; assumption.
Qed.

Lemma costFieldStep_capped (s s' : State) :
  costFieldStep s s' → costsCapped s → costsCapped s'.
Proof.
  intros Hstep [Hsc Hhr Ha Hp Hi Hr Hred].
  destruct Hstep as [s [q|] | s [q|] | s i [q|] | s i [q|] | s i [q|]
                    | s i [q|] | s [q|]];
    try (constructor; assumption).
  - constructor; try assumption.
    cbn [supplierCountListener onSupplierCountChange ENABLE_PANEL_6 negb
         supplierCount set_lastOptimizationResult set_isDirty
         set_supplierCount].
    destruct (supplierCount_stored (JNum (nmax (num 1) (nfloor (Fin q)))))
      as ([Hinf | Hz] & _); [|exact Hz].
    exfalso. revert Hinf. unfold nfloor, num. rewrite nmax_fin.
    unfold nor, parseFloat, ntruthy.
    destruct (negb _); [unfold nfloor; rewrite nmax_fin|]; discriminate.
  - constructor; try assumption.
    cbn [hourlyRateListener onHourlyRateChange ENABLE_PANEL_6 negb
         hourlyRate set_lastOptimizationResult set_isDirty set_hourlyRate].
    unfold num. rewrite nmax_fin. apply costValue_finite.
  - unfold toolAnnualCostListener, toolFieldListener,
      onToolAnnualProgrammeCostChange, onToolValueChange.
    simpl negb. cbv iota.
    destruct (setToolEntry _ _ _) as [arr|] eqn:E;
      [|constructor; assumption].
    constructor; try assumption.
    eapply setToolEntry_Forall; [exact E | | exact Ha].
    apply costValue_within, (listenerValue_within 50000). lia.
  - unfold toolPerSupplierCostListener, toolFieldListener,
      onToolPerSupplierCostChange, onToolValueChange.
    simpl negb. cbv iota.
    destruct (setToolEntry _ _ _) as [arr|] eqn:E;
      [|constructor; assumption].
    constructor; try assumption.
    eapply setToolEntry_Forall; [exact E | | exact Hp].
    apply costValue_within, (listenerValue_within 2000). lia.
  - unfold toolInternalHoursListener, toolFieldListener,
      onToolInternalHoursChange, onToolValueChange.
    simpl negb. cbv iota.
    destruct (setToolEntry _ _ _) as [arr|] eqn:E;
      [|constructor; assumption].
    constructor; try assumption.
    eapply setToolEntry_Forall; [exact E | | exact Hi].
    apply costValue_within, (listenerValue_within 500). lia.
  - unfold toolRemedyInternalHoursListener, toolFieldListener,
      onToolRemedyInternalHoursChange, onToolValueChange.
    simpl negb. cbv iota.
    destruct (setToolEntry _ _ _) as [arr|] eqn:E;
      [|constructor; assumption].
    constructor; try assumption.
    eapply setToolEntry_Forall; [exact E | | exact Hr].
    apply costValue_within, (listenerValue_within 200). lia.
  - constructor; try assumption.
    cbn [socialAuditReductionListener onSocialAuditCostReductionChange
         ENABLE_PANEL_6 negb socialAuditCostReduction
         set_shouldAutoRunOptimization set_lastOptimizationResult
         set_isDirty set_socialAuditCostReduction parseFloat].
    unfold num. rewrite (nmin_fin _ q).
    match goal with
    | |- context [nmax (Fin ?a) (Fin ?b)] => rewrite (nmax_fin a b)
    end.
    cbn [isFiniteNum]. apply (clamp_within 0 100). lra.
Qed.

Lemma initialState_capped (eng : Engine.t) : costsCapped (initialState eng).
Proof.
  constructor; cbn [initialState supplierCount hourlyRate
                    toolAnnualProgrammeCosts toolPerSupplierCosts
                    toolInternalHours toolRemedyInternalHours
                    socialAuditCostReduction].
  - exists 500%Z. split; [reflexivity | lia].
  - exists 40. split; [reflexivity | lra].
  - unfold nums. cbn [fmap list_fmap].
    repeat (constructor; [split; apply Qle_bool_iff; reflexivity|]).
    constructor.
  - unfold nums. cbn [fmap list_fmap].
    repeat (constructor; [split; apply Qle_bool_iff; reflexivity|]).
    constructor.
  - unfold nums. cbn [fmap list_fmap].
    repeat (constructor; [split; apply Qle_bool_iff; reflexivity|]).
    constructor.
  - unfold nums. cbn [fmap list_fmap].
    repeat (constructor; [split; apply Qle_bool_iff; reflexivity|]).
    constructor.
  - split; apply Qle_bool_iff; reflexivity.
Qed.

(** X9.  Through the fields of panel 6 the cost assumptions never leave
    their limits: from a new controller, after any sequence of field
    events the supplier count is a whole number of at least 1, the
    hourly rate is finite and not negative, the four tool arrays are
    within 0..50000, 0..2000, 0..500 and 0..200, and the audit cost
    reduction is within 0..100. *)
Theorem cost_fields_keep_caps (eng : Engine.t) (s : State) :
  rtc costFieldStep (initialState eng) s → costsCapped s.
Proof.
  intros Hrun. pose proof (initialState_capped eng) as Hinit.
  induction Hrun as [s|s1 s2 s3 Hstep _ IH]; [exact Hinit|].
  apply IH. eapply costFieldStep_capped; eassumption.
Qed.

End CostHandlers.

(** ** What [restoreState] reads from a stored document *)

Module StateTactics.
Import AppController.

(** Reading a member of a state written member by member. *)
Ltac state_cbn :=
  cbn [
       countries weights supplierCount hourlyRate
       toolAnnualProgrammeCosts toolPerSupplierCosts
       toolInternalHours toolRemedyInternalHours
       saqConstraintEnabled socialAuditConstraintEnabled
       socialAuditCostReduction shouldAutoRunOptimization
       lastOptimizationResult selectedCountries countryVolumes
       countryRisks countryManagedRisks baselineRisk managedRisk
       riskConcentration focus hrddStrategy
       transparencyEffectiveness responsivenessStrategy
       responsivenessEffectiveness focusEffectivenessMetrics
       currentPanel loading error apiHealthy lastUpdate isDirty
       isGeneratingReport set_countries set_weights
       set_supplierCount set_hourlyRate
       set_toolAnnualProgrammeCosts set_toolPerSupplierCosts
       set_toolInternalHours set_toolRemedyInternalHours
       set_saqConstraintEnabled set_socialAuditConstraintEnabled
       set_socialAuditCostReduction set_shouldAutoRunOptimization
       set_lastOptimizationResult set_selectedCountries
       set_countryVolumes set_countryRisks set_countryManagedRisks
       set_baselineRisk set_managedRisk set_riskConcentration
       set_focus set_hrddStrategy set_transparencyEffectiveness
       set_responsivenessStrategy set_responsivenessEffectiveness
       set_focusEffectivenessMetrics set_currentPanel set_loading
       set_error set_apiHealthy set_lastUpdate set_isDirty
       set_isGeneratingReport].

(** A setter leaves the other members alone. *)
Ltac frames :=
  intros ? []; state_cbn;
  lazymatch goal with |- ?x = ?y => constr_eq x y; reflexivity end.

End StateTactics.

Section Restoring.

Import AppController Spec StateTactics.

Local Open Scope Q_scope.

Lemma restoreState_document (eng : Engine.t) (parsed : Snapshot)
    (s : State) :
  restoreState eng (Document parsed) s
  = (set_isDirty false (restoreParsed eng parsed s).1,
     (restoreParsed eng parsed s).2).
Proof. reflexivity. Qed.

Lemma restoreMember_None {A : Type} (f : A → State → State)
    (acc : State * bool) :
  restoreMember None f acc = acc.
Proof. reflexivity. Qed.

(** Read the member [proj] of the state restored from a document: skip
    the steps that do not write it, and split on whether the document
    has the member. *)
Ltac read_member :=
  rewrite restoreState_document; cbn [fst];
  rewrite (setter_frame _ set_isDirty) by frames;
  unfold restoreParsed; cbv zeta;
  repeat (rewrite restoreMember_frame by frames);
  lazymatch goal with
  | |- context [restoreMember ?v _ _] =>
      destruct v;
      [rewrite restoreMember_Some; state_cbn; reflexivity
      |rewrite restoreMember_None;
       repeat (rewrite restoreMember_frame by frames); reflexivity]
  end.

Lemma restored_focus (eng : Engine.t) (parsed : Snapshot) (s : State) :
  focus (restoreState eng (Document parsed) s).1
  = match asNumber (snap_focus parsed) with
    | Some n => clamp01 (JNum n)
    | None => focus s
    end.
Proof. read_member. Qed.

Lemma restored_transparencyEffectiveness (eng : Engine.t)
    (parsed : Snapshot) (s : State) :
  transparencyEffectiveness (restoreState eng (Document parsed) s).1
  = match snap_transparencyEffectiveness parsed with
    | Some arr => normalizeTransparencyEffectiveness (Some arr)
    | None => transparencyEffectiveness s
    end.
Proof. read_member. Qed.

Lemma restored_responsivenessEffectiveness (eng : Engine.t)
    (parsed : Snapshot) (s : State) :
  responsivenessEffectiveness (restoreState eng (Document parsed) s).1
  = match snap_responsivenessEffectiveness parsed with
    | Some arr => normalizeResponsivenessEffectiveness eng (Some arr)
    | None => responsivenessEffectiveness s
    end.
Proof. read_member. Qed.

Lemma restored_selectedCountries (eng : Engine.t) (parsed : Snapshot)
    (s : State) :
  selectedCountries (restoreState eng (Document parsed) s).1
  = match snap_selectedCountries parsed with
    | Some codes =>
        filter (λ c, nonEmpty c = true)
          ((λ code, match code with
                    | Some c => normalize c
                    | None => EmptyString
                    end) <$> codes)
    | None => selectedCountries s
    end.
Proof. read_member. Qed.

Lemma restored_countryVolumes (eng : Engine.t) (parsed : Snapshot)
    (s : State) :
  countryVolumes (restoreState eng (Document parsed) s).1
  = match snap_countryVolumes parsed with
    | Some entries => normalizeKeys entries
    | None => countryVolumes s
    end.
Proof. read_member. Qed.

Lemma restored_supplierCount (eng : Engine.t) (parsed : Snapshot)
    (s : State) :
  supplierCount (restoreState eng (Document parsed) s).1
  = match panel6 (asNumber (snap_supplierCount parsed)) with
    | Some n => nmax (num 1) (nfloor n)
    | None => supplierCount s
    end.
Proof. read_member. Qed.

Lemma restored_hourlyRate (eng : Engine.t) (parsed : Snapshot) (s : State) :
  hourlyRate (restoreState eng (Document parsed) s).1
  = match panel6 (asNumber (snap_hourlyRate parsed)) with
    | Some n => nmax (num 0) n
    | None => hourlyRate s
    end.
Proof. read_member. Qed.

Lemma restored_toolAnnualProgrammeCosts (eng : Engine.t)
    (parsed : Snapshot) (s : State) :
  toolAnnualProgrammeCosts (restoreState eng (Document parsed) s).1
  = match panel6 (snap_toolAnnualProgrammeCosts parsed) with
    | Some arr => restoreCost <$> arr
    | None => toolAnnualProgrammeCosts s
    end.
Proof. read_member. Qed.

Lemma restored_toolPerSupplierCosts (eng : Engine.t) (parsed : Snapshot)
    (s : State) :
  toolPerSupplierCosts (restoreState eng (Document parsed) s).1
  = match panel6 (snap_toolPerSupplierCosts parsed) with
    | Some arr => restoreCost <$> arr
    | None => toolPerSupplierCosts s
    end.
Proof. read_member. Qed.

Lemma restored_toolInternalHours (eng : Engine.t) (parsed : Snapshot)
    (s : State) :
  toolInternalHours (restoreState eng (Document parsed) s).1
  = match panel6 (snap_toolInternalHours parsed) with
    | Some arr => restoreCost <$> arr
    | None => toolInternalHours s
    end.
Proof. read_member. Qed.

Lemma restored_toolRemedyInternalHours (eng : Engine.t)
    (parsed : Snapshot) (s : State) :
  toolRemedyInternalHours (restoreState eng (Document parsed) s).1
  = match panel6 (snap_toolRemedyInternalHours parsed) with
    | Some arr => restoreCost <$> arr
    | None => toolRemedyInternalHours s
    end.
Proof. read_member. Qed.

Lemma restored_saqConstraintEnabled (eng : Engine.t) (parsed : Snapshot)
    (s : State) :
  saqConstraintEnabled (restoreState eng (Document parsed) s).1
  = match panel6 (asBoolean (snap_saqConstraintEnabled parsed)) with
    | Some b => b
    | None => saqConstraintEnabled s
    end.
Proof. read_member. Qed.

Lemma restored_socialAuditConstraintEnabled (eng : Engine.t)
    (parsed : Snapshot) (s : State) :
  socialAuditConstraintEnabled (restoreState eng (Document parsed) s).1
  = match panel6 (asBoolean (snap_socialAuditConstraintEnabled parsed)) with
    | Some b => b
    | None => socialAuditConstraintEnabled s
    end.
Proof. read_member. Qed.

Lemma restored_socialAuditCostReduction (eng : Engine.t)
    (parsed : Snapshot) (s : State) :
  socialAuditCostReduction (restoreState eng (Document parsed) s).1
  = match panel6 (asNumber (snap_socialAuditCostReduction parsed)) with
    | Some n => nmax (num 0) (nmin (num 100) n)
    | None => socialAuditCostReduction s
    end.
Proof. read_member. Qed.

(** A step of [restoreParsed] that leaves [restored] at [false] found
    no member and changed nothing. *)
Lemma restoreMember_false {A : Type} (v : option A)
    (f : A → State → State) (acc : State * bool) :
  (restoreMember v f acc).2 = false →
  restoreMember v f acc = acc ∧ acc.2 = false.
Proof. destruct v; simpl; [discriminate | auto]. Qed.

Lemma restoreParsed_false (eng : Engine.t) (parsed : Snapshot) (s : State) :
  (restoreParsed eng parsed s).2 = false →
  (restoreParsed eng parsed s).1 = s.
Proof.
  unfold restoreParsed. cbv zeta. intros H.
  repeat match type of H with
         | (restoreMember ?v ?f ?acc).2 = false =>
             apply restoreMember_false in H as [-> H]
         end.
  reflexivity.
Qed.

(** X10.  [restoreState] writes only members that [saveState] saves:
    the countries, the risk figures, the current panel, the flags of
    the user interface and the last optimisation result are left as
    they were, whatever is stored.  When it returns [false] it has
    changed nothing except that a readable document clears
    [isDirty]. *)
Theorem restoreState_leaves_unsaved (eng : Engine.t) (storage : Storage)
    (s : State) :
  sameUnsaved (restoreState eng storage s).1 s ∧
  ((restoreState eng storage s).2 = false →
   (restoreState eng storage s).1 = s ∨
   (restoreState eng storage s).1 = set_isDirty false s).
Proof.
  destruct storage as [| |parsed].
  - split; [repeat split | left; reflexivity].
  - split; [repeat split | left; reflexivity].
  - split.
    + rewrite restoreState_document. cbn [fst].
      unfold sameUnsaved.
      repeat split;
        rewrite (setter_frame _ set_isDirty) by frames;
        unfold restoreParsed; cbv zeta;
        repeat (rewrite restoreMember_frame by frames); reflexivity.
    + rewrite restoreState_document. cbn [fst snd]. intros H. right.
      rewrite restoreParsed_false by exact H. reflexivity.
Qed.

Lemma normalizeTransparency_within (arr : list jsval) :
  Forall (within 0 100) (normalizeTransparencyEffectiveness (Some arr)).
Proof.
  unfold normalizeTransparencyEffectiveness. apply Forall_fmap, Forall_true.
  intros v. unfold compose. cbv beta zeta.
  destruct (parseFloat v) as [q| | |]; cbn [isFiniteNum negb];
    try apply within_zero.
  apply (proj1 (normalized_finite q)).
Qed.

Lemma normalizeResponsiveness_within (eng : Engine.t)
    (arr : option (list jsval)) :
  Forall (within 0 100) (normalizeResponsivenessEffectiveness eng arr).
Proof.
  unfold normalizeResponsivenessEffectiveness.
  apply Forall_fmap, Forall_true. intros i. unfold compose. cbv beta.
  assert (Hfb : within 0 100 (nmax (num 0) (nmin (num 100) (fallback eng i)))).
  { unfold fallback. destruct (index (defaultValues eng) i) as [[q| | |]| | |];
      cbn [isFinite isFiniteNum toNumber];
      try (apply (clamp_within 0 100 0); lra).
    apply (clamp_within 0 100 q). lra. }
  destruct arr as [arr|]; [|exact Hfb]. cbv zeta.
  destruct (parseFloat (index arr i)) as [q| | |]; cbn [isFiniteNum negb];
    try exact Hfb.
  apply (proj1 (normalized_finite q)).
Qed.

Lemma restoreCost_nonNegative (v : jsval) : nonNegative (restoreCost v).
Proof.
  unfold restoreCost, nonNegative.
  destruct v as [[q| | |]| | |]; cbn [isFinite isFiniteNum toNumber];
    try (exists 0; split; [reflexivity | lra]).
  unfold num. rewrite nmax_fin. change (inject_Z 0) with 0.
  destruct (Qlt_b 0 q) eqn:E; eexists; (split; [reflexivity|]);
    [apply Qlt_b_true in E|]; lra.
Qed.

Lemma clamp01_within (v : jsval) : within 0 1 (clamp01 v).
Proof.
  unfold clamp01. destruct (parseFloat v) as [q| | |];
    cbn [isFiniteNum negb];
    try (split; apply Qle_bool_iff; reflexivity).
  apply (clamp_within 0 1 q). lra.
Qed.

Lemma normalizeKeys_keys (entries : list (string * jsval)) (k : string) :
  is_Some (normalizeKeys entries !! k) → normalize k = k.
Proof.
  unfold normalizeKeys.
  assert (H : ∀ acc : gmap string jsval,
            (∀ k, is_Some (acc !! k) → normalize k = k) →
            ∀ k, is_Some (foldl (λ (acc : gmap string jsval) kv,
                                   <[normalize kv.1 := kv.2]> acc)
                                acc entries !! k) → normalize k = k).
  { induction entries as [|[k0 v0] t IH]; intros acc Hacc k'; simpl;
      [apply Hacc|].
    apply IH. intros k1. destruct (decide (k1 = normalize k0)) as [->|Hne].
    - intros _. apply normalize_idemp.
    - rewrite lookup_insert_ne by congruence. apply Hacc. }
  apply H. intros k' [? Hk]. rewrite lookup_empty in Hk. discriminate.
Qed.

(** X11.  Whatever the stored document holds, [restoreState] cannot
    put a member out of range: if the focus, the effectiveness
    percentages, the tool costs and the codes were in range before,
    they are in range afterwards. *)
Theorem restoreState_checks (eng : Engine.t) (storage : Storage)
    (s : State) :
  sessionChecked s → sessionChecked (restoreState eng storage s).1.
Proof.
  intros [Hf Ht He Ha Hp Hi Hr Hc Hk].
  destruct storage as [| |parsed]; try (constructor; assumption).
  constructor.
  - rewrite restored_focus. destruct (asNumber _);
      [apply clamp01_within | exact Hf].
  - rewrite restored_transparencyEffectiveness.
    destruct (snap_transparencyEffectiveness parsed);
      [apply normalizeTransparency_within | exact Ht].
  - rewrite restored_responsivenessEffectiveness.
    destruct (snap_responsivenessEffectiveness parsed);
      [apply normalizeResponsiveness_within | exact He].
  - rewrite restored_toolAnnualProgrammeCosts. destruct (panel6 _);
      [|exact Ha].
    apply Forall_fmap, Forall_true. intros v. apply restoreCost_nonNegative.
  - rewrite restored_toolPerSupplierCosts. destruct (panel6 _);
      [|exact Hp].
    apply Forall_fmap, Forall_true. intros v. apply restoreCost_nonNegative.
  - rewrite restored_toolInternalHours. destruct (panel6 _);
      [|exact Hi].
    apply Forall_fmap, Forall_true. intros v. apply restoreCost_nonNegative.
  - rewrite restored_toolRemedyInternalHours. destruct (panel6 _);
      [|exact Hr].
    apply Forall_fmap, Forall_true. intros v. apply restoreCost_nonNegative.
  - rewrite restored_selectedCountries.
    destruct (snap_selectedCountries parsed) as [codes|]; [|exact Hc].
    apply Forall_forall. intros c Hin.
    apply list_elem_of_filter in Hin as [Hne Hin].
    apply list_elem_of_fmap in Hin as ([c'|] & -> & _).
    + split; [apply normalize_idemp | exact Hne].
    + discriminate.
  - rewrite restored_countryVolumes.
    destruct (snap_countryVolumes parsed) as [entries|]; [|exact Hk].
    apply normalizeKeys_keys.
Qed.

Lemma restoreCost_saved (l : list number) :
  Forall nonNegative l →
  Forall2 same (restoreCost <$> (jsonNumber <$> l)) l.
Proof.
  induction 1 as [|x t (q & -> & Hq) _ IH]; [constructor|].
  cbn [fmap list_fmap]. constructor; [|exact IH].
  unfold restoreCost, jsonNumber, jsonValue, num.
  cbn [isFinite isFiniteNum toNumber]. rewrite nmax_fin.
  change (inject_Z 0) with 0. simpl.
  destruct (Qlt_b 0 q) eqn:E; [reflexivity|].
  apply Qlt_b_false in E. lra.
Qed.

(** X12.  Saving and restoring gives back the cost assumptions of
    panel 6, into whatever state they are restored: the supplier
    count, the hourly rate, the four tool arrays, the two constraint
    switches and the audit cost reduction, provided they are finite and
    in the range [restoreState] accepts. *)
Theorem save_restore_costs (eng : Engine.t) (s s0 : State) :
  costsStorable s →
  sameCosts (restoreState eng (saveState s).2 s0).1 s.
Proof.
  intros [(z & Hz & Hz1) (r & Hr & Hr0) Ha Hp Hi Hm Hred].
  change (saveState s).2 with (Document (snapshot s)).
  unfold sameCosts.
  rewrite restored_supplierCount, restored_hourlyRate,
    restored_toolAnnualProgrammeCosts, restored_toolPerSupplierCosts,
    restored_toolInternalHours, restored_toolRemedyInternalHours,
    restored_saqConstraintEnabled, restored_socialAuditConstraintEnabled,
    restored_socialAuditCostReduction.
  unfold snapshot, panel6.
  cbn [ENABLE_PANEL_6 snap_supplierCount snap_hourlyRate
       snap_toolAnnualProgrammeCosts snap_toolPerSupplierCosts
       snap_toolInternalHours snap_toolRemedyInternalHours
       snap_saqConstraintEnabled snap_socialAuditConstraintEnabled
       snap_socialAuditCostReduction asBoolean].
  rewrite Hz, Hr.
  destruct (socialAuditCostReduction s) as [d| | |] eqn:Ed;
    try contradiction.
  cbn [isFiniteNum jsonNumber jsonValue num asNumber].
  split.
  { unfold nfloor, num. rewrite Qfloor_Z, nmax_fin.
    destruct (Qlt_b (inject_Z 1) (inject_Z z)) eqn:E; [reflexivity|].
    apply Qlt_b_false in E. rewrite <- Zle_Qle in E.
    f_equal. f_equal. lia. }
  split.
  { unfold num. rewrite nmax_fin. change (inject_Z 0) with 0. simpl.
    destruct (Qlt_b 0 r) eqn:E; [reflexivity|].
    apply Qlt_b_false in E. lra. }
  repeat (split; [apply restoreCost_saved; assumption|]).
  split; [reflexivity|]. split; [reflexivity|].
  apply (clamp_id 0 100 d); apply Hred.
Qed.

End Restoring.

(** ** Reset, demo data and panel 6 *)

Section Reset.

Import AppController Spec StateTactics.

Local Open Scope Q_scope.


(** Without engine defaults the two differ: the constants that
    [resetApplicationState] falls back on are not the constructor's. *)
Example reset_fallback_differs :
  transparencyEffectiveness
    (resetApplicationState demoEngine "t" (initialState demoEngine)).1
  = nums [90; 50; 25; 10; 8; 2]%Z ∧
  transparencyEffectiveness (initialState demoEngine)
  = nums [80; 40; 30; 20; 10; 5]%Z.
Proof. split; reflexivity. Qed.

(** [resetMembers] written out member by member: only the country
    data, [apiHealthy] and [lastUpdate] of the state it is applied to
    survive. *)
Lemma resetMembers_members (eng : Engine.t) (s : State) :
  resetMembers eng s
  = {| countries := countries s;
       weights := default (jnums [20; 20; 20; 20; 20]%Z)
                    (Engine.defaultWeights eng);
       supplierCount := num 500;
       hourlyRate := num 40;
       toolAnnualProgrammeCosts := nums [12000; 0; 0; 40000; 0; 0]%Z;
       toolPerSupplierCosts := nums [120; 0; 1000; 0; 0; 0]%Z;
       toolInternalHours := nums [6; 20; 20; 6; 2; 1]%Z;
       toolRemedyInternalHours := nums [0; 10; 10; 6; 2; 2]%Z;
       saqConstraintEnabled := true;
       socialAuditConstraintEnabled := true;
       socialAuditCostReduction := num 50;
       shouldAutoRunOptimization := false;
       lastOptimizationResult := None;
       selectedCountries := [];
       countryVolumes := ∅;
       countryRisks := ∅;
       countryManagedRisks := ∅;
       baselineRisk := num 0;
       managedRisk := num 0;
       riskConcentration := num 1;
       focus := match Engine.defaultFocus eng with
                | JNum n => n
                | _ => Fin (6 # 10)
                end;
       hrddStrategy := default (jnums [0; 10; 5; 65; 100; 0]%Z)
                         (Engine.defaultHRDDStrategy eng);
       transparencyEffectiveness :=
         normalizeTransparencyEffectiveness
           (Some (default (jnums [90; 50; 25; 10; 8; 2]%Z)
                    (Engine.defaultTransparencyEffectiveness eng)));
       responsivenessStrategy :=
         default (jnums [75; 85; 50; 25; 5; 5]%Z)
           (Engine.defaultResponsivenessStrategy eng);
       responsivenessEffectiveness :=
         normalizeResponsivenessEffectiveness eng
           (Some (default (jnums [90; 50; 10; 10; 2; 2]%Z)
                    (Engine.defaultResponsivenessEffectiveness eng)));
       focusEffectivenessMetrics := None;
       currentPanel := num 1;
       loading := false;
       error := None;
       apiHealthy := apiHealthy s;
       lastUpdate := lastUpdate s;
       isDirty := false;
       isGeneratingReport := false |}.
Proof. destruct s. reflexivity. Qed.

(** The three recalculations do not read [lastUpdate]. *)
Lemma recalculation_lastUpdate (eng : Engine.t) (l : option string)
    (s : State) :
  calculateManagedRisk eng
    (calculateBaselineRisk eng (calculateAllRisks eng (set_lastUpdate l s)))
  = set_lastUpdate l
      (calculateManagedRisk eng
         (calculateBaselineRisk eng (calculateAllRisks eng s))).
Proof. destruct s. reflexivity. Qed.

Lemma set_lastUpdate_twice (l l' : option string) (s : State) :
  set_lastUpdate l (set_lastUpdate l' s) = set_lastUpdate l s.
Proof. destruct s. reflexivity. Qed.

Lemma resetMembers_again (eng : Engine.t) (s s' : State) :
  countries s' = countries s → apiHealthy s' = apiHealthy s →
  resetMembers eng s' = set_lastUpdate (lastUpdate s') (resetMembers eng s).
Proof.
  intros Hc Ha. rewrite !resetMembers_members, Hc, Ha. reflexivity.
Qed.

(** X14.  [resetApplicationState] empties the selection and the
    volumes, goes back to panel 1, drops the last optimisation result
    and removes the stored session, so that restoring afterwards finds
    nothing; it keeps the country data.  Resetting twice is the same as
    resetting once. *)
Theorem reset_forgets_session (eng : Engine.t) (now : string) (s : State) :
  let r := resetApplicationState eng now s in
  selectedCountries r.1 = [] ∧
  countryVolumes r.1 = ∅ ∧
  currentPanel r.1 = num 1 ∧
  lastOptimizationResult r.1 = None ∧
  isDirty r.1 = false ∧
  countries r.1 = countries s ∧
  restoreState eng r.2 r.1 = (r.1, false) ∧
  resetApplicationState eng now r.1 = r.
Proof.
  intros r. subst r.
  do 7 (split; [reflexivity|]).
  unfold resetApplicationState. cbn [fst].
  set (r := resetMembers eng s).
  rewrite (resetMembers_again eng s) by reflexivity. fold r.
  rewrite recalculation_lastUpdate, set_lastUpdate_twice. reflexivity.
Qed.

Lemma set_shouldAutoRunOptimization_twice (b : bool) (s : State) :
  set_shouldAutoRunOptimization b (set_shouldAutoRunOptimization b s)
  = set_shouldAutoRunOptimization b s.
Proof. destruct s. reflexivity. Qed.

Lemma set_shouldAutoRunOptimization_same (s : State) :
  set_shouldAutoRunOptimization (shouldAutoRunOptimization s) s = s.
Proof. destruct s. reflexivity. Qed.

(** X15.  Showing panel 6 runs the optimizer only when
    [shouldAutoRunOptimization] is set, which [setCurrentPanel(6)]
    does; the optimisation shown is then the engine's result, and
    otherwise the last result.  Either way the flag is cleared and the
    result shown is the one stored, so showing the panel again changes
    nothing and shows the same result. *)
Theorem cost_panel_runs_optimizer_once (eng : Engine.t) (s : State) :
  let first := renderCostAnalysisPanel eng s in
  let second := renderCostAnalysisPanel eng first.1 in
  shouldAutoRunOptimization (setCurrentPanel (num 6) s) = true ∧
  (shouldAutoRunOptimization s = true →
   first.2 = match (optimizeBudgetAllocation eng s).2 with
             | Engine.RObject r => Some r
             | _ => None
             end) ∧
  (shouldAutoRunOptimization s = false →
   first.1 = s ∧ first.2 = lastOptimizationResult s) ∧
  shouldAutoRunOptimization first.1 = false ∧
  lastOptimizationResult first.1 = first.2 ∧
  second = first.
Proof.
  intros first second.
  assert (Hflag : shouldAutoRunOptimization first.1 = false)
    by reflexivity.
  assert (Hshown : lastOptimizationResult first.1 = first.2).
  { unfold first, renderCostAnalysisPanel.
    destruct (shouldAutoRunOptimization s); [|reflexivity].
    cbn [fst snd]. unfold optimizeBudgetAllocation.
    cbn [ENABLE_PANEL_6 negb fst snd].
    destruct (Engine.optimizeBudgetAllocation eng _ _ _ _ _ _ _ _ _ _ _ _ _
                _ _ _ _); reflexivity. }
  split; [reflexivity|].
  split.
  { intros H. unfold first, renderCostAnalysisPanel. rewrite H.
    reflexivity. }
  split.
  { intros H. unfold first, renderCostAnalysisPanel. rewrite H.
    cbn [fst snd]. split; [|reflexivity].
    rewrite <- H at 1. apply set_shouldAutoRunOptimization_same. }
  split; [exact Hflag|]. split; [exact Hshown|].
  unfold second. unfold renderCostAnalysisPanel at 1. rewrite Hflag.
  cbn [fst snd]. rewrite Hshown.
  rewrite <- Hflag at 1. rewrite set_shouldAutoRunOptimization_same.
  destruct first. reflexivity.
Qed.

End Reset.

(** ** Recalculating the risks *)

Section Risks.

Import AppController Spec StateTactics.

Local Open Scope Q_scope.






End Risks.

(** ** What every sequence of operations keeps *)

Section Invariants.

Import AppController Spec StateTactics.

Local Open Scope Q_scope.

Lemma handlerStep_volumesSelected (eng : Engine.t) (s s' : State) :
  handlerStep eng s s' → volumesSelected s → volumesSelected s'.
Proof.
  intros Hstep IH. destruct Hstep;
    try (apply onCountrySelect_volumesSelected, IH);
    try (apply onVolumeChange_volumesSelected, IH);
    try (apply addCountry_volumesSelected, IH);
    try (apply removeCountry_volumesSelected, IH);
    try (eapply volumesSelected_frame; [| |exact IH]; reflexivity);
    try (eapply volumesSelected_frame; [| |exact IH];
         match goal with x : option _ |- _ => destruct x end;
         reflexivity).
  eapply volumesSelected_frame; [| |exact IH];
    unfold setCurrentPanel;
    destruct (nge panel (num 1)
              && nle panel (if ENABLE_PANEL_6 then num 6 else num 5));
    reflexivity.
Qed.

Lemma costHandlerStep_frame (s s' : State) :
  costHandlerStep s s' →
  countryVolumes s' = countryVolumes s ∧
  selectedCountries s' = selectedCountries s.
Proof.
  intros Hstep. destruct Hstep; try (split; reflexivity);
    unfold onToolAnnualProgrammeCostChange, onToolPerSupplierCostChange,
      onToolInternalHoursChange, onToolRemedyInternalHoursChange,
      onToolValueChange; cbn [ENABLE_PANEL_6 negb];
    destruct (setToolEntry _ _ _); split; reflexivity.
Qed.

Lemma costFieldStep_costHandlerStep (s s' : State) :
  costFieldStep s s' → s' = s ∨ costHandlerStep s s'.
Proof.
  intros Hstep.
  destruct Hstep as [s [q|] | s [q|] | s i [q|] | s i [q|] | s i [q|]
                    | s i [q|] | s [q|]];
    try (left; reflexivity); right; constructor.
Qed.

Lemma sessionStep_volumesSelected (eng : Engine.t) (s s' : State) :
  sessionStep eng s s' → volumesSelected s → volumesSelected s'.
Proof.
  intros Hstep IH. destruct Hstep as [s s' H | s s' H | s s' H | s step
                                     | s now | s now | s].
  - eapply handlerStep_volumesSelected; eassumption.
  - apply costHandlerStep_frame in H as [Hv Hs].
    eapply volumesSelected_frame; eassumption.
  - apply costFieldStep_costHandlerStep in H as [-> | H]; [exact IH|].
    apply costHandlerStep_frame in H as [Hv Hs].
    eapply volumesSelected_frame; eassumption.
  - eapply volumesSelected_frame; [| |exact IH];
      unfold setCurrentStep, setCurrentPanel;
      destruct (nge step (num 1)
                && nle step (if ENABLE_PANEL_6 then num 6 else num 5));
      reflexivity.
  - intros code [v Hv]. exfalso. revert Hv.
    change (countryVolumes (resetApplicationState eng now s).1)
      with (∅ : gmap string jsval).
    rewrite lookup_empty. discriminate.
  - intros code Hcode.
    change (selectedCountries (loadDemoData eng now s))
      with ["BGD"; "VNM"; "BRA"].
    revert Hcode.
    change (countryVolumes (loadDemoData eng now s))
      with (<["BRA" := JNum (num 15)]>
              (<["VNM" := JNum (num 20)]>
                 (<["BGD" := JNum (num 30)]> (∅ : gmap string jsval)))).
    intros [v Hv].
    destruct (decide (code = "BRA")) as [->|H1];
      [do 2 right; left|].
    rewrite lookup_insert_ne in Hv by congruence.
    destruct (decide (code = "VNM")) as [->|H2]; [right; left|].
    rewrite lookup_insert_ne in Hv by congruence.
    destruct (decide (code = "BGD")) as [->|H3]; [left|].
    rewrite lookup_insert_ne, lookup_empty in Hv by congruence.
    discriminate.
  - eapply volumesSelected_frame; [| |exact IH];
      unfold renderCostAnalysisPanel;
      destruct (shouldAutoRunOptimization s); reflexivity.
Qed.

(** X17.  From a new controller, no sequence of operations other than
    [setState], [restoreState] and [loadSavedState] leaves a volume for
    a country that is not selected: this holds for the handlers of
    panels 1 to 5, the cost handlers and cost fields of panel 6, panel
    navigation, showing panel 6, loading the demo data and resetting
    the application. *)
Theorem session_keeps_volumes_selected (eng : Engine.t) (s : State) :
  rtc (sessionStep eng) (initialState eng) s → volumesSelected s.
Proof.
  intros Hrun.
  assert (Hinit : volumesSelected (initialState eng)).
  { intros code [v Hv]. simpl in Hv. rewrite lookup_empty in Hv.
    discriminate. }
  induction Hrun as [s|s1 s2 s3 Hstep _ IH]; [exact Hinit|].
  apply IH. eapply sessionStep_volumesSelected; eassumption.
Qed.

Lemma sound_frame (eng : Engine.t) (s s' : State) :
  transparencyEffectiveness s' = transparencyEffectiveness s →
  responsivenessEffectiveness s' = responsivenessEffectiveness s →
  baselineRisk s' = baselineRisk s →
  managedRisk s' = managedRisk s →
  toolAnnualProgrammeCosts s' = toolAnnualProgrammeCosts s →
  toolPerSupplierCosts s' = toolPerSupplierCosts s →
  toolInternalHours s' = toolInternalHours s →
  toolRemedyInternalHours s' = toolRemedyInternalHours s →
  sessionSound eng s → sessionSound eng s'.
Proof.
  intros H1 H2 H3 H4 H5 H6 H7 H8 [].
  constructor; rewrite ?H1, ?H2, ?H3, ?H4, ?H5, ?H6, ?H7, ?H8; assumption.
Qed.

Lemma sound_calculateBaselineRisk (eng : Engine.t) (s : State) :
  sessionSound eng s → sessionSound eng (calculateBaselineRisk eng s).
Proof.
  intros []. constructor; try assumption.
  cbn [calculateBaselineRisk baselineRisk set_baselineRisk].
  destruct (Engine.generateBaselineSummary eng _ _ _ _) as [[q| | |]| | |];
    reflexivity.
Qed.

Lemma sound_calculateManagedRisk (eng : Engine.t) (s : State) :
  sessionSound eng s → sessionSound eng (calculateManagedRisk eng s).
Proof.
  intros []. constructor; try assumption.
  cbn [calculateManagedRisk managedRisk set_countryManagedRisks
       set_focusEffectivenessMetrics set_managedRisk].
  destruct (Engine.managedScore _) as [[q| | |]| | |]; reflexivity.
Qed.

Lemma sound_set_transparency (eng : Engine.t) (arr : list jsval)
    (s : State) :
  sessionSound eng s →
  sessionSound eng
    (set_transparencyEffectiveness
       (normalizeTransparencyEffectiveness (Some arr)) s).
Proof.
  intros []. constructor; try assumption.
  apply normalizeTransparency_within.
Qed.

Lemma length_normalizeResponsiveness (eng : Engine.t)
    (arr : option (list jsval)) :
  length (normalizeResponsivenessEffectiveness eng arr) = expectedLength eng.
Proof.
  unfold normalizeResponsivenessEffectiveness.
  rewrite length_fmap, length_seq. reflexivity.
Qed.

Lemma sound_set_effectiveness (eng : Engine.t) (arr : option (list jsval))
    (s : State) :
  sessionSound eng s →
  sessionSound eng
    (set_responsivenessEffectiveness
       (normalizeResponsivenessEffectiveness eng arr) s).
Proof.
  intros []. constructor; try assumption.
  - apply normalizeResponsiveness_within.
  - apply length_normalizeResponsiveness.
Qed.

(** Peel the state transformers a handler is made of. *)
Ltac sound_frame_step e X :=
  let x := fresh "x" in
  let Hx := fresh "Hx" in
  cut (sessionSound e X);
  [ generalize X; intros x Hx; apply (sound_frame e x);
    [reflexivity ..|exact Hx] | ].

Ltac sound :=
  repeat first
    [ match goal with H : ?A |- ?B => constr_eq A B; exact H end
    | match goal with
      | |- sessionSound _ (calculateBaselineRisk _ _) =>
          apply sound_calculateBaselineRisk
      | |- sessionSound _ (calculateManagedRisk _ _) =>
          apply sound_calculateManagedRisk
      | |- sessionSound _
             (set_transparencyEffectiveness
                (normalizeTransparencyEffectiveness (Some _)) _) =>
          apply sound_set_transparency
      | |- sessionSound _
             (set_responsivenessEffectiveness
                (normalizeResponsivenessEffectiveness _ _) _) =>
          apply sound_set_effectiveness
      | |- sessionSound ?e (calculateAllRisks _ ?X) => sound_frame_step e X
      | |- sessionSound ?e (?set ?v ?X) => sound_frame_step e X
      | |- sessionSound _ (match ?x with _ => _ end) => destruct x
      end ].

Lemma sound_assign (eng : Engine.t) {A B : Type} (v : option A) (g : A → B)
    (set : B → State → State) (s : State) :
  (∀ a x, sessionSound eng x → sessionSound eng (set (g a) x)) →
  sessionSound eng s → sessionSound eng (assign v g set s).
Proof. intros H Hs. destruct v; simpl; auto. Qed.

Lemma sound_onCountrySelect (eng : Engine.t) (now : string)
    (sel : Selection) (s : State) :
  sessionSound eng s → sessionSound eng (onCountrySelect eng now sel s).
Proof.
  intros H. unfold onCountrySelect.
  match goal with
  | |- context [match ?u with Some _ => _ | None => s end] =>
      destruct u as [updated|]; [|exact H]
  end.
  sound.
Qed.

Lemma sound_onVolumeChange (eng : Engine.t) (code : string) (v : jsval)
    (s : State) :
  sessionSound eng s → sessionSound eng (onVolumeChange code v s).
Proof. intros H. unfold onVolumeChange. sound. Qed.

Lemma handlerStep_sound (eng : Engine.t) (s s' : State) :
  handlerStep eng s s' → sessionSound eng s → sessionSound eng s'.
Proof.
  intros Hstep H. destruct Hstep;
    try (apply sound_onCountrySelect; exact H);
    try (apply sound_onVolumeChange; exact H).
  - unfold onWeightsChange. sound.
  - unfold onHRDDStrategyChange. sound.
  - unfold onTransparencyChange. sound.
  - unfold onResponsivenessChange. sound.
  - unfold onResponsivenessEffectivenessChange. sound.
  - unfold onFocusChange. sound.
  - unfold onSAQConstraintChange. cbn [ENABLE_PANEL_6 negb]. sound.
  - unfold optimizeBudgetAllocation. cbn [ENABLE_PANEL_6 negb fst]. sound.
  - unfold setCurrentPanel. cbn [ENABLE_PANEL_6]. sound.
  - unfold addCountry. destruct (negb _); [exact H|]. destruct volume.
    + apply sound_onVolumeChange, sound_onCountrySelect, H.
    + apply sound_onCountrySelect, H.
  - unfold removeCountry. destruct (negb _); [exact H|].
    apply sound_onCountrySelect. sound.
  - unfold recalculateManaged. sound.
  - unfold recalculateBaselineAndManaged. sound.
  - unfold recalculateAll. sound.
  - unfold saveState. cbn [fst]. sound.
Qed.

Lemma assign_preserves {A B : Type} (P : State → Prop) (v : option A)
    (g : A → B) (set : B → State → State) (s : State) :
  (∀ a x, P x → P (set (g a) x)) → P s → P (assign v g set s).
Proof. intros H Hs. destruct v; simpl; auto. Qed.

Lemma if_preserves (P : State → Prop) (c : bool) (f : State → State)
    (s : State) :
  (∀ x, P x → P (f x)) → P s → P (if c then f s else s).
Proof. intros H Hs. destruct c; auto. Qed.

(** One assignment of [setState], the risk figures left aside. *)
Ltac sound_member :=
  let x := fresh "x" in
  let Hx := fresh "Hx" in
  intros; 
  lazymatch goal with
  | H : sessionSound _ (set_managedRisk _ (set_baselineRisk _ ?x)) |- _ =>
      destruct x; destruct H; constructor; simpl in *;
      first [ assumption
            | apply normalizeTransparency_within
            | apply normalizeResponsiveness_within
            | apply length_normalizeResponsiveness
            | reflexivity ]
  end.

(** The recalculation makes the risk figures finite whatever they
    were. *)
Lemma sound_recalculated (eng : Engine.t) (s : State) :
  sessionSound eng (set_managedRisk (num 0) (set_baselineRisk (num 0) s)) →
  sessionSound eng
    (calculateManagedRisk eng
       (calculateBaselineRisk eng (calculateAllRisks eng s))).
Proof.
  intros H. destruct s; destruct H; constructor;
    cbn [calculateManagedRisk calculateBaselineRisk calculateAllRisks];
    state_cbn; simpl in *; try assumption.
  - destruct (Engine.generateBaselineSummary eng _ _ _ _) as [[q| | |]| | |];
      reflexivity.
  - destruct (Engine.managedScore _) as [[q| | |]| | |]; reflexivity.
Qed.

Lemma sound_masked (eng : Engine.t) (s : State) :
  sessionSound eng s →
  sessionSound eng (set_managedRisk (num 0) (set_baselineRisk (num 0) s)).
Proof.
  intros H. destruct s; destruct H; constructor; simpl in *;
    first [assumption | reflexivity].
Qed.

Lemma setState_sound (eng : Engine.t) (now : string)
    (partialState : option PartialState) (s : State) :
  sessionSound eng s → sessionSound eng (setState eng now partialState s).
Proof.
  intros H. unfold setState. destruct partialState as [p|]; [|exact H].
  cbv zeta.
  match goal with
  | |- sessionSound ?e (set_lastUpdate ?v ?X) => sound_frame_step e X
  end.
  apply sound_recalculated.
  remember (λ x : State,
              sessionSound eng
                (set_managedRisk (num 0) (set_baselineRisk (num 0) x)))
    as P eqn:HP.
  assert (Hs : P s) by (subst P; apply sound_masked, H).
  match goal with
  | |- sessionSound _ (set_managedRisk _ (set_baselineRisk _ ?X)) =>
      cut (P X); [subst P; exact (λ h, h)|]
  end.
  assert (Hset : ∀ x, P x → P (set_isDirty true x))
    by (subst P; sound_member).
  apply Hset.
  apply (if_preserves P); [subst P; sound_member|].
  repeat (apply (assign_preserves P); [subst P; sound_member|]).
  apply (if_preserves P); [subst P; sound_member|].
  apply (if_preserves P); [subst P; sound_member|].
  repeat (apply (assign_preserves P); [subst P; sound_member|]).
  exact Hs.
Qed.

Lemma restored_risks (eng : Engine.t) (storage : Storage) (s : State) :
  baselineRisk (restoreState eng storage s).1 = baselineRisk s ∧
  managedRisk (restoreState eng storage s).1 = managedRisk s.
Proof.
  destruct storage as [| |parsed]; [split; reflexivity ..|].
  rewrite restoreState_document. cbn [fst].
  split;
    rewrite (setter_frame _ set_isDirty) by frames;
    unfold restoreParsed; cbv zeta;
    repeat (rewrite restoreMember_frame by frames); reflexivity.
Qed.

Lemma nonNegative_notNegative (x : number) : nonNegative x → notNegative x.
Proof.
  intros (q & -> & Hq). unfold notNegative, nge, num.
  apply nle_fin. exact Hq.
Qed.

Lemma restoreCost_notNegative (arr : list jsval) :
  Forall notNegative (restoreCost <$> arr).
Proof.
  apply Forall_fmap, Forall_true. intros v.
  apply nonNegative_notNegative, restoreCost_nonNegative.
Qed.

Lemma restoreState_sound (eng : Engine.t) (storage : Storage) (s : State) :
  sessionSound eng s → sessionSound eng (restoreState eng storage s).1.
Proof.
  intros H. destruct (restored_risks eng storage s) as [Hb Hm].
  destruct storage as [| |parsed]; [exact H ..|].
  destruct H. constructor; rewrite ?Hb, ?Hm; try assumption.
  - rewrite restored_transparencyEffectiveness.
    destruct (snap_transparencyEffectiveness parsed);
      [apply normalizeTransparency_within | assumption].
  - rewrite restored_responsivenessEffectiveness.
    destruct (snap_responsivenessEffectiveness parsed);
      [apply normalizeResponsiveness_within | assumption].
  - rewrite restored_responsivenessEffectiveness.
    destruct (snap_responsivenessEffectiveness parsed);
      [apply length_normalizeResponsiveness | assumption].
  - rewrite restored_toolAnnualProgrammeCosts.
    destruct (panel6 _); [apply restoreCost_notNegative | assumption].
  - rewrite restored_toolPerSupplierCosts.
    destruct (panel6 _); [apply restoreCost_notNegative | assumption].
  - rewrite restored_toolInternalHours.
    destruct (panel6 _); [apply restoreCost_notNegative | assumption].
  - rewrite restored_toolRemedyInternalHours.
    destruct (panel6 _); [apply restoreCost_notNegative | assumption].
Qed.

Lemma loadSavedState_sound (eng : Engine.t) (now : string)
    (storage : Storage) (s : State) :
  sessionSound eng s → sessionSound eng (loadSavedState eng now storage s).1.
Proof.
  intros H. apply (restoreState_sound eng storage) in H.
  unfold loadSavedState.
  destruct (restoreState eng storage s) as [s1 restored].
  cbn [fst] in H. destruct restored; cbn [fst]; sound.
Qed.

Lemma onToolValueChange_sound (eng : Engine.t) (get : State → list number)
    (set : list number → State → State) (toolIndex : number) (v : jsval)
    (s : State) :
  (∀ arr x, Forall notNegative (get x) → Forall notNegative arr →
     sessionSound eng x → sessionSound eng (set arr x)) →
  (sessionSound eng s → Forall notNegative (get s)) →
  sessionSound eng s →
  sessionSound eng (onToolValueChange get set toolIndex v s).
Proof.
  intros Hset Hget H. unfold onToolValueChange. cbn [ENABLE_PANEL_6 negb].
  destruct (setToolEntry _ _ _) as [arr|] eqn:E; [|exact H].
  sound. apply Hset; [apply Hget, H | | exact H].
  apply (setToolEntry_Forall _ _ _ _ _ E); [|apply Hget, H].
  apply (proj1 (costValue_spec v)).
Qed.

Lemma costHandlerStep_sound (eng : Engine.t) (s s' : State) :
  costHandlerStep s s' → sessionSound eng s → sessionSound eng s'.
Proof.
  intros Hstep H. destruct Hstep.
  - unfold onSupplierCountChange. cbn [ENABLE_PANEL_6 negb]. sound.
  - unfold onHourlyRateChange. cbn [ENABLE_PANEL_6 negb]. sound.
  - apply onToolValueChange_sound; [|apply sound_annual|exact H].
    intros arr [] _ Harr []. constructor; assumption.
  - apply onToolValueChange_sound; [|apply sound_perSupplier|exact H].
    intros arr [] _ Harr []. constructor; assumption.
  - apply onToolValueChange_sound; [|apply sound_internalHours|exact H].
    intros arr [] _ Harr []. constructor; assumption.
  - apply onToolValueChange_sound; [|apply sound_remedyHours|exact H].
    intros arr [] _ Harr []. constructor; assumption.
  - unfold onSAQConstraintChange. cbn [ENABLE_PANEL_6 negb]. sound.
  - unfold onSocialAuditConstraintChange. cbn [ENABLE_PANEL_6 negb]. sound.
  - unfold onSocialAuditCostReductionChange. cbn [ENABLE_PANEL_6 negb].
    cbv zeta. sound.
Qed.

Lemma initialState_sound (eng : Engine.t) : sessionSound eng (initialState eng).
Proof.
  constructor; cbn [initialState]; state_cbn.
  - apply normalizeTransparency_within.
  - apply normalizeResponsiveness_within.
  - apply length_normalizeResponsiveness.
  - reflexivity.
  - reflexivity.
  - unfold nums. repeat (constructor; [reflexivity|]). constructor.
  - unfold nums. repeat (constructor; [reflexivity|]). constructor.
  - unfold nums. repeat (constructor; [reflexivity|]). constructor.
  - unfold nums. repeat (constructor; [reflexivity|]). constructor.
Qed.

Lemma resetMembers_sound (eng : Engine.t) (s : State) :
  sessionSound eng (resetMembers eng s).
Proof.
  rewrite resetMembers_members.
  constructor; state_cbn.
  - apply normalizeTransparency_within.
  - apply normalizeResponsiveness_within.
  - apply length_normalizeResponsiveness.
  - reflexivity.
  - reflexivity.
  - unfold nums. repeat (constructor; [reflexivity|]). constructor.
  - unfold nums. repeat (constructor; [reflexivity|]). constructor.
  - unfold nums. repeat (constructor; [reflexivity|]). constructor.
  - unfold nums. repeat (constructor; [reflexivity|]). constructor.
Qed.

Lemma sessionStep_sound (eng : Engine.t) (s s' : State) :
  sessionStep eng s s' → sessionSound eng s → sessionSound eng s'.
Proof.
  intros Hstep H. destruct Hstep as [s s' Hh|s s' Hc|s s' Hf|s step|s now|s now|s].
  - exact (handlerStep_sound eng s s' Hh H).
  - exact (costHandlerStep_sound eng s s' Hc H).
  - destruct (costFieldStep_costHandlerStep s s' Hf) as [<-|Hc];
      [exact H | exact (costHandlerStep_sound eng s s' Hc H)].
  - unfold setCurrentStep, setCurrentPanel. cbn [ENABLE_PANEL_6]. sound.
  - unfold resetApplicationState. cbn [fst].
    pose proof (resetMembers_sound eng s). sound.
  - unfold loadDemoData. cbv zeta. sound.
  - unfold renderCostAnalysisPanel, optimizeBudgetAllocation.
    cbn [ENABLE_PANEL_6 negb]. cbv zeta.
    destruct (shouldAutoRunOptimization s); cbn [fst]; sound.
Qed.

Lemma apiStep_sound (eng : Engine.t) (s s' : State) :
  apiStep eng s s' → sessionSound eng s → sessionSound eng s'.
Proof.
  intros Hstep H.
  destruct Hstep as [s s' Hs|s now partialState|s storage|s now storage].
  - exact (sessionStep_sound eng s s' Hs H).
  - apply setState_sound, H.
  - apply restoreState_sound, H.
  - apply loadSavedState_sound, H.
Qed.

(** X18.  Whatever operations a controller has gone through since it
    was built, [setState] with any argument and [restoreState] from any
    stored document included, its effectiveness percentages are within
    [0, 100], it has one responsiveness effectiveness per expected
    entry, its baseline and managed risk are finite numbers, and no
    tool cost or hour count is [NaN] or negative. *)
Theorem session_stays_sound (eng : Engine.t) (s : State) :
  rtc (apiStep eng) (initialState eng) s → sessionSound eng s.
Proof.
  intros Hrun.
  assert (Hinit : sessionSound eng (initialState eng))
    by apply initialState_sound.
  induction Hrun as [s|s s' s'' Hstep _ IH]; [exact Hinit|].
  apply IH. exact (apiStep_sound eng s s' Hstep Hinit).
Qed.

End Invariants.

(** ** The pages of the report *)

Section Report.

Import PDFGenerator.

Local Open Scope Q_scope.

Lemma imageTop_cases (st : option string) :
  (imageTop st = Fin 48 ∧ maxContentHeight st = Fin 229) ∨
  (imageTop st = Fin 54 ∧ maxContentHeight st = Fin 223).
Proof.
  unfold maxContentHeight, imageTop, headerHeight.
  destruct (hasSectionTitle st); [right | left]; split; reflexivity.
Qed.

(** X19.  A captured panel whose canvas has a positive width and
    height is placed below the header with its aspect ratio kept, inside
    the margins of the A4 page (20 mm on each side, the bottom margin
    ending at 277 mm), centred between the left and right margins, and
    as large as that allows: it fills the width of 170 mm or reaches
    the bottom margin. *)
Theorem imagePlacement_fits (w h : Q) (st : option string) :
  0 < w → 0 < h →
  ∃ x y wd ht : Q,
    imagePlacement (Fin w) (Fin h) st
    = mkPlacement (Fin x) (Fin y) (Fin wd) (Fin ht) ∧
    imageTop st = Fin y ∧
    wd * h == ht * w ∧
    0 < wd ∧ 0 < ht ∧
    20 <= x ∧ x + wd <= 190 ∧ y + ht <= 277 ∧
    2 * x + wd == 210 ∧
    (wd == 170 ∨ y + ht == 277).
Proof.
  intros Hw Hh.
  unfold imagePlacement. cbv zeta.
  assert (Hh0 : ¬ h == 0) by lra.
  rewrite (ndiv_fin w h Hh0).
  assert (Hr : 0 < w / h) by (apply Qlt_shift_div_l; lra).
  assert (Hr0 : ¬ w / h == 0) by lra.
  change contentWidth with (Fin 170).
  rewrite (ndiv_fin 170 (w / h) Hr0).
  assert (Hk : 170 / (w / h) * (w / h) == 170) by (field; lra).
  assert (Hwh : w / h * h == w) by (field; lra).
  set (r := w / h) in *. set (k := 170 / r) in *.
  assert (Hk0 : 0 < k) by nra.
  clearbody k. clearbody r.
  destruct (imageTop_cases st) as [[-> ->]|[-> ->]];
    unfold ngt, nlt, margin, num; cbn [nmul nsub nadd nneg fst snd];
    match goal with
    | |- context [Qlt_b ?m k] =>
        destruct (Qlt_b m k) eqn:E;
        [apply Qlt_b_true in E | apply Qlt_b_false in E]
    end; cbn [fst snd nsub nadd nneg];
    rewrite ndiv_fin by (cbv; discriminate);
    eexists _, _, _, _; (split; [reflexivity|]); (split; [reflexivity|]).
  - assert (Hfit : 229 * r < 170) by nra.
    change (inject_Z 20) with 20. unfold Qdiv.
    change (/ inject_Z 2) with (1 # 2).
    repeat (match goal with |- _ ∧ _ => split end); first [lra | nra].
  - change (inject_Z 20) with 20. unfold Qdiv.
    change (/ inject_Z 2) with (1 # 2).
    repeat (match goal with |- _ ∧ _ => split end); first [lra | nra].
  - assert (Hfit : 223 * r < 170) by nra.
    change (inject_Z 20) with 20. unfold Qdiv.
    change (/ inject_Z 2) with (1 # 2).
    repeat (match goal with |- _ ∧ _ => split end); first [lra | nra].
  - change (inject_Z 20) with 20. unfold Qdiv.
    change (/ inject_Z 2) with (1 # 2).
    repeat (match goal with |- _ ∧ _ => split end); first [lra | nra].
Qed.

Lemma pagesFrom_pageNumbers (shouldIncludePanel6 : bool)
    (panelContent : nat → option (list (option Capture)))
    (panels : list nat) (currentPageNumber : nat) :
  pageNumber
  <$> pagesFrom shouldIncludePanel6 panelContent panels currentPageNumber
  = seq currentPageNumber
      (length (pagesFrom shouldIncludePanel6 panelContent panels
                 currentPageNumber)).
Proof.
  revert currentPageNumber.
  induction panels as [|n rest IH]; intros currentPageNumber; [reflexivity|].
  cbn [pagesFrom]. cbv zeta.
  rewrite fmap_app, length_app, seq_app, IH, length_imap.
  f_equal. rewrite fmap_imap.
  rewrite <- (list_fmap_id (seq _ _)), <- imap_seq.
  apply imap_ext. reflexivity.
Qed.

(** X20.  The page numbers printed on the pages of a report are
    consecutive and start at 2, the cover page being page 1: a panel
    without a captured section takes no number. *)
Theorem reportPages_numbered (includePanel6 panel6Enabled : bool)
    (panelContent : nat → option (list (option Capture))) :
  pageNumber <$> reportPages includePanel6 panel6Enabled panelContent
  = seq 2 (length (reportPages includePanel6 panel6Enabled panelContent)).
Proof.
  unfold reportPages. cbv zeta.
  apply pagesFrom_pageNumbers.
Qed.

Lemma elem_of_pagesFrom (shouldIncludePanel6 : bool)
    (panelContent : nat → option (list (option Capture)))
    (panels : list nat) (currentPageNumber : nat) (page : Page) :
  page ∈ pagesFrom shouldIncludePanel6 panelContent panels currentPageNumber →
  panelNumber page ∈ panels ∧
  panelTitle page = panelTitles shouldIncludePanel6 (panelNumber page) ∧
  ∃ (panelSections : list (option Capture)) (c : Capture)
    (size : number * number),
    panelContent (panelNumber page) = Some panelSections ∧
    Some c ∈ panelSections ∧ canvas c = Some size ∧
    pageSectionTitle page = sectionTitle c ∧
    placement page = imagePlacement size.1 size.2 (sectionTitle c).
Proof.
  revert currentPageNumber.
  induction panels as [|n rest IH]; intros currentPageNumber Hin.
  - cbn in Hin. apply elem_of_nil in Hin. contradiction.
  - cbn [pagesFrom] in Hin. cbv zeta in Hin.
    apply elem_of_app in Hin as [Hin|Hin].
    + apply elem_of_lookup_imap in Hin as (i & section & -> & Hi).
      cbn [panelNumber panelTitle pageSectionTitle placement].
      split; [left|]. split; [reflexivity|].
      destruct (panelContent n) as [panelSections|];
        [|rewrite lookup_nil in Hi; discriminate].
      apply list_elem_of_lookup_2 in Hi.
      unfold validSections in Hi.
      apply list_elem_of_omap in Hi as (o & Ho & Hsec).
      destruct o as [c|]; [|discriminate].
      cbn in Hsec. destruct (canvas c) as [size|] eqn:Hc; [|discriminate].
      cbn in Hsec. injection Hsec as <-.
      exists panelSections, c, size. cbn [fst snd]. auto.
    + destruct (IH _ Hin) as (Hp & Ht & Hex).
      split; [right; exact Hp|]. split; [exact Ht | exact Hex].
Qed.

(** X21.  Every page of a report after the cover belongs to one of the
    panels 1 to 5, or to panel 6 when the caller asks for it and panel 6
    is enabled, and never to panel 6 otherwise; it carries the title of
    that panel and shows a section that was captured with a canvas. *)
Theorem reportPages_panels (includePanel6 panel6Enabled : bool)
    (panelContent : nat → option (list (option Capture))) (page : Page) :
  page ∈ reportPages includePanel6 panel6Enabled panelContent →
  (1 ≤ panelNumber page)%nat ∧
  (panelNumber page ≤ if includePanel6 && panel6Enabled then 6 else 5)%nat ∧
  is_Some (panelTitle page) ∧
  ∃ (panelSections : list (option Capture)) (c : Capture)
    (size : number * number),
    panelContent (panelNumber page) = Some panelSections ∧
    Some c ∈ panelSections ∧ canvas c = Some size ∧
    pageSectionTitle page = sectionTitle c ∧
    placement page = imagePlacement size.1 size.2 (sectionTitle c).
Proof.
  unfold reportPages. cbv zeta. intros Hin.
  apply elem_of_pagesFrom in Hin as (Hp & Ht & Hex).
  apply elem_of_seq in Hp.
  split; [lia|]. split; [destruct (includePanel6 && panel6Enabled); lia|].
  split; [|exact Hex].
  rewrite Ht. clear Ht Hex. revert Hp.
  generalize (panelNumber page). intros pn Hp.
  destruct (includePanel6 && panel6Enabled);
    do 7 (destruct pn as [|pn];
          [first [lia | eexists; reflexivity]|]); lia.
Qed.

End Report.

(** ** Attribution of a stage to the tools *)

Section Shares.

Import Panels.

Local Open Scope Q_scope.

Context {A : Type} (contribution : A → number).
Hypothesis contribution_fin :
  ∀ x, ∃ c, contribution x = Fin c ∧ 0 <= c.

Lemma sum_contributions (l : list A) (a : Q) :
  ∃ t, foldl (λ sum x, nadd sum (contribution x)) (Fin a) l = Fin t ∧ a <= t.
Proof.
  revert a. induction l as [|x l IH]; intros a.
  - exists a. split; [reflexivity | lra].
  - destruct (contribution_fin x) as (c & Hc & Hc0).
    destruct (IH (a + c)) as (t & Ht & Hle).
    exists t. cbn [foldl]. rewrite Hc. cbn [nadd]. split; [exact Ht | lra].
Qed.

(** With a total above zero, the shares given out over a list are to
    the stage as the contributions of the list are to the total. *)
Lemma shares_of_total (r total : Q) (l : list A) (a b : Q) :
  0 < total →
  ∃ t u,
    foldl (λ sum x, nadd sum (contribution x)) (Fin a) l = Fin t ∧
    foldl (λ sum x,
             nadd sum (nmul (Fin r) (ndiv (contribution x) (Fin total))))
          (Fin b) l = Fin u ∧
    (u - b) * total == r * (t - a).
Proof.
  intros Htotal. revert a b. induction l as [|x l IH]; intros a b.
  - exists a, b. repeat split; ring.
  - destruct (contribution_fin x) as (c & Hc & Hc0).
    destruct (IH (a + c) (b + r * (c / total))) as (t & u & Ht & Hu & Heq).
    exists t, u. cbn [foldl]. rewrite Hc.
    rewrite ndiv_fin by lra. cbn [nadd nmul].
    split; [exact Ht|]. split; [exact Hu|].
    assert (Hc' : c / total * total == c) by (field; lra).
    nra.
Qed.

(** Without a total, every entry is given the same share. *)
Lemma shares_equal (r : Q) (n : nat) (l : list A) (b : Q) :
  (0 < n)%nat →
  ∃ u,
    foldl (λ (sum : number) (_ : A),
             nadd sum (nmul (Fin r) (ndiv (num 1) (num (Z.of_nat n)))))
          (Fin b) l = Fin u ∧
    (u - b) * inject_Z (Z.of_nat n)
    == r * inject_Z (Z.of_nat (length l)).
Proof.
  intros Hn.
  assert (Hn0 : 0 < inject_Z (Z.of_nat n)).
  { change 0 with (inject_Z 0). rewrite <- Zlt_Qlt. lia. }
  assert (Hshare :
            nmul (Fin r) (ndiv (num 1) (num (Z.of_nat n)))
            = Fin (r * (1 / inject_Z (Z.of_nat n)))).
  { unfold num. rewrite ndiv_fin by lra. reflexivity. }
  rewrite Hshare.
  assert (H1 : r * (1 / inject_Z (Z.of_nat n)) * inject_Z (Z.of_nat n) == r)
    by (field; lra).
  set (k := 1 / inject_Z (Z.of_nat n)) in *. clearbody k.
  revert b. induction l as [|x l IH]; intros b.
  - exists b. split; [reflexivity|]. cbn [length]. change (inject_Z 0) with 0.
    ring.
  - destruct (IH (b + r * k)) as (u & Hu & Heq).
    exists u. cbn [foldl nadd]. split; [exact Hu|].
    cbn [length]. rewrite Nat2Z.inj_succ. unfold Z.succ.
    rewrite inject_Z_plus. change (inject_Z 1) with 1. nra.
Qed.

(** The risk points given to the entries of a list that is not empty
    add up to the reduction of the stage. *)
Lemma stage_shared_out (r : Q) (l : list A) :
  l ≠ [] →
  same
    (foldl (λ sum x,
              nadd sum
                (nmul (Fin r)
                   (stageShareOf (contribution x) (sumOf contribution l)
                      (length l))))
           (num 0) l)
    (Fin r).
Proof.
  intros Hl. unfold sumOf, num.
  destruct (sum_contributions l (inject_Z 0)) as (t & Ht & Ht0).
  rewrite Ht. unfold stageShareOf, ngt, nlt, num.
  change (inject_Z 0) with 0 in *.
  destruct (Qlt_b 0 t) eqn:E.
  - apply Qlt_b_true in E.
    destruct (shares_of_total r t l 0 0 E) as (t' & u & Ht' & Hu & Heq).
    rewrite Ht in Ht'. injection Ht' as <-.
    rewrite Hu. cbn [same]. nra.
  - assert (Hn : (0 < length l)%nat) by (destruct l; [congruence | cbn; lia]).
    apply Nat.ltb_lt in Hn as Hb. rewrite Hb.
    destruct (shares_equal r (length l) l 0 Hn) as (u & Hu & Heq).
    unfold num in Hu. rewrite Hu. cbn [same].
    assert (Hn0 : 0 < inject_Z (Z.of_nat (length l))).
    { change 0 with (inject_Z 0). rewrite <- Zlt_Qlt. lia. }
    nra.
Qed.

End Shares.

Section Attribution.

Import Panels.

Local Open Scope Q_scope.

Lemma contributionOf_fin (v : jsval) :
  ∃ c, contributionOf v = Fin c ∧ 0 <= c.
Proof.
  unfold contributionOf, ensureNumber, num. change (inject_Z 0) with 0.
  destruct v as [[q| | |]| | |]; cbn [isFiniteNum];
    try (exists 0; split; [reflexivity | lra]).
  rewrite nmax_fin.
  destruct (Qlt_b 0 q) eqn:E; eexists; (split; [reflexivity|]);
    [apply Qlt_b_true in E|]; lra.
Qed.

(** X22.  The risk points that the final results panel attributes to
    the detection tools add up to the reduction of the detection stage,
    whatever contributions the summary reports, as long as it lists a
    tool: with contributions above zero each tool gets its part of
    their total, without any every tool gets the same part. *)
Theorem detection_attribution_complete (r : Q) (totalReduction : number)
    (strategies : list (option StrategyEntry)) :
  strategies ≠ [] →
  same
    (sumOf dr_riskPoints
       (detectionBreakdown (Fin r) totalReduction strategies))
    (Fin r).
Proof.
  intros Hne. unfold detectionBreakdown, sumOf at 1. cbv zeta.
  rewrite foldl_fmap. cbn [dr_riskPoints].
  apply (stage_shared_out
           (λ strategy, contributionOf (entryMember strategy se_contribution))).
  - intros x. apply contributionOf_fin.
  - exact Hne.
Qed.

(** X23.  The same holds of the remedy and conduct stages when the
    summary reports no contribution above zero for the stage, so that
    the total is taken over the details: the risk points of the details
    add up to the reduction of the stage. *)
Theorem detail_attribution_complete (r : Q) (totalReduction : number)
    (reported : jsval) (details : list (option DetailEntry)) :
  details ≠ [] →
  ngt (ensureNumber reported (num 0)) (num 0) = false →
  same
    (sumOf tr_riskPoints
       (detailBreakdown (Fin r) totalReduction reported details))
    (Fin r).
Proof.
  intros Hne Hrep. unfold detailBreakdown, totalContribution, sumOf at 1.
  cbv zeta. rewrite Hrep.
  rewrite foldl_fmap. cbn [tr_riskPoints].
  apply (stage_shared_out
           (λ detail, contributionOf (entryMember detail de_weightedEffect))).
  - intros x. apply contributionOf_fin.
  - exact Hne.
Qed.

(** A contribution reported above the sum of the details leaves part of
    the stage with no tool. *)
Example detail_attribution_partial :
  sumOf tr_riskPoints
    (detailBreakdown (Fin 4) (Fin 4) (JNum (Fin 10))
       [Some (mkDetailEntry None JUndefined JUndefined (JNum (Fin 5)))])
  = Fin (0 + 4 * (5 / 10)).
Proof. reflexivity. Qed.

End Attribution.

(** ** Figures of the cost-analysis panel *)

Section Figures.

Import Panels Spec.

Local Open Scope Q_scope.

Lemma normalizeRiskValue_finite (value : jsval) (fallback : number) :
  isFiniteNum fallback = true →
  isFiniteNum (normalizeRiskValue value fallback) = true.
Proof.
  intros H. unfold normalizeRiskValue.
  destruct value as [[q| | |]| | |]; cbn [isFiniteNum]; first [exact H | reflexivity].
Qed.

Lemma normalizeRiskValue_number (q : Q) (fallback : number) :
  normalizeRiskValue (JNum (Fin q)) fallback = Fin q.
Proof. reflexivity. Qed.

(** X24.  The three risk levels of the cost-analysis panel are finite
    numbers whatever the application and the optimizer hand over: a
    level that is missing or not finite is replaced, the baseline by
    the optimizer's or by 1, the managed risk by the optimizer's or by
    the baseline, the optimized risk by the managed risk.  A finite
    baseline or managed risk of the application is shown as it is. *)
Theorem riskFigures_finite (baselineRisk managedRisk : jsval)
    (optimization : option Engine.OptimizationResult) :
  let figures := riskFigures baselineRisk managedRisk optimization in
  isFiniteNum (baselineRiskValue figures) = true ∧
  isFiniteNum (managedRiskValue figures) = true ∧
  isFiniteNum (optimizedRiskValue figures) = true ∧
  (∀ q, baselineRisk = JNum (Fin q) → baselineRiskValue figures = Fin q) ∧
  (∀ q, managedRisk = JNum (Fin q) → managedRiskValue figures = Fin q) ∧
  (isFinite managedRisk = false →
   isFinite (optMember optimization Engine.currentManagedRisk) = false →
   managedRiskValue figures = baselineRiskValue figures) ∧
  (isFinite (optMember optimization Engine.optimizedManagedRisk) = false →
   optimizedRiskValue figures = managedRiskValue figures).
Proof.
  intros figures. subst figures. unfold riskFigures. cbv zeta.
  cbn [baselineRiskValue managedRiskValue optimizedRiskValue].
  assert (Hb : isFiniteNum
                 (normalizeRiskValue baselineRisk
                    (normalizeRiskValue
                       (optMember optimization Engine.optBaselineRisk)
                       (num 1))) = true)
    by (do 2 apply normalizeRiskValue_finite; reflexivity).
  assert (Hm : isFiniteNum
                 (normalizeRiskValue managedRisk
                    (normalizeRiskValue
                       (optMember optimization Engine.currentManagedRisk)
                       (normalizeRiskValue baselineRisk
                          (normalizeRiskValue
                             (optMember optimization Engine.optBaselineRisk)
                             (num 1))))) = true)
    by (do 2 apply normalizeRiskValue_finite; exact Hb).
  split; [exact Hb|]. split; [exact Hm|].
  split; [apply normalizeRiskValue_finite, Hm|].
  split; [intros q ->; reflexivity|].
  split; [intros q ->; reflexivity|].
  split.
  - intros H1 H2. unfold normalizeRiskValue at 1.
    destruct managedRisk as [[q| | |]| | |]; try discriminate;
      unfold normalizeRiskValue at 1;
      destruct (optMember optimization Engine.currentManagedRisk)
        as [[q| | |]| | |];
      try discriminate; reflexivity.
  - intros H. unfold normalizeRiskValue at 1.
    destruct (optMember optimization Engine.optimizedManagedRisk)
      as [[q| | |]| | |]; try discriminate; reflexivity.
Qed.

Lemma calculateEffectiveness_finite (b m : Q) :
  isFiniteNum (calculateEffectiveness (Fin b) (Fin m)) = true.
Proof.
  unfold calculateEffectiveness, neqb, num.
  destruct (Qeq_bool b (inject_Z 0)) eqn:E; cbn [negb]; [reflexivity|].
  apply Qeq_bool_false in E. cbn [nsub nneg nadd].
  rewrite ndiv_fin by exact E. reflexivity.
Qed.

Lemma calculateEffectiveness_within (b m : Q) :
  0 < b → 0 <= m → m <= b →
  within 0 100 (calculateEffectiveness (Fin b) (Fin m)).
Proof.
  intros Hb Hm Hmb. unfold calculateEffectiveness, neqb, num.
  change (inject_Z 0) with 0.
  assert (E : Qeq_bool b 0 = false) by (apply Qeq_bool_false; lra).
  rewrite E. cbn [negb nsub nneg nadd]. rewrite ndiv_fin by lra.
  cbn [nmul within]. change (inject_Z 100) with 100.
  assert (Hd : (b + - m) / b * b == b + - m) by (field; lra).
  set (d := (b + - m) / b) in *. clearbody d.
  split; nra.
Qed.

(** X25.  The effectiveness percentages of the optimisation summary are
    finite numbers for every input, a baseline of 0 giving 0; and with a
    managed risk between 0 and a baseline above 0 the percentage lies
    between 0 and 100. *)
Theorem effectivenessFigures_in_range (baselineRisk managedRisk : jsval)
    (optimization : Engine.OptimizationResult) :
  let figures := effectivenessFigures baselineRisk managedRisk optimization in
  isFiniteNum (currentEffectivenessValue figures) = true ∧
  isFiniteNum (optimizedEffectivenessValue figures) = true ∧
  (∀ b m, currentBaselineRisk figures = Fin b →
          currentManagedRiskValue figures = Fin m →
          0 < b → 0 <= m → m <= b →
          within 0 100 (currentEffectivenessValue figures)) ∧
  (∀ b m, optimizedBaselineRisk figures = Fin b →
          optimizedManagedRiskValue figures = Fin m →
          0 < b → 0 <= m → m <= b →
          within 0 100 (optimizedEffectivenessValue figures)).
Proof.
  intros figures. subst figures. unfold effectivenessFigures. cbv zeta.
  cbn [currentEffectivenessValue optimizedEffectivenessValue
       currentBaselineRisk currentManagedRiskValue optimizedBaselineRisk
       optimizedManagedRiskValue].
  set (cb := normalizeRiskValue baselineRisk _).
  set (cm := normalizeRiskValue managedRisk _).
  set (ob := normalizeRiskValue (Engine.optBaselineRisk optimization) cb).
  set (om := normalizeRiskValue (Engine.optimizedManagedRisk optimization) cm).
  assert (Hcb : isFiniteNum cb = true)
    by (do 2 apply normalizeRiskValue_finite; reflexivity).
  assert (Hcm : isFiniteNum cm = true)
    by (do 2 apply normalizeRiskValue_finite; reflexivity).
  assert (Hob : isFiniteNum ob = true)
    by (apply normalizeRiskValue_finite, Hcb).
  assert (Hom : isFiniteNum om = true)
    by (apply normalizeRiskValue_finite, Hcm).
  clearbody cb cm ob om.
  destruct cb as [b| | |]; try discriminate.
  destruct cm as [m| | |]; try discriminate.
  destruct ob as [b'| | |]; try discriminate.
  destruct om as [m'| | |]; try discriminate.
  split; [apply calculateEffectiveness_finite|].
  split; [apply calculateEffectiveness_finite|].
  split; intros x y [= <-] [= <-]; apply calculateEffectiveness_within.
Qed.

End Figures.

(** ** Rows from the engine's deployments *)

Section Deployments.

Import Panels Spec.

Local Open Scope Q_scope.








End Deployments.

(** ** The social-audit cost reduction *)

Section Reduction.

Import Panels Spec.

Local Open Scope Q_scope.

Lemma nonNegativeArray_finite (l : list jsval) :
  nonNegativeArray l → finiteArray l.
Proof.
  unfold nonNegativeArray, finiteArray. intros H.
  eapply Forall_impl; [exact H|].
  intros v (q & -> & _). reflexivity.
Qed.

Lemma costContext_finite (ctx : BreakdownContext) :
  costContext ctx → finiteContext ctx.
Proof.
  intros [(n & Hn & _) (h & Hh & _) Hk Ha Hp Hd Hr].
  unfold finiteContext. rewrite Hn, Hh.
  destruct (socialAuditReductionFactor ctx); try contradiction.
  repeat split; try reflexivity; apply nonNegativeArray_finite; assumption.
Qed.

Lemma orZero_nonNegative (l : list jsval) (i : nat) (q : Q) :
  nonNegativeArray l → orZero (index l i) = Fin q → 0 <= q.
Proof.
  intros Hl. unfold index.
  destruct (l !! i) as [v|] eqn:E; cbn [default from_option id].
  - destruct (proj1 (Forall_lookup _ l) Hl i v E) as (x & -> & Hx).
    unfold orZero. cbn [truthy ntruthy toNumber id].
    destruct (negb (Qeq_bool x 0)); intros [= <-]; [exact Hx|].
    change (inject_Z 0) with 0. lra.
  - unfold orZero. cbn [truthy]. intros [= <-].
    change (inject_Z 0) with 0. lra.
Qed.

Lemma coverageRatio_range (c : Q) :
  0 <= coverageRatio c ∧ coverageRatio c <= 1.
Proof.
  unfold coverageRatio.
  destruct (Qlt_b c 0) eqn:E0; [lra|]. apply Qlt_b_false in E0.
  destruct (Qlt_b 100 c) eqn:E1; [lra|]. apply Qlt_b_false in E1.
  assert (H : c / 100 * 100 == c) by (field; lra).
  set (x := c / 100) in *. clearbody x. lra.
Qed.

Lemma suppliersUsingTool_nonNegative (n c : Q) :
  0 <= n → 0 <= inject_Z (Spec.suppliersUsingTool n c).
Proof.
  intros Hn. unfold Spec.suppliersUsingTool.
  destruct (coverageRatio_range c) as [H0 H1].
  assert (Hp : 0 <= n * coverageRatio c) by nra.
  change 0 with (inject_Z 0). rewrite <- Zle_Qle.
  apply Qceiling_resp_le in Hp. exact Hp.
Qed.

Lemma reductionFactorAt_range (ctx : BreakdownContext) (reduce : bool)
    (i : nat) (k : Q) :
  costContext ctx → reductionFactorAt ctx reduce i = Fin k →
  0 <= k ∧ k <= 1.
Proof.
  intros Hctx. unfold reductionFactorAt.
  destruct (reduce && socialAuditTool ctx i).
  - intros E. pose proof (cost_factor ctx Hctx) as Hk. rewrite E in Hk.
    exact Hk.
  - intros [= <-]. change (inject_Z 1) with 1. lra.
Qed.

(** The cost of a row under the reduction is not negative and not
    above the cost of the row without it. *)
Lemma buildRow_reduction (ctx : BreakdownContext) (allocation : list jsval)
    (label : string) (i : nat) :
  costContext ctx →
  ∃ x y : Q,
    totalCost (buildRow ctx allocation true label i) = Fin x ∧
    totalCost (buildRow ctx allocation false label i) = Fin y ∧
    0 <= x ∧ x <= y.
Proof.
  intros Hctx. pose proof (costContext_finite ctx Hctx) as Hfin.
  destruct (buildRow_formulas ctx allocation true label i Hfin)
    as (n & h & c & a & p & d & r & k & En & Eh & Ec & Ea & Ep & Ed & Er
        & Ek & Hrow).
  destruct (buildRow_formulas ctx allocation false label i Hfin)
    as (n' & h' & c' & a' & p' & d' & r' & k' & En' & Eh' & Ec' & Ea' & Ep'
        & Ed' & Er' & Ek' & Hrow').
  cbv zeta in Hrow, Hrow'.
  destruct Hrow as (_ & _ & _ & _ & _ & _ & _ & Htot).
  destruct Hrow' as (_ & _ & _ & _ & _ & _ & _ & Htot').
  rewrite En in En'. injection En' as <-.
  rewrite Eh in Eh'. injection Eh' as <-.
  rewrite Ec in Ec'. injection Ec' as <-.
  rewrite Ea in Ea'. injection Ea' as <-.
  rewrite Ep in Ep'. injection Ep' as <-.
  rewrite Ed in Ed'. injection Ed' as <-.
  rewrite Er in Er'. injection Er' as <-.
  destruct (reductionFactorAt_range ctx true i k Hctx Ek) as [Hk0 Hk1].
  unfold reductionFactorAt in Ek'. cbn [andb] in Ek'.
  injection Ek' as <-. change (inject_Z 1) with 1 in Htot'.
  destruct (cost_supplierCount ctx Hctx) as (n0 & En0 & Hn).
  rewrite En in En0. injection En0 as <-.
  destruct (cost_hourlyRate ctx Hctx) as (h0 & Eh0 & Hh).
  rewrite Eh in Eh0. injection Eh0 as <-.
  pose proof (orZero_nonNegative _ i a (cost_annual ctx Hctx) Ea) as Ha.
  pose proof (orZero_nonNegative _ i p (cost_perSupplier ctx Hctx) Ep) as Hp.
  pose proof (orZero_nonNegative _ i d (cost_internalHours ctx Hctx) Ed) as Hd.
  pose proof (orZero_nonNegative _ i r (cost_remedyHours ctx Hctx) Er) as Hr.
  pose proof (suppliersUsingTool_nonNegative n c Hn) as Hs.
  destruct (coverageRatio_range c) as [Hρ0 Hρ1].
  unfold is_q in Htot, Htot'.
  destruct (totalCost (buildRow ctx allocation true label i)) as [x| | |];
    try contradiction.
  destruct (totalCost (buildRow ctx allocation false label i)) as [y| | |];
    try contradiction.
  cbn [same] in Htot, Htot'. exists x, y.
  split; [reflexivity|]. split; [reflexivity|].
  unfold externalCost, internalCost in Htot, Htot'.
  set (S := inject_Z (Spec.suppliersUsingTool n c)) in *. clearbody S.
  set (ρ := coverageRatio c) in *. clearbody ρ.
  assert (Haρ : 0 <= a * ρ) by nra.
  assert (HSp : 0 <= S * p) by nra.
  assert (HSd : 0 <= S * d) by nra.
  assert (HSr : 0 <= S * r) by nra.
  assert (HSdh : 0 <= S * d * h) by nra.
  assert (HSrh : 0 <= S * r * h) by nra.
  split; nra.
Qed.

Lemma toolTotal_le (f g : nat → string → ToolRow) (labels : list string)
    (acc acc' : Q) :
  (∀ i l, ∃ x y : Q,
     totalCost (f i l) = Fin x ∧ totalCost (g i l) = Fin y ∧
     0 <= x ∧ x <= y) →
  0 <= acc → acc <= acc' →
  ∃ X Y : Q,
    foldl (λ sum tool, nadd sum (totalCost tool)) (Fin acc) (imap f labels)
    = Fin X ∧
    foldl (λ sum tool, nadd sum (totalCost tool)) (Fin acc') (imap g labels)
    = Fin Y ∧
    0 <= X ∧ X <= Y.
Proof.
  revert f g acc acc'.
  induction labels as [|label labels IH]; intros f g acc acc' Hrows H0 Hle.
  - exists acc, acc'. repeat split; assumption.
  - rewrite !imap_cons. cbn [foldl].
    destruct (Hrows 0%nat label) as (x & y & -> & -> & Hx & Hxy).
    cbn [nadd].
    apply IH; [|lra|lra].
    intros i l. apply (Hrows (S i) l).
Qed.

(** X27.  With sanitized cost assumptions, applying the social-audit
    cost reduction never makes the budget higher: the rows of tools
    that are not audit tools are the same with and without it, no row
    costs more with it, and the total with it is not negative and not
    above the total without it. *)
Theorem social_audit_reduction_lowers_cost (ctx : BreakdownContext)
    (allocation : list jsval) :
  costContext ctx →
  let reduced := buildBreakdown ctx allocation true in
  let full := buildBreakdown ctx allocation false in
  (∀ i, socialAuditTool ctx i = false → reduced !! i = full !! i) ∧
  (∀ i row row', reduced !! i = Some row → full !! i = Some row' →
     nle (totalCost row) (totalCost row') = true) ∧
  nle (num 0) (toolTotal reduced) = true ∧
  nle (toolTotal reduced) (toolTotal full) = true.
Proof.
  intros Hctx reduced full. subst reduced full. unfold buildBreakdown.
  split; [|split].
  - intros i Haudit. rewrite !list_lookup_imap.
    destruct (hrddStrategyLabels ctx !! i) as [label|]; [|reflexivity].
    cbn [fmap option_fmap option_map]. f_equal.
    unfold buildRow. rewrite Haudit. reflexivity.
  - intros i row row'. rewrite !list_lookup_imap.
    destruct (hrddStrategyLabels ctx !! i) as [label|]; [|discriminate].
    cbn [fmap option_fmap option_map]. intros [= <-] [= <-].
    destruct (buildRow_reduction ctx allocation label i Hctx)
      as (x & y & -> & -> & _ & Hxy).
    apply nle_fin. exact Hxy.
  - unfold toolTotal, num. change (inject_Z 0) with 0.
    destruct (toolTotal_le
                (λ i label, buildRow ctx allocation true label i)
                (λ i label, buildRow ctx allocation false label i)
                (hrddStrategyLabels ctx) 0 0)
      as (X & Y & -> & -> & HX & HXY); [|lra|lra|].
    + intros i l. apply buildRow_reduction, Hctx.
    + split; apply nle_fin; assumption.
Qed.

(** The contexts [renderDetailedBudgetBreakdown] builds are of this
    kind whenever the supplier count and hourly rate it derives are
    finite and the assumptions it is given are finite and not
    negative: the reduction factor then is within [0, 1] whatever the
    optimizer reports. *)
Lemma breakdownContext_costContext (eng : Engine.t)
    (budgetData : option BudgetData)
    (optimization : Engine.OptimizationResult)
    (supplierCountArg hourlyRateArg : jsval)
    (annual perSupplier hours remedy : option (list jsval)) :
  let ctx :=
    breakdownContext eng budgetData optimization supplierCountArg
      hourlyRateArg annual perSupplier hours remedy in
  isFiniteNum (safeSupplierCount ctx) = true →
  isFiniteNum (safeHourlyRate ctx) = true →
  nonNegativeArray (default [] annual) →
  nonNegativeArray (default [] perSupplier) →
  nonNegativeArray (default [] hours) →
  nonNegativeArray (default [] remedy) →
  costContext ctx.
Proof.
  intros ctx Hn Hh Ha Hp Hd Hr. subst ctx.
  constructor; try assumption;
    cbn [breakdownContext safeSupplierCount safeHourlyRate
         socialAuditReductionFactor] in *.
  - match type of Hn with
    | isFiniteNum (nmax _ ?v) = true => destruct v as [x| | |]
    end; try discriminate.
    + unfold num. rewrite nmax_fin. eexists. split; [reflexivity|].
      change (inject_Z 1) with 1. destruct (Qlt_b 1 x) eqn:E; [|lra].
      apply Qlt_b_true in E. lra.
    + exists 1. split; [reflexivity | lra].
  - match type of Hh with
    | isFiniteNum (nmax _ ?v) = true => destruct v as [x| | |]
    end; try discriminate.
    + unfold num. rewrite nmax_fin. eexists. split; [reflexivity|].
      change (inject_Z 0) with 0. destruct (Qlt_b 0 x) eqn:E; [|lra].
      apply Qlt_b_true in E. lra.
    + exists 0. split; [reflexivity | lra].
  - destruct (truthy (Engine.socialAuditConstraintEnforced optimization));
      [|split; apply Qle_bool_iff; reflexivity].
    assert (Hred : within 0 100 (socialAuditReduction budgetData optimization)).
    { unfold socialAuditReduction.
      destruct (truthy (Engine.socialAuditConstraintEnforced optimization));
        [|split; apply Qle_bool_iff; reflexivity].
      destruct (Engine.socialAuditCostReductionApplied optimization)
        as [[x| | |]| | |]; cbn [isFinite isFiniteNum toNumber];
        try (apply (clamp_within 0 100 x); lra);
        destruct (match budgetData with
                  | Some b => socialAuditCostReduction b
                  | None => JUndefined
                  end) as [[y| | |]| | |];
        cbn [isFinite isFiniteNum toNumber];
        first [ apply (clamp_within 0 100 y); lra
              | split; apply Qle_bool_iff; reflexivity ]. }
    destruct (socialAuditReduction budgetData optimization) as [x| | |];
      try contradiction.
    cbn [within] in Hred. unfold num. rewrite ndiv_fin by (cbv; discriminate).
    cbn [nsub nneg nadd]. rewrite nmax_fin.
    change (inject_Z 0) with 0. change (inject_Z 1) with 1.
    change (inject_Z 100) with 100.
    assert (Hx : x / 100 * 100 == x) by (field; lra).
    set (z := x / 100) in *. clearbody z. cbn [within].
    destruct (Qlt_b 0 (1 + - z)) eqn:E; [apply Qlt_b_true in E|]; lra.
Qed.

Lemma demoContext_cost : costContext demoContext.
Proof.
  constructor; cbn.
  - eexists; split; [reflexivity | apply Qle_bool_iff; reflexivity].
  - eexists; split; [reflexivity | apply Qle_bool_iff; reflexivity].
  - split; apply Qle_bool_iff; reflexivity.
  - repeat (constructor;
            [eexists; split; [reflexivity | apply Qle_bool_iff; reflexivity]|]).
    constructor.
  - repeat (constructor;
            [eexists; split; [reflexivity | apply Qle_bool_iff; reflexivity]|]).
    constructor.
  - repeat (constructor;
            [eexists; split; [reflexivity | apply Qle_bool_iff; reflexivity]|]).
    constructor.
  - repeat (constructor;
            [eexists; split; [reflexivity | apply Qle_bool_iff; reflexivity]|]).
    constructor.
Qed.

(** The default assumptions with audit costs halved, every tool at a
    coverage of 50. *)
Lemma social_audit_reduction_lowers_cost_witness :
  let allocation := jnums [50; 50; 50; 50; 50; 50]%Z in
  nle (toolTotal (buildBreakdown demoContext allocation true))
      (toolTotal (buildBreakdown demoContext allocation false)) = true.
Proof.
  intros allocation.
  destruct (social_audit_reduction_lowers_cost demoContext allocation
              demoContext_cost) as (_ & _ & _ & Hle).
  exact Hle.
Defined.

End Reduction.

(** ** The properties on concrete sessions *)

Section SessionInstances.

Import AppController Spec.

Local Open Scope Q_scope.


(** Removing "bgd" from the session that has it. *)
Lemma removeCountry_removes_witness :
  let s :=
    addCountry demoEngine "t" "BGD" (Some (JNum (num 30)))
      (initialState demoEngine) in
  countryVolumes (removeCountry demoEngine "u" "bgd" s) !! "BGD"%string = None.
Proof.
  intros s.
  destruct (removeCountry_removes demoEngine "u" "bgd" s) as (Hvol & _);
    [reflexivity|].
  exact Hvol.
Defined.

(** Clicking a country of a new session twice. *)
Lemma onCountrySelect_toggle_twice_witness :
  let s1 :=
    onCountrySelect demoEngine "t" (SelString "bgd") (initialState demoEngine) in
  let s2 := onCountrySelect demoEngine "u" (SelString "bgd") s1 in
  selectedCountries s1 = ["BGD"%string] ∧ selectedCountries s2 = [].
Proof.
  intros s1 s2.
  destruct (onCountrySelect_toggle_twice demoEngine "t" "u" "bgd"
              (initialState demoEngine)) as (H1 & H2 & _).
  - reflexivity.
  - cbn. apply not_elem_of_nil.
  - split; [exact H1 | exact H2].
Defined.

(** Changing the hourly rate of a new session. *)
Lemma cost_change_discards_optimisation_witness :
  let s := initialState demoEngine in
  let s' := onHourlyRateChange (JNum (num 55)) s in
  selectedCountries s' = selectedCountries s ∧
  currentPanel s' = currentPanel s.
Proof.
  intros s s'.
  destruct (cost_change_discards_optimisation s s')
    as (_ & Hsel & _ & _ & Hpanel); [apply CostHourlyRate|].
  split; [exact Hsel | exact Hpanel].
Defined.

(** Typing an hourly rate and then an annual cost above the cap. *)
Lemma cost_fields_keep_caps_witness :
  costsCapped
    (toolAnnualCostListener 0 (Some 60000)
       (hourlyRateListener (Some 55) (initialState demoEngine))).
Proof.
  apply (cost_fields_keep_caps demoEngine).
  eapply rtc_l; [apply FieldHourlyRate|].
  apply rtc_once. apply FieldAnnual.
Defined.

Lemma initialState_checked : sessionChecked (initialState demoEngine).
Proof.
  constructor; cbn.
  - split; apply Qle_bool_iff; reflexivity.
  - repeat (constructor; [split; apply Qle_bool_iff; reflexivity|]).
    constructor.
  - repeat (constructor; [split; apply Qle_bool_iff; reflexivity|]).
    constructor.
  - repeat (constructor;
            [eexists; split; [reflexivity | apply Qle_bool_iff; reflexivity]|]).
    constructor.
  - repeat (constructor;
            [eexists; split; [reflexivity | apply Qle_bool_iff; reflexivity]|]).
    constructor.
  - repeat (constructor;
            [eexists; split; [reflexivity | apply Qle_bool_iff; reflexivity]|]).
    constructor.
  - repeat (constructor;
            [eexists; split; [reflexivity | apply Qle_bool_iff; reflexivity]|]).
    constructor.
  - constructor.
  - intros k [v Hv]. rewrite lookup_empty in Hv. discriminate.
Qed.

(** Restoring what a new session saves. *)
Lemma restoreState_checks_witness :
  let s := initialState demoEngine in
  sessionChecked (restoreState demoEngine (saveState s).2 s).1.
Proof.
  intros s.
  apply (restoreState_checks demoEngine (saveState s).2 s).
  exact initialState_checked.
Defined.

Lemma initialState_storable : costsStorable (initialState demoEngine).
Proof.
  constructor; cbn.
  - exists 500%Z. split; [reflexivity | lia].
  - eexists; split; [reflexivity | apply Qle_bool_iff; reflexivity].
  - repeat (constructor;
            [eexists; split; [reflexivity | apply Qle_bool_iff; reflexivity]|]).
    constructor.
  - repeat (constructor;
            [eexists; split; [reflexivity | apply Qle_bool_iff; reflexivity]|]).
    constructor.
  - repeat (constructor;
            [eexists; split; [reflexivity | apply Qle_bool_iff; reflexivity]|]).
    constructor.
  - repeat (constructor;
            [eexists; split; [reflexivity | apply Qle_bool_iff; reflexivity]|]).
    constructor.
  - split; apply Qle_bool_iff; reflexivity.
Qed.

(** The cost assumptions of a new session, saved and read back into a
    session whose costs were changed. *)
Lemma save_restore_costs_witness :
  let s := initialState demoEngine in
  let s0 := onHourlyRateChange (JNum (num 55)) s in
  sameCosts (restoreState demoEngine (saveState s).2 s0).1 s.
Proof.
  intros s s0.
  apply (save_restore_costs demoEngine s s0).
  exact initialState_storable.
Defined.


(** A session in which a country was added and the demo data loaded. *)
Lemma session_keeps_volumes_selected_witness :
  volumesSelected
    (loadDemoData demoEngine "u"
       (addCountry demoEngine "t" "bgd" (Some (JNum (num 30)))
          (initialState demoEngine))).
Proof.
  apply (session_keeps_volumes_selected demoEngine).
  eapply rtc_l; [apply SessionHandler, StepAddCountry|].
  apply rtc_once. apply SessionDemo.
Defined.

(** A session given risk figures that are not numbers by [setState]. *)
Lemma session_stays_sound_witness :
  let p :=
    mkPartial None None None None None None None JUndefined JUndefined
      None None None (Some NaN) (Some PosInf) None None None None None
      JUndefined in
  sessionSound demoEngine
    (setState demoEngine "t" (Some p) (initialState demoEngine)).
Proof.
  intros p.
  apply (session_stays_sound demoEngine).
  apply rtc_once. apply ApiSetState.
Defined.

End SessionInstances.

Section ReportInstances.

Import PDFGenerator Panels Spec.

Local Open Scope Q_scope.

(** A canvas of 1200 by 800 under a header without a section title. *)
Lemma imagePlacement_fits_witness :
  ∃ x y wd ht : Q,
    imagePlacement (Fin 1200) (Fin 800) None
    = mkPlacement (Fin x) (Fin y) (Fin wd) (Fin ht) ∧
    wd * 800 == ht * 1200 ∧ x + wd <= 190 ∧ y + ht <= 277.
Proof.
  destruct (imagePlacement_fits 1200 800 None)
    as (x & y & wd & ht & Hp & _ & Hratio & _ & _ & _ & Hright & Hbottom & _);
    [reflexivity | reflexivity |].
  exists x, y, wd, ht. auto.
Defined.

(** A report of which only panel 1 was captured, in one section. *)
Lemma reportPages_panels_witness :
  let panelContent (n : nat) :=
    match n with
    | 1%nat => Some [Some (mkCapture (Some (num 1200, num 800)) None); None]
    | _ => None
    end in
  let page :=
    mkPage 1 (Some "Global Risks"%string) 2 None
      (imagePlacement (num 1200) (num 800) None) in
  (1 ≤ panelNumber page)%nat ∧ (panelNumber page ≤ 5)%nat ∧
  is_Some (panelTitle page).
Proof.
  intros panelContent page.
  destruct (reportPages_panels true false panelContent page)
    as (Hlow & Hhigh & Htitle & _).
  - unfold reportPages. cbn [andb seq pagesFrom]. unfold panelContent.
    cbn [validSections omap list_omap mbind option_bind canvas sectionTitle
         imap length app]. left.
  - split; [exact Hlow|]. split; [exact Hhigh | exact Htitle].
Defined.

(** Two detection tools, of which only the first reports a
    contribution, and an entry that is [null]. *)
Lemma detection_attribution_complete_witness :
  same
    (sumOf dr_riskPoints
       (detectionBreakdown (Fin 12) (Fin 30)
          [Some (mkStrategyEntry (Some "Worker voice"%string) None
                   (JNum (num 40)) (JNum (num 80)) (JNum (num 3)));
           Some (mkStrategyEntry None None JUndefined JUndefined JNull);
           None]))
    (Fin 12).
Proof.
  apply detection_attribution_complete. discriminate.
Defined.

(** Two remedy details without a reported stage contribution. *)
Lemma detail_attribution_complete_witness :
  same
    (sumOf tr_riskPoints
       (detailBreakdown (Fin 8) (Fin 30) JUndefined
          [Some (mkDetailEntry None JUndefined JUndefined (JNum (num 1)));
           Some (mkDetailEntry None JUndefined JUndefined (JNum (num 3)))]))
    (Fin 8).
Proof.
  apply detail_attribution_complete; [discriminate | reflexivity].
Defined.


End ReportInstances.
